(** * youtube_sentiment: the batched pagination and flattening layer

    A shallow embedding of [src/youtube_sentiment/youtube.py] (classes
    [Youtube], [Video] and [Channel]) and the properties its specification
    states about it.

    The two libraries the module drives are outside the repository and are
    kept at their interface:
    - the Google API client: a request is a descriptor, [execute] and
      [list_next] are fields of the class [Runtime];
    - polars: a [DataFrame] is its named and typed columns;
      [pl.DataFrame] and [pl.concat] are embedded with the checks they
      make.  Which type polars infers for a column of Python values, and
      which column types it lets be appended to which, are its own
      business: [pl_dtype] and [pl_accepts] are fields of [Runtime].

    Building the client ([Youtube.api]) and building a request
    ([....list(...)]) are taken to succeed and to have no effect; a request
    has its effect when it is executed.  JSON numbers with a fractional part
    are not represented: every number the module reads is a count. *)

From stdpp Require Import strings list.
From Stdlib Require Import ZArith DecimalString Ascii.

Local Open Scope Z_scope.
Local Open Scope string_scope.
Local Open Scope list_scope.

(** ** Python values *)

(** What [json] decoding hands to the module: [None], booleans, integers,
    strings, lists and dictionaries with string keys.  A dictionary is kept
    as its items in insertion order, the order in which Python iterates
    over it; should a key be repeated, its first item is the one that
    counts. *)
#[warnings="-register-all"]
Inductive value : Type :=
| VNone
| VBool (b : bool)
| VInt (z : Z)
| VStr (s : string)
| VList (l : list value)
| VDict (items : list (string * value)).

(** [d.get(k)]. *)
Fixpoint dict_get (k : string) (items : list (string * value)) : option value :=
  match items with
  | [] => None
  | (k', v) :: rest => if String.eqb k' k then Some v else dict_get k rest
  end.

(** [d[k] = v]: in place of the item of [k] if there is one, else after
    the last item. *)
Fixpoint dict_set (k : string) (v : value) (items : list (string * value))
    : list (string * value) :=
  match items with
  | [] => [(k, v)]
  | (k', v') :: rest =>
      if String.eqb k' k then (k', v) :: rest else (k', v') :: dict_set k v rest
  end.

(** [list(d)]: the keys, each once, in insertion order. *)
Fixpoint dict_keys (items : list (string * value)) : list string :=
  match items with
  | [] => []
  | (k, _) :: rest => k :: filter (fun k' => k' <> k) (dict_keys rest)
  end.

(** The exceptions that occur.  [KeyError] and [IndexError] are the two
    subclasses of [LookupError]; [SchemaError] and [ShapeError] are
    polars'; [ApiError] stands for whatever the client raises for a
    transport or HTTP failure.  All are subclasses of [Exception]. *)
Inductive exn : Type :=
| KeyError (key : value)
| IndexError
| TypeError
| AttributeError
| OverflowError
| RuntimeError (msg : string)
| SchemaError
| ShapeError
| ApiError (msg : string).

Definition is_LookupError (e : exn) : bool :=
  match e with
  | KeyError _ | IndexError => true
  | _ => false
  end.

(** The result of evaluating an expression: a value or a raised
    exception. *)
Inductive result (A : Type) : Type :=
| Ok (a : A)
| Err (e : exn).
Arguments Ok {A} a.
Arguments Err {A} e.

Definition rbind {A B} (r : result A) (k : A -> result B) : result B :=
  match r with
  | Ok a => k a
  | Err e => Err e
  end.

Declare Scope py_scope.
Delimit Scope py_scope with py.
Notation "x <~ c ;; k" := (rbind c (fun x => k))
  (at level 100, c at next level, right associativity) : py_scope.
Local Open Scope py_scope.

(** ** Interpreter primitives *)

(** [v[k]] for a string literal [k]. *)
Definition subscript (v : value) (k : string) : result value :=
  match v with
  | VDict items =>
      match dict_get k items with
      | Some x => Ok x
      | None => Err (KeyError (VStr k))
      end
  | _ => Err TypeError
  end.

Definition chars (s : string) : list value :=
  map (fun c => VStr (String c EmptyString)) (String.list_ascii_of_string s).

(** [v[i]] for a non-negative integer literal [i]. *)
Definition py_index (v : value) (i : nat) : result value :=
  match v with
  | VList l =>
      match l !! i with
      | Some x => Ok x
      | None => Err IndexError
      end
  | VStr s =>
      match chars s !! i with
      | Some x => Ok x
      | None => Err IndexError
      end
  | VDict _ => Err (KeyError (VInt (Z.of_nat i)))
  | _ => Err TypeError
  end.

(** The elements [for item in v] runs through.  A dictionary yields its
    keys. *)
Definition py_iter (v : value) : result (list value) :=
  match v with
  | VList l => Ok l
  | VStr s => Ok (chars s)
  | VDict items => Ok (map VStr (dict_keys items))
  | _ => Err TypeError
  end.

(** [len(v)]. *)
Definition py_len (v : value) : result nat :=
  match v with
  | VList l => Ok (length l)
  | VStr s => Ok (String.length s)
  | VDict items => Ok (length (dict_keys items))
  | _ => Err TypeError
  end.

(** [v[i : j]] for [0 <= i <= j]: the indices are clamped to the length. *)
Definition py_slice (v : value) (i j : nat) : result value :=
  match v with
  | VList l => Ok (VList (take (j - i) (drop i l)))
  | VStr s => Ok (VStr (String.substring i (j - i) s))
  | _ => Err TypeError
  end.

(** [range(start, stop, step)] for a positive [step]: as many elements as
    CPython computes, [ceil((stop - start) / step)]. *)
Definition py_range (start stop step : nat) : list nat :=
  map (fun k => start + k * step)%nat
      (seq 0 ((stop - start + (step - 1)) / step)%nat).

(** [v > 0]: integers compare, [True > 0] holds, anything else is a
    [TypeError]. *)
Definition py_gt_zero (v : value) : result bool :=
  match v with
  | VInt z => Ok (0 <? z)%Z
  | VBool b => Ok b
  | _ => Err TypeError
  end.

(** [v == "literal"]. *)
Definition py_eq_str (v : value) (s : string) : bool :=
  match v with
  | VStr t => String.eqb t s
  | _ => false
  end.

Definition is_str (v : value) : bool :=
  match v with
  | VStr _ => true
  | _ => false
  end.

(** [sep.join(v)]: every element must be a [str]. *)
Fixpoint join_strs (sep : string) (l : list value) : result string :=
  match l with
  | [] => Ok ""
  | VStr s :: [] => Ok s
  | VStr s :: rest => r <~ join_strs sep rest ;; Ok (s +:+ sep +:+ r)
  | _ :: _ => Err TypeError
  end.

Definition py_join (sep : string) (v : value) : result string :=
  l <~ py_iter v ;; join_strs sep l.

(** [str(v)].  The text of a list or of a dictionary is the interpreter's
    [repr], which is taken as given. *)
Definition py_str (repr : value -> string) (v : value) : string :=
  match v with
  | VNone => "None"
  | VBool true => "True"
  | VBool false => "False"
  | VInt z => NilZero.string_of_int (Z.to_int z)
  | VStr s => s
  | VList _ | VDict _ => repr v
  end.

(** ** What the module runs against *)

Inductive resource : Type := commentThreads | channels | playlistItems | videos.

(** What [self.api.<resource>().list(...)] builds: the resource and the
    keyword arguments. *)
Record request : Type := Request {
  rq_resource : resource;
  rq_params : list (string * value)
}.

(** The column types of polars that values decoded from JSON can be given:
    [Str] is [pl.String], [ListOf d] is [pl.List(d)], [Other] any type not
    told apart here, by its name. *)
#[warnings="-register-all"]
Inductive dtype : Type :=
| Null
| Boolean
| Int64
| Str
| ListOf (inner : dtype)
| Struct (fields : list (string * dtype))
| Other (name : string).

(** What the module is given.

    The API client: [execute] performs a request against the service, whose
    condition is the [world]; [list_next] builds the request of the
    following page, or [None] after the last one.

    The interpreter: [py_repr] is its [repr] of lists and dictionaries,
    which [str] falls back on.

    polars: [pl_dtype cells] is the type it infers for a column given as
    the Python list [cells], or the exception it raises instead ([TypeError]
    for values of mixed types, [OverflowError] for an integer beyond its
    range); [pl_accepts d d2] tells whether it appends a column of type [d2]
    to one of type [d]. *)
Class Runtime : Type := {
  world : Type;
  execute : request -> world -> result value * world;
  list_next : request -> value -> result (option request);
  py_repr : value -> string;
  pl_dtype : list value -> result dtype;
  pl_accepts : dtype -> dtype -> bool
}.

(** ** polars *)

(** A table: its columns in order, each with its name, its type and its
    cells. *)
Definition DataFrame : Type := list (string * dtype * list value).

Definition frame_schema (df : DataFrame) : list (string * dtype) := map fst df.

Definition column_names (df : DataFrame) : list string := map fst (frame_schema df).

Definition dtypes (df : DataFrame) : list dtype := map snd (frame_schema df).

(** [df.to_dict(as_series=False)]: the cells of each column, by name. *)
Definition to_dict (df : DataFrame) : list (string * list value) :=
  map (fun c => (fst (fst c), snd c)) df.

(** [pl.DataFrame(schema=...)]: the columns as declared, without rows. *)
Definition pl_DataFrame_schema (schema : list (string * dtype)) : DataFrame :=
  map (fun field => (field, [])) schema.

Section Frames.
Context `{Runtime}.

(** The columns [pl.DataFrame(data=...)] builds, one after the other, each
    of the type inferred for its list. *)
Fixpoint pl_columns (data : list (string * list value)) : result DataFrame :=
  match data with
  | [] => Ok []
  | (name, cells) :: rest =>
      d <~ pl_dtype cells ;;
      df <~ pl_columns rest ;;
      Ok ((name, d, cells) :: df)
  end.

Definition same_height (df : DataFrame) : bool :=
  match df with
  | [] => true
  | c :: rest => forallb (fun c' => (length (snd c') =? length (snd c))%nat) rest
  end.

(** [pl.DataFrame(data={...})]: the columns, which must be of one
    height. *)
Definition pl_DataFrame (data : list (string * list value)) : result DataFrame :=
  df <~ pl_columns data ;;
  if same_height df then Ok df else Err ShapeError.

(** The rows of [df2] below those of [df], column by column; the columns
    keep the types they have in [df]. *)
Definition append_columns (df df2 : DataFrame) : DataFrame :=
  zip_with (fun c c2 => (fst c, snd c ++ snd c2)) df df2.

(** [pl.concat([df, df2])]: the two tables must have the same columns in
    the same order, and polars must accept the type of each column of
    [df2] for the column of [df] it goes below. *)
Definition pl_concat (df df2 : DataFrame) : result DataFrame :=
  if decide (column_names df = column_names df2) then
    if forallb (fun p => pl_accepts (fst p) (snd p)) (zip (dtypes df) (dtypes df2))
    then Ok (append_columns df df2)
    else Err SchemaError
  else Err ShapeError.

End Frames.

(** [df[name]]: the cells of a column. *)
Fixpoint column (name : string) (df : DataFrame) : option (list value) :=
  match df with
  | [] => None
  | (n, _, cells) :: rest => if String.eqb n name then Some cells else column name rest
  end.

(** ** Program state and effects *)

(** What [print] is given in the two handlers: [str(e)] and
    [traceback.format_exc()]. *)
Inductive text : Type :=
| StrOf (e : exn)
| FormatExc (e : exn).

Inductive event : Type :=
| Executed (rq : request)
| Slept (seconds : nat)
| Printed (t : text).

Section Effects.
Context `{Runtime}.

(** The service, what the program has done so far, and the instance
    dictionary of [self], where [cached_property] keeps its results. *)
Record state : Type := State {
  st_world : world;
  st_trace : list event;
  st_dict : list (string * value)
}.

(** The outcome of running a method: its value, the exception that
    escapes it, or no answer within the allotted loop iterations. *)
Inductive outcome (A : Type) : Type :=
| Returns (a : A)
| Raises (e : exn)
| Diverges.
#[global] Arguments Returns {A} a.
#[global] Arguments Raises {A} e.
#[global] Arguments Diverges {A}.

Definition M (A : Type) : Type := state -> outcome A * state.

Definition ret {A} (a : A) : M A := fun st => (Returns a, st).

Definition bind {A B} (c : M A) (k : A -> M B) : M B :=
  fun st =>
    match c st with
    | (Returns a, st') => k a st'
    | (Raises e, st') => (Raises e, st')
    | (Diverges, st') => (Diverges, st')
    end.

Definition lift {A} (r : result A) : M A :=
  fun st =>
    match r with
    | Ok a => (Returns a, st)
    | Err e => (Raises e, st)
    end.

Definition raise {A} (e : exn) : M A := fun st => (Raises e, st).

Definition diverge {A} : M A := fun st => (Diverges, st).

Definition emit (ev : event) : M unit :=
  fun st => (Returns tt, State (st_world st) (st_trace st ++ [ev]) (st_dict st)).

Definition sleep (seconds : nat) : M unit := emit (Slept seconds).

Definition print (t : text) : M unit := emit (Printed t).

(** [request.execute()]. *)
Definition api_execute (rq : request) : M value :=
  fun st =>
    let (r, w) := execute rq (st_world st) in
    lift r (State w (st_trace st ++ [Executed rq]) (st_dict st)).

(** [functools.cached_property]: the value kept under the attribute's
    name if there is one, else the body's result, kept from then on. *)
Definition cached_property (name : string) (body : M value) : M value :=
  fun st =>
    match dict_get name (st_dict st) with
    | Some v => (Returns v, st)
    | None =>
        match body st with
        | (Returns v, st') =>
            (Returns v,
             State (st_world st') (st_trace st') (dict_set name v (st_dict st')))
        | r => r
        end
    end.

End Effects.

Notation "x <- c ;; k" := (bind c (fun x => k))
  (at level 100, c at next level, right associativity) : py_scope.
Notation "c ;;; k" := (bind c (fun _ => k))
  (at level 100, right associativity) : py_scope.

(** What both paginators do in their [except Exception as e] clause before
    they [break]. *)
Definition log_exception `{Runtime} (e : exn) : M unit :=
  print (StrOf e) ;;; print (FormatExc e).

(** ** class Video *)

Module Video.

Record obj : Type := Obj {
  video_id : string;
  api_key : string
}.

Section Methods.
Context `{Runtime}.

(** The [for] loop inside the [try] of [comment_threads]: the list as
    it stands when the loop is left, and the exception that left it,
    if one did. *)
Fixpoint scan_items (items : list value) (comment_threads : list value)
    : list value * option exn :=
  match items with
  | [] => (comment_threads, None)
  | item :: rest =>
      match subscript item "kind" with
      | Err e => (comment_threads, Some e)
      | Ok kind =>
          if py_eq_str kind "youtube#commentThread" then
            match subscript item "id" with
            | Err e => (comment_threads, Some e)
            | Ok id => scan_items rest (comment_threads ++ [id])
            end
          else scan_items rest comment_threads
      end
  end.

(** The [try] block once [request.execute()] has answered: the list,
    and either the next request or the exception to handle. *)
Definition read_page (rq : request) (response : value)
    (comment_threads : list value) : list value * result (option request) :=
  match (items <~ subscript response "items" ;; py_iter items) with
  | Err e => (comment_threads, Err e)
  | Ok items =>
      match scan_items items comment_threads with
      | (comment_threads', Some e) => (comment_threads', Err e)
      | (comment_threads', None) => (comment_threads', list_next rq response)
      end
  end.

Definition try_page (rq : request) (comment_threads : list value)
    : M (list value * result (option request)) :=
  fun st =>
    match api_execute rq st with
    | (Returns response, st') =>
        (Returns (read_page rq response comment_threads), st')
    | (Raises e, st') => (Returns (comment_threads, Err e), st')
    | (Diverges, st') => (Diverges, st')
    end.

(** [while request: try: ... except Exception as e: ...; break]. *)
Fixpoint comment_threads_loop (fuel : nat) (request : option request)
    (comment_threads : list value) : M (list value) :=
  match request, fuel with
  | None, _ => ret comment_threads
  | Some _, O => diverge
  | Some rq, S fuel' =>
      p <- try_page rq comment_threads ;;
      match snd p with
      | Ok request' => comment_threads_loop fuel' request' (fst p)
      | Err e => log_exception e ;;; ret (fst p)
      end
  end.

Definition comment_threads_request (self : obj) : request :=
  Request commentThreads
    [("part", VStr "id"); ("videoId", VStr (video_id self));
     ("maxResults", VInt 100)].

(** The cached property [comment_threads]. *)
Definition comment_threads (fuel : nat) (self : obj) : M value :=
  cached_property "comment_threads"
    (comment_threads <-
       comment_threads_loop fuel (Some (comment_threads_request self)) [] ;;
     sleep 1 ;;;
     ret (VList comment_threads)).

(** The six lists [_fetch_comment_batch] fills in step. *)
Record columns : Type := Columns {
  comments : list value;
  comment_dts : list value;
  user_names : list value;
  like_cnts : list value;
  reply_cnts : list value;
  replies : list (list value)
}.

Definition no_columns : columns := Columns [] [] [] [] [] [].

(** [for reply in ...: reply = reply["snippet"]["textDisplay"];
    replies[-1].append(reply)]. *)
Fixpoint reply_texts (rs : list value) (last : list value) : result (list value) :=
  match rs with
  | [] => Ok last
  | reply :: rest =>
      snippet <~ subscript reply "snippet" ;;
      reply' <~ subscript snippet "textDisplay" ;;
      reply_texts rest (last ++ [reply'])
  end.

(** The body of the loop over [response["items"]]. *)
Definition flatten_item (c : columns) (item : value) : result columns :=
  snippet <~ subscript item "snippet" ;;
  top_level <~ subscript snippet "topLevelComment" ;;
  top_comment <~ subscript top_level "snippet" ;;
  comment <~ subscript top_comment "textDisplay" ;;
  comment_dt <~ subscript top_comment "publishedAt" ;;
  user_name <~ subscript top_comment "authorDisplayName" ;;
  like_cnt <~ subscript top_comment "likeCount" ;;
  snippet' <~ subscript item "snippet" ;;
  reply_cnt <~ subscript snippet' "totalReplyCount" ;;
  positive <~ py_gt_zero reply_cnt ;;
  last <~ (if positive : bool then
             item_replies <~ subscript item "replies" ;;
             reply_comments <~ subscript item_replies "comments" ;;
             rs <~ py_iter reply_comments ;;
             reply_texts rs []
           else Ok []) ;;
  Ok (Columns
        (comments c ++ [comment])
        (comment_dts c ++ [comment_dt])
        (user_names c ++ [user_name])
        (like_cnts c ++ [VStr (py_str py_repr like_cnt)])
        (reply_cnts c ++ [VStr (py_str py_repr reply_cnt)])
        (replies c ++ [last])).

Fixpoint flatten_items (items : list value) (c : columns) : result columns :=
  match items with
  | [] => Ok c
  | item :: rest => c' <~ flatten_item c item ;; flatten_items rest c'
  end.

(** [pl.DataFrame(data={...})]. *)
Definition to_frame (c : columns) : result DataFrame :=
  pl_DataFrame
    [("comment", comments c); ("comment_dt", comment_dts c);
     ("user_name", user_names c); ("like_cnt", like_cnts c);
     ("reply_cnt", reply_cnts c); ("replies", map VList (replies c))].

Definition batch_request (comment_ids : string) : request :=
  Request commentThreads
    [("part", VStr "snippet,replies"); ("id", VStr comment_ids);
     ("maxResults", VInt 50)].

Definition _fetch_comment_batch (self : obj) (comment_batch : value)
    : M DataFrame :=
  comment_ids <- lift (py_join "," comment_batch) ;;
  response <- api_execute (batch_request comment_ids) ;;
  items <- lift (items <~ subscript response "items" ;; py_iter items) ;;
  c <- lift (flatten_items items no_columns) ;;
  lift (to_frame c).

Definition schema : list (string * dtype) :=
  [("comment", Str); ("comment_dt", Str); ("user_name", Str);
   ("like_cnt", Str); ("reply_cnt", Str); ("replies", ListOf Str)].

(** The loop of [fetch_comments] over [range(0, len(...), 50)]. *)
Fixpoint fetch_comments_loop (fuel : nat) (self : obj) (indices : list nat)
    (df : DataFrame) : M DataFrame :=
  match indices with
  | [] => ret df
  | i :: rest =>
      threads <- comment_threads fuel self ;;
      comment_batch <- lift (py_slice threads i (i + 50)) ;;
      df2 <- _fetch_comment_batch self comment_batch ;;
      sleep 1 ;;;
      df' <- lift (pl_concat df df2) ;;
      fetch_comments_loop fuel self rest df'
  end.

Definition fetch_comments (fuel : nat) (self : obj) : M DataFrame :=
  let df := pl_DataFrame_schema schema in
  threads <- comment_threads fuel self ;;
  n <- lift (py_len threads) ;;
  fetch_comments_loop fuel self (py_range 0 n 50) df.

End Methods.

End Video.


(** ** class Channel *)

Module Channel.

Record obj : Type := Obj {
  channel_handle : string;
  api_key : string
}.

Section Methods.
Context `{Runtime}.

Definition channels_request (self : obj) : request :=
  Request channels
    [("part", VStr "id,contentDetails"); ("forHandle", VStr (channel_handle self))].

(** The cached property [channel_id]. *)
Definition channel_id (self : obj) : M value :=
  cached_property "channel_id"
    (response <- api_execute (channels_request self) ;;
     items <- lift (subscript response "items") ;;
     n <- lift (py_len items) ;;
     if (1 <? n)%nat then
       raise (RuntimeError "More than one response received, handle is ambiguous")
     else
       sleep 1 ;;;
       lift (items' <~ subscript response "items" ;;
             first <~ py_index items' 0 ;;
             subscript first "id")).

(** The cached property [uploads_id]. *)
Definition uploads_id (self : obj) : M value :=
  cached_property "uploads_id"
    (response <- api_execute (channels_request self) ;;
     items <- lift (subscript response "items") ;;
     n <- lift (py_len items) ;;
     if (1 <? n)%nat then
       raise (RuntimeError "More than one response received, channel id ambiguous")
     else
       sleep 1 ;;;
       lift (items' <~ subscript response "items" ;;
             first <~ py_index items' 0 ;;
             details <~ subscript first "contentDetails" ;;
             related <~ subscript details "relatedPlaylists" ;;
             subscript related "uploads")).

(** The [for] loop inside the [try] of [video_ids]: the list as it stands
    when the loop is left, and the exception that left it, if one did. *)
Fixpoint scan_items (items : list value) (video_ids : list value)
    : list value * option exn :=
  match items with
  | [] => (video_ids, None)
  | item :: rest =>
      match (snippet <~ subscript item "snippet" ;;
             resource <~ subscript snippet "resourceId" ;;
             kind <~ subscript resource "kind" ;;
             Ok (resource, kind)) with
      | Err e => (video_ids, Some e)
      | Ok (resource, kind) =>
          if py_eq_str kind "youtube#video" then
            match subscript resource "videoId" with
            | Err e => (video_ids, Some e)
            | Ok video_id => scan_items rest (video_ids ++ [video_id])
            end
          else scan_items rest video_ids
      end
  end.

Definition read_page (rq : request) (response : value)
    (video_ids : list value) : list value * result (option request) :=
  match (items <~ subscript response "items" ;; py_iter items) with
  | Err e => (video_ids, Err e)
  | Ok items =>
      match scan_items items video_ids with
      | (video_ids', Some e) => (video_ids', Err e)
      | (video_ids', None) => (video_ids', list_next rq response)
      end
  end.

Definition try_page (rq : request) (video_ids : list value)
    : M (list value * result (option request)) :=
  fun st =>
    match api_execute rq st with
    | (Returns response, st') => (Returns (read_page rq response video_ids), st')
    | (Raises e, st') => (Returns (video_ids, Err e), st')
    | (Diverges, st') => (Diverges, st')
    end.

(** [while request: try: ...; sleep(1) except Exception as e: ...; break]. *)
Fixpoint video_ids_loop (fuel : nat) (request : option request)
    (video_ids : list value) : M (list value) :=
  match request, fuel with
  | None, _ => ret video_ids
  | Some _, O => diverge
  | Some rq, S fuel' =>
      p <- try_page rq video_ids ;;
      match snd p with
      | Ok request' => sleep 1 ;;; video_ids_loop fuel' request' (fst p)
      | Err e => log_exception e ;;; ret (fst p)
      end
  end.

Definition video_ids_request (uploads : value) : request :=
  Request playlistItems
    [("part", VStr "snippet"); ("playlistId", uploads); ("maxResults", VInt 50)].

(** The cached property [video_ids]. *)
Definition video_ids (fuel : nat) (self : obj) : M value :=
  cached_property "video_ids"
    (uploads <- uploads_id self ;;
     video_ids <- video_ids_loop fuel (Some (video_ids_request uploads)) [] ;;
     ret (VList video_ids)).

(** The nine lists [_fetch_video_batch] fills in step. *)
Record columns : Type := Columns {
  video_ids_col : list value;
  published_dts : list value;
  video_titles : list value;
  video_descriptions : list value;
  video_tags : list value;
  view_cnts : list value;
  like_cnts : list value;
  fave_cnts : list value;
  comment_cnts : list value
}.

Definition no_columns : columns := Columns [] [] [] [] [] [] [] [] [].

(** The body of the loop over [response["items"]]. *)
Definition flatten_item (c : columns) (item : value) : result columns :=
  kind <~ subscript item "kind" ;;
  if py_eq_str kind "youtube#video" then
    video_id <~ subscript item "id" ;;
    snippet <~ subscript item "snippet" ;;
    published_dt <~ subscript snippet "publishedAt" ;;
    video_title <~ subscript snippet "title" ;;
    video_description <~ subscript snippet "description" ;;
    video_tag <~ subscript snippet "tags" ;;
    stats <~ subscript item "statistics" ;;
    view_cnt <~ subscript stats "viewCount" ;;
    like_cnt <~ subscript stats "likeCount" ;;
    fave_cnt <~ subscript stats "favoriteCount" ;;
    comment_cnt <~ subscript stats "commentCount" ;;
    Ok (Columns
          (video_ids_col c ++ [video_id])
          (published_dts c ++ [published_dt])
          (video_titles c ++ [video_title])
          (video_descriptions c ++ [video_description])
          (video_tags c ++ [video_tag])
          (view_cnts c ++ [view_cnt])
          (like_cnts c ++ [like_cnt])
          (fave_cnts c ++ [fave_cnt])
          (comment_cnts c ++ [comment_cnt]))
  else Ok c.

Fixpoint flatten_items (items : list value) (c : columns) : result columns :=
  match items with
  | [] => Ok c
  | item :: rest => c' <~ flatten_item c item ;; flatten_items rest c'
  end.

(** [pl.DataFrame(data={...})]. *)
Definition to_frame (c : columns) : result DataFrame :=
  pl_DataFrame
    [("video_id", video_ids_col c); ("published_dt", published_dts c);
     ("video_title", video_titles c); ("video_description", video_descriptions c);
     ("video_tags", video_tags c); ("view_cnt", view_cnts c);
     ("like_cnt", like_cnts c); ("fave_cnt", fave_cnts c);
     ("comment_cnt", comment_cnts c)].

Definition batch_request (video_ids : string) : request :=
  Request videos
    [("part", VStr "id,snippet,statistics"); ("id", VStr video_ids);
     ("maxResults", VInt 50)].

Definition _fetch_video_batch (self : obj) (video_batch : value) : M DataFrame :=
  video_ids <- lift (py_join "," video_batch) ;;
  response <- api_execute (batch_request video_ids) ;;
  items <- lift (items <~ subscript response "items" ;; py_iter items) ;;
  c <- lift (flatten_items items no_columns) ;;
  lift (to_frame c).

Definition schema : list (string * dtype) :=
  [("video_id", Str); ("published_dt", Str); ("video_title", Str);
   ("video_description", Str); ("video_tags", ListOf Str); ("view_cnt", Str);
   ("like_cnt", Str); ("fave_cnt", Str); ("comment_cnt", Str)].

(** The loop of [fetch_videos] over [range(0, len(...), 50)]. *)
Fixpoint fetch_videos_loop (fuel : nat) (self : obj) (indices : list nat)
    (df : DataFrame) : M DataFrame :=
  match indices with
  | [] => ret df
  | i :: rest =>
      ids <- video_ids fuel self ;;
      video_batch <- lift (py_slice ids i (i + 50)) ;;
      df2 <- _fetch_video_batch self video_batch ;;
      sleep 1 ;;;
      df' <- lift (pl_concat df df2) ;;
      fetch_videos_loop fuel self rest df'
  end.

Definition fetch_videos (fuel : nat) (self : obj) : M DataFrame :=
  let df := pl_DataFrame_schema schema in
  ids <- video_ids fuel self ;;
  n <- lift (py_len ids) ;;
  fetch_videos_loop fuel self (py_range 0 n 50) df.

End Methods.

End Channel.

(** * Specification-side definitions *)

(** ** Batching *)

(** The slices the two [fetch_*] loops cut out of a list of identifiers. *)
Definition batches (ids : list value) : list (list value) :=
  map (fun i => take 50 (drop i ids)) (py_range 0 (length ids) 50).

Section Runs.
Context `{Runtime}.

(** The state once [sleep(1)] has returned. *)
Definition slept (st : state) : state :=
  State (st_world st) (st_trace st ++ [Slept 1]) (st_dict st).

(** [runs fetch bs st dfs st']: calling [fetch] on the batches [bs] one
    after the other, each in the state its predecessor and the nap after
    it left, returns the tables [dfs] and ends in [st']. *)
Inductive runs (fetch : value -> M DataFrame)
    : list (list value) -> state -> list DataFrame -> state -> Prop :=
| runs_nil st : runs fetch [] st [] st
| runs_cons b bs st df2 st1 dfs st2 :
    fetch (VList b) st = (Returns df2, st1) ->
    runs fetch bs (slept st1) dfs st2 ->
    runs fetch (b :: bs) st (df2 :: dfs) st2.

(** The comma-separated identifiers of a batch. *)
Definition joined (b : list value) : string :=
  match py_join "," (VList b) with
  | Ok s => s
  | Err _ => ""
  end.

(** The requests a trace records, in the order they were executed. *)
Definition executed (trace : list event) : list request :=
  omap (fun ev => match ev with Executed rq => Some rq | _ => None end) trace.

(** What was printed, in order. *)
Definition printed (trace : list event) : list text :=
  omap (fun ev => match ev with Printed t => Some t | _ => None end) trace.

End Runs.

(** The table that holds the rows of [dfs], in order, below those of [df]. *)
Definition stack (dfs : list DataFrame) (df : DataFrame) : DataFrame :=
  fold_left append_columns dfs df.

Definition cells (name : string) (df : DataFrame) : list value :=
  default [] (column name df).

(** The cells of a column, read off the lists a table was built from. *)
Fixpoint dict_column (name : string) (data : list (string * list value))
    : option (list value) :=
  match data with
  | [] => None
  | (n, cells) :: rest => if String.eqb n name then Some cells else dict_column name rest
  end.

(** polars lets [df2] go below a table of the columns [schema]. *)
Definition fits `{Runtime} (schema : list (string * dtype)) (df2 : DataFrame) : bool :=
  match pl_concat (pl_DataFrame_schema schema) df2 with
  | Ok _ => true
  | Err _ => false
  end.

(** ** Columns of text *)






Section Typing.
Context `{Runtime}.

(** Each column has the type polars infers for its cells. *)
Definition well_typed (df : DataFrame) : Prop :=
  Forall (fun col => pl_dtype (snd col) = Ok (snd (fst col))) df.


End Typing.

(** ** The shape the two [fetch_*] loops share *)

Section BatchLoop.
Context `{Runtime}.
Variable ids_property : M value.
Variable fetch_batch : value -> M DataFrame.

Fixpoint batch_loop (indices : list nat) (df : DataFrame) : M DataFrame :=
  match indices with
  | [] => ret df
  | i :: rest =>
      ids <- ids_property ;;
      batch <- lift (py_slice ids i (i + 50)) ;;
      df2 <- fetch_batch batch ;;
      sleep 1 ;;;
      df' <- lift (pl_concat df df2) ;;
      batch_loop rest df'
  end.

End BatchLoop.

(** A computation that leaves the instance dictionary as it found it. *)
Definition keeps_dict `{Runtime} {A} (c : M A) : Prop :=
  forall st r st', c st = (r, st') -> st_dict st' = st_dict st.

(** The two messages of the ambiguity error. *)
Definition ambiguous_handle : exn :=
  RuntimeError "More than one response received, handle is ambiguous".

Definition ambiguous_channel : exn :=
  RuntimeError "More than one response received, channel id ambiguous".

Definition is_RuntimeError (e : exn) : bool :=
  match e with
  | RuntimeError _ => true
  | _ => false
  end.

(** ** Paginated sources *)

(** How a listing ends: its last page carries no continuation, or a
    request fails. *)
Inductive ending : Type :=
| Exhausted
| Failed (e : exn).

Section Sources.
Context `{Runtime}.

(** [serves rq w pages how w']: asked [rq] in the world [w], the service
    answers the pages [pages] one after the other, each continued by
    [list_next] into the request of the next, and the listing ends as [how]
    says, in the world [w']. *)
Inductive serves : request -> world -> list value -> ending -> world -> Prop :=
| serves_last rq w page w' :
    execute rq w = (Ok page, w') ->
    list_next rq page = Ok None ->
    serves rq w [page] Exhausted w'
| serves_failure rq w e w' :
    execute rq w = (Err e, w') ->
    serves rq w [] (Failed e) w'
| serves_more rq w page w' rq' pages how w'' :
    execute rq w = (Ok page, w') ->
    list_next rq page = Ok (Some rq') ->
    serves rq' w' pages how w'' ->
    serves rq w (page :: pages) how w''.

(** What the handler of a paginator prints for an ending. *)
Definition logged (how : ending) : list text :=
  match how with
  | Exhausted => []
  | Failed e => [StrOf e; FormatExc e]
  end.

(** The shape the two paginator loops share: [scan] is the [for] loop
    over the items of a page and [nap] what follows [list_next] inside the
    [try]. *)
Section PageLoop.
Variable scan : list value -> list value -> list value * option exn.
Variable nap : M unit.

Definition read_page (rq : request) (response : value) (acc : list value)
    : list value * result (option request) :=
  match (items <~ subscript response "items" ;; py_iter items) with
  | Err e => (acc, Err e)
  | Ok items =>
      match scan items acc with
      | (acc', Some e) => (acc', Err e)
      | (acc', None) => (acc', list_next rq response)
      end
  end.

Definition try_page (rq : request) (acc : list value)
    : M (list value * result (option request)) :=
  fun st =>
    match api_execute rq st with
    | (Returns response, st') => (Returns (read_page rq response acc), st')
    | (Raises e, st') => (Returns (acc, Err e), st')
    | (Diverges, st') => (Diverges, st')
    end.

Fixpoint page_loop (fuel : nat) (request : option request) (acc : list value)
    : M (list value) :=
  match request, fuel with
  | None, _ => ret acc
  | Some _, O => diverge
  | Some rq, S fuel' =>
      p <- try_page rq acc ;;
      match snd p with
      | Ok request' => nap ;;; page_loop fuel' request' (fst p)
      | Err e => log_exception e ;;; ret (fst p)
      end
  end.

End PageLoop.
End Sources.

(** The items of a page, when it has a list of them. *)
Definition page_items (page : value) : list value :=
  match subscript page "items" with
  | Ok (VList items) => items
  | _ => []
  end.

(** The items of a run of pages, in the order they were served. *)
Definition all_items (pages : list value) : list value :=
  concat (map page_items pages).

Definition is_ok {A} (r : result A) : bool :=
  match r with
  | Ok _ => true
  | Err _ => false
  end.

(** A page whose items are a list of items the paginator can read. *)
Definition page_readable (readable : value -> bool) (page : value) : bool :=
  match subscript page "items" with
  | Ok (VList items) => forallb readable items
  | _ => false
  end.

Definition to_option {A} (r : result A) : option A :=
  match r with
  | Ok a => Some a
  | Err _ => None
  end.

(** Comment threads among the items of a listing. *)
Definition is_thread (item : value) : bool :=
  match subscript item "kind" with
  | Ok kind => py_eq_str kind "youtube#commentThread"
  | Err _ => false
  end.

(** An item [Video.comment_threads] can read: it has a kind, and an
    identifier if it is a comment thread. *)
Definition thread_readable (item : value) : bool :=
  is_ok (subscript item "kind") &&
  (if is_thread item then is_ok (subscript item "id") else true).

(** The identifier a comment thread contributes; other items contribute
    nothing. *)
Definition thread_id (item : value) : option value :=
  if is_thread item then to_option (subscript item "id") else None.

Definition thread_ids (items : list value) : list value := omap thread_id items.

(** The resource a playlist item points to. *)
Definition resource_of (item : value) : result value :=
  snippet <~ subscript item "snippet" ;; subscript snippet "resourceId".

(** Videos among the items of a playlist. *)
Definition is_video_entry (item : value) : bool :=
  match (resource <~ resource_of item ;; subscript resource "kind") with
  | Ok kind => py_eq_str kind "youtube#video"
  | Err _ => false
  end.

(** An item [Channel.video_ids] can read: its resource has a kind, and a
    video identifier if it is a video. *)
Definition entry_readable (item : value) : bool :=
  is_ok (resource <~ resource_of item ;; subscript resource "kind") &&
  (if is_video_entry item
   then is_ok (resource <~ resource_of item ;; subscript resource "videoId")
   else true).

(** The identifier a video entry contributes; other items contribute
    nothing. *)
Definition entry_id (item : value) : option value :=
  if is_video_entry item
  then to_option (resource <~ resource_of item ;; subscript resource "videoId")
  else None.

Definition entry_ids (items : list value) : list value := omap entry_id items.

(** ** Flat records

    What the specification calls the flat record of an item, read off the
    item by the paths of its fields. *)

(** [v[k1][k2]...]. *)
Fixpoint get_path (v : value) (path : list string) : result value :=
  match path with
  | [] => Ok v
  | k :: rest => x <~ subscript v k ;; get_path x rest
  end.

(** Evaluate in order, stopping at the first exception. *)
Fixpoint map_result {A B} (f : A -> result B) (l : list A) : result (list B) :=
  match l with
  | [] => Ok []
  | a :: rest => b <~ f a ;; bs <~ map_result f rest ;; Ok (b :: bs)
  end.

Definition is_dict (v : value) : bool :=
  match v with
  | VDict _ => true
  | _ => false
  end.

(** A field that, if it is there at all, is an object. *)
Definition object_if_present (r : result value) : bool :=
  match r with
  | Ok (VDict _) => true
  | Ok _ => false
  | Err (KeyError _) => true
  | Err _ => false
  end.

(** A field that, if it is there at all, compares with [0]. *)
Definition count_if_present (r : result value) : bool :=
  match r with
  | Ok (VInt _) | Ok (VBool _) => true
  | Ok _ => false
  | Err (KeyError _) => true
  | Err _ => false
  end.

(** The item with its kind tag set to [kind]. *)
Definition with_kind (kind : value) (item : value) : value :=
  match item with
  | VDict fields => VDict (dict_set "kind" kind fields)
  | _ => item
  end.

(** A table all of whose columns have [n] cells. *)
Definition has_rows (n : nat) (df : DataFrame) : Prop :=
  Forall (fun col => length (snd col) = n) df.

Module CommentRecord.

Record t : Type := Make {
  comment_text : value;
  published_at : value;
  author_name : value;
  like_count : value;
  reply_count : value;
  replies : list value
}.

Definition top : list string := ["snippet"; "topLevelComment"; "snippet"].

(** The fields read of every comment thread, in the order they are read. *)
Definition paths : list (list string) :=
  [top ++ ["textDisplay"]; top ++ ["publishedAt"]; top ++ ["authorDisplayName"];
   top ++ ["likeCount"]; ["snippet"; "totalReplyCount"]].

(** The fields read of a thread that counts replies, and of each reply. *)
Definition replies_path : list string := ["replies"; "comments"].
Definition reply_path : list string := ["snippet"; "textDisplay"].

Definition reply_texts (item : value) : result (list value) :=
  comments <~ get_path item replies_path ;;
  rs <~ py_iter comments ;;
  map_result (fun reply => get_path reply reply_path) rs.

(** The flat record of a comment thread. *)
Definition of_item (item : value) : result t :=
  comment <~ get_path item (top ++ ["textDisplay"]) ;;
  comment_dt <~ get_path item (top ++ ["publishedAt"]) ;;
  user_name <~ get_path item (top ++ ["authorDisplayName"]) ;;
  like_cnt <~ get_path item (top ++ ["likeCount"]) ;;
  reply_cnt <~ get_path item ["snippet"; "totalReplyCount"] ;;
  positive <~ py_gt_zero reply_cnt ;;
  texts <~ (if positive : bool then reply_texts item else Ok []) ;;
  Ok (Make comment comment_dt user_name like_cnt reply_cnt texts).

(** The row a record adds to the columns. *)
Definition add_row `{Runtime} (c : Video.columns) (r : t) : Video.columns :=
  Video.Columns
    (Video.comments c ++ [comment_text r])
    (Video.comment_dts c ++ [published_at r])
    (Video.user_names c ++ [author_name r])
    (Video.like_cnts c ++ [VStr (py_str py_repr (like_count r))])
    (Video.reply_cnts c ++ [VStr (py_str py_repr (reply_count r))])
    (Video.replies c ++ [replies r]).

Definition reply_shaped (reply : value) : bool :=
  is_dict reply && object_if_present (get_path reply ["snippet"]).

(** An item that is an object, and whose parts that are there are of the
    type the service documents. *)
Definition shaped (item : value) : bool :=
  is_dict item &&
  object_if_present (get_path item ["snippet"]) &&
  object_if_present (get_path item ["snippet"; "topLevelComment"]) &&
  object_if_present (get_path item top) &&
  count_if_present (get_path item ["snippet"; "totalReplyCount"]) &&
  object_if_present (get_path item ["replies"]) &&
  match get_path item replies_path with
  | Ok (VList rs) => forallb reply_shaped rs
  | Ok _ => false
  | Err (KeyError _) => true
  | Err _ => false
  end.

(** An item none of whose expected fields is absent: the replies are
    expected of an item whose reply count is positive. *)
Definition complete (item : value) : bool :=
  forallb (fun p => is_ok (get_path item p)) paths &&
  match (reply_cnt <~ get_path item ["snippet"; "totalReplyCount"] ;;
         py_gt_zero reply_cnt) with
  | Ok true =>
      match get_path item replies_path with
      | Ok (VList rs) => forallb (fun reply => is_ok (get_path reply reply_path)) rs
      | Ok _ => true
      | Err _ => false
      end
  | _ => true
  end.

End CommentRecord.

Module VideoRecord.

Record t : Type := Make {
  video_id : value;
  published_at : value;
  title : value;
  description : value;
  tags : value;
  view_count : value;
  like_count : value;
  favorite_count : value;
  comment_count : value
}.

(** The fields read of every video, in the order they are read. *)
Definition paths : list (list string) :=
  [["id"]; ["snippet"; "publishedAt"]; ["snippet"; "title"];
   ["snippet"; "description"]; ["snippet"; "tags"];
   ["statistics"; "viewCount"]; ["statistics"; "likeCount"];
   ["statistics"; "favoriteCount"]; ["statistics"; "commentCount"]].

(** The flat record of a video. *)
Definition of_item (item : value) : result t :=
  video_id <~ get_path item ["id"] ;;
  published_dt <~ get_path item ["snippet"; "publishedAt"] ;;
  video_title <~ get_path item ["snippet"; "title"] ;;
  video_description <~ get_path item ["snippet"; "description"] ;;
  video_tag <~ get_path item ["snippet"; "tags"] ;;
  view_cnt <~ get_path item ["statistics"; "viewCount"] ;;
  like_cnt <~ get_path item ["statistics"; "likeCount"] ;;
  fave_cnt <~ get_path item ["statistics"; "favoriteCount"] ;;
  comment_cnt <~ get_path item ["statistics"; "commentCount"] ;;
  Ok (Make video_id published_dt video_title video_description video_tag
           view_cnt like_cnt fave_cnt comment_cnt).

(** The row a record adds to the columns. *)
Definition add_row (c : Channel.columns) (r : t) : Channel.columns :=
  Channel.Columns
    (Channel.video_ids_col c ++ [video_id r])
    (Channel.published_dts c ++ [published_at r])
    (Channel.video_titles c ++ [title r])
    (Channel.video_descriptions c ++ [description r])
    (Channel.video_tags c ++ [tags r])
    (Channel.view_cnts c ++ [view_count r])
    (Channel.like_cnts c ++ [like_count r])
    (Channel.fave_cnts c ++ [favorite_count r])
    (Channel.comment_cnts c ++ [comment_count r]).

(** Videos among the items of a response. *)
Definition is_video (item : value) : bool :=
  match subscript item "kind" with
  | Ok kind => py_eq_str kind "youtube#video"
  | Err _ => false
  end.

(** What an item of a response contributes: the record of a video,
    nothing for an item of another kind. *)
Definition of_any (item : value) : result (option t) :=
  kind <~ subscript item "kind" ;;
  if py_eq_str kind "youtube#video"
  then r <~ of_item item ;; Ok (Some r)
  else Ok None.

Definition records (rows : list (option t)) : list t := omap id rows.

(** An item that is an object, and whose parts that are there are
    objects. *)
Definition shaped (item : value) : bool :=
  is_dict item &&
  object_if_present (get_path item ["snippet"]) &&
  object_if_present (get_path item ["statistics"]).

(** An item none of whose expected fields is absent: its kind, and the
    fields of a video if it is one. *)
Definition complete (item : value) : bool :=
  is_ok (subscript item "kind") &&
  (if is_video item then forallb (fun p => is_ok (get_path item p)) paths else true).

End VideoRecord.

(** * Trying the methods out *)

(** ** A scripted client

    A client that answers from a script, for trying the methods on
    concrete responses: [execute] hands out the next scripted answer, and
    [list_next] follows the response's [nextPageToken] the way the Google
    client does.  With it comes a stand-in for polars that knows the
    columns the samples make: columns of text, of integers, of booleans,
    and of lists of those. *)
Module Scripted.

Definition execute (rq : request) (script : list (result value))
    : result value * list (result value) :=
  match script with
  | [] => (Err (ApiError "script exhausted"), [])
  | answer :: rest => (answer, rest)
  end.

Definition list_next (rq : request) (response : value) : result (option request) :=
  match response with
  | VDict items =>
      match dict_get "nextPageToken" items with
      | Some (VStr "") | Some VNone | None => Ok None
      | Some token =>
          Ok (Some (Request (rq_resource rq) (rq_params rq ++ [("pageToken", token)])))
      end
  | _ => Err AttributeError
  end.

(** The type of a column of scalars: that of its first value other than
    [None], which the values after it must have too; an integer must fit
    in 64 bits. *)
Fixpoint scalars_dtype (d : dtype) (cells : list value) : result dtype :=
  match cells with
  | [] => Ok d
  | VNone :: rest => scalars_dtype d rest
  | VBool _ :: rest =>
      match d with
      | Null | Boolean => scalars_dtype Boolean rest
      | _ => Err TypeError
      end
  | VInt z :: rest =>
      match d with
      | Null | Int64 =>
          if ((- 2 ^ 63 <=? z) && negb (2 ^ 63 <=? z))%Z
          then scalars_dtype Int64 rest
          else Err OverflowError
      | _ => Err TypeError
      end
  | VStr _ :: rest =>
      match d with
      | Null | Str => scalars_dtype Str rest
      | _ => Err TypeError
      end
  | (VList _ | VDict _) :: _ => Err TypeError
  end.

(** The values of a column of lists, all together. *)
Fixpoint list_cells (cells : list value) : option (list value) :=
  match cells with
  | [] => Some []
  | VNone :: rest => list_cells rest
  | VList l :: rest => option_map (app l) (list_cells rest)
  | _ :: _ => None
  end.

Definition has_list (cells : list value) : bool :=
  existsb (fun v => match v with VList _ => true | _ => false end) cells.

Definition has_dict (cells : list value) : bool :=
  existsb (fun v => match v with VDict _ => true | _ => false end) cells.

Definition pl_dtype (cells : list value) : result dtype :=
  if has_list cells then
    match list_cells cells with
    | Some inner =>
        if has_list inner || has_dict inner then Ok (ListOf (Other "nested"))
        else d <~ scalars_dtype Null inner ;; Ok (ListOf d)
    | None => Err TypeError
    end
  else if has_dict cells then
    if forallb (fun v => match v with VDict _ | VNone => true | _ => false end) cells
    then Ok (Other "Struct")
    else Err TypeError
  else scalars_dtype Null cells.

(** A column goes below one of its own type; one that holds no value goes
    below any. *)
Fixpoint pl_accepts (d d2 : dtype) : bool :=
  match d2, d with
  | Null, _ => true
  | Boolean, Boolean | Int64, Int64 | Str, Str => true
  | ListOf inner2, ListOf inner => pl_accepts inner inner2
  | _, _ => false
  end.

#[export] Instance client : Runtime := {
  world := list (result value);
  execute := execute;
  list_next := list_next;
  py_repr := fun _ => "<repr>";
  pl_dtype := pl_dtype;
  pl_accepts := pl_accepts
}.

Definition start (script : list (result value)) : state := State script [] [].

End Scripted.

(** ** Sample responses

    Responses in the shape the service documents, for trying the methods
    on. *)
Module Samples.

Definition dict (fields : list (string * value)) : value := VDict fields.

(** A page of a listing: its items, and the token of the next page if
    there is one. *)
Definition page (items : list value) (next : option string) : value :=
  match next with
  | Some token => dict [("items", VList items); ("nextPageToken", VStr token)]
  | None => dict [("items", VList items)]
  end.

(** An item of [commentThreads.list(part="id")]. *)
Definition thread_stub (id : string) : value :=
  dict [("kind", VStr "youtube#commentThread"); ("id", VStr id)].

(** An item of another kind. *)
Definition other_stub (id : string) : value :=
  dict [("kind", VStr "youtube#comment"); ("id", VStr id)].

Definition reply (text : string) : value :=
  dict [("kind", VStr "youtube#comment");
        ("snippet", dict [("textDisplay", VStr text)])].

Definition top_level_comment (text : string) (likes : Z) : value :=
  dict [("kind", VStr "youtube#comment");
        ("snippet", dict [("textDisplay", VStr text);
                          ("publishedAt", VStr "2024-01-01T00:00:00Z");
                          ("authorDisplayName", VStr "@someone");
                          ("likeCount", VInt likes)])].

(** An item of [commentThreads.list(part="snippet,replies")]; the service
    leaves [replies] out of a thread that has none. *)
Definition comment_thread (text : string) (likes : Z) (total_replies : Z)
    (replies : option (list string)) : value :=
  let snippet := dict [("topLevelComment", top_level_comment text likes);
                       ("totalReplyCount", VInt total_replies)] in
  match replies with
  | Some texts =>
      dict [("kind", VStr "youtube#commentThread"); ("snippet", snippet);
            ("replies", dict [("comments", VList (map reply texts))])]
  | None =>
      dict [("kind", VStr "youtube#commentThread"); ("snippet", snippet)]
  end.

(** An item of [playlistItems.list(part="snippet")]. *)
Definition playlist_item (kind video_id : string) : value :=
  dict [("kind", VStr "youtube#playlistItem");
        ("snippet", dict [("resourceId",
                           dict [("kind", VStr kind); ("videoId", VStr video_id)])])].

Definition statistics (views : value) : value :=
  dict [("viewCount", views); ("likeCount", VStr "10");
        ("favoriteCount", VStr "0"); ("commentCount", VStr "3")].

(** An item of [videos.list(part="id,snippet,statistics")]; the service
    leaves [tags] out of a video that has none. *)
Definition video_item (id : string) (tags : option (list string)) (views : value)
    : value :=
  let base := [("publishedAt", VStr "2024-01-01T00:00:00Z");
               ("title", VStr "a title"); ("description", VStr "a description")] in
  let snippet :=
    match tags with
    | Some ts => dict (base ++ [("tags", VList (map VStr ts))])
    | None => dict base
    end in
  dict [("kind", VStr "youtube#video"); ("id", VStr id);
        ("snippet", snippet); ("statistics", statistics views)].

(** An item of [channels.list(part="id,contentDetails")]. *)
Definition channel_item (id uploads : string) : value :=
  dict [("kind", VStr "youtube#channel"); ("id", VStr id);
        ("contentDetails",
         dict [("relatedPlaylists", dict [("uploads", VStr uploads)])])].

(** [n] identifiers: [prefix0], [prefix1], ... *)
Definition numbered (prefix : string) (n : nat) : list string :=
  map (fun k => prefix +:+ NilZero.string_of_uint (Nat.to_uint k)) (seq 0 n).

Definition video : Video.obj := Video.Obj "dQw4w9WgXcQ" "key".
Definition channel : Channel.obj := Channel.Obj "@LylaMev" "key".

(** A session with a video that has 51 comment threads: the listing, then
    the answers to the two batches. *)
Definition video_session : state :=
  Scripted.start
    [Ok (page (map thread_stub (numbered "t" 51)) None);
     Ok (page [comment_thread "first" 3 0 None;
               comment_thread "second" 0 2 (Some ["r1"; "r2"])] None);
     Ok (page [comment_thread "third" 1 1 (Some ["r3"])] None)].

(** A session with a channel that has 51 uploads: the channel, the
    listing of its uploads, then the answers to the two batches. *)
Definition channel_session : state :=
  Scripted.start
    [Ok (page [channel_item "UC1" "UU1"] None);
     Ok (page (map (playlist_item "youtube#video") (numbered "v" 51)) None);
     Ok (page [video_item "v0" (Some ["a"; "b"]) (VStr "100");
               other_stub "x";
               video_item "v1" (Some []) (VStr "7")] None);
     Ok (page [video_item "v50" (Some ["c"]) (VStr "1")] None)].

(** A listing of comment threads in three pages, with items of another
    kind among them. *)
Definition thread_pages : list value :=
  [page [thread_stub "t1"; other_stub "o1"; thread_stub "t2"] (Some "p2");
   page [other_stub "o2"] (Some "p3");
   page [thread_stub "t3"] None].

(** The uploads of a channel in three pages, with an entry that is not a
    video among them. *)
Definition upload_pages : list value :=
  [page [playlist_item "youtube#video" "v1"; playlist_item "youtube#channel" "c1"]
        (Some "p2");
   page [playlist_item "youtube#video" "v2"] (Some "p3");
   page [playlist_item "youtube#video" "v3"] None].

(** Sessions in which the listing goes through. *)
Definition listing_session : state := Scripted.start (map Ok thread_pages).

Definition uploads_session : state :=
  Scripted.start (Ok (page [channel_item "UC1" "UU1"] None) :: map Ok upload_pages).

(** Sessions in which the second page of three fails. *)
Definition broken_listing_session : state :=
  Scripted.start
    [Ok (page [thread_stub "t1"; other_stub "o1"; thread_stub "t2"] (Some "p2"));
     Err (ApiError "quotaExceeded");
     Ok (page [thread_stub "t3"] None)].

Definition broken_uploads_session : state :=
  Scripted.start
    [Ok (page [channel_item "UC1" "UU1"] None);
     Ok (page [playlist_item "youtube#video" "v1"; playlist_item "youtube#channel" "c1"]
              (Some "p2"));
     Err (ApiError "quotaExceeded");
     Ok (page [playlist_item "youtube#video" "v3"] None)].

(** Sessions in which the second item of a batch lacks a field: a thread
    that counts replies and carries none, a video without [tags]. *)
Definition lacking_thread_session : state :=
  Scripted.start
    [Ok (page [comment_thread "first" 3 0 None;
               comment_thread "lonely" 0 2 None] None)].

Definition lacking_video_session : state :=
  Scripted.start
    [Ok (page [video_item "v1" (Some ["a"]) (VStr "100");
               video_item "v2" None (VStr "7")] None)].

(** Sessions that answer one batch: two threads, the second tagged with
    another kind; two videos with an item of another kind between them. *)
Definition two_thread_session : state :=
  Scripted.start
    [Ok (page [comment_thread "first" 3 0 None;
               with_kind (VStr "youtube#comment")
                 (comment_thread "second" 0 2 (Some ["r1"; "r2"]))] None)].

Definition mixed_video_session : state :=
  Scripted.start
    [Ok (page [video_item "v0" (Some ["a"; "b"]) (VStr "100");
               other_stub "x";
               video_item "v1" (Some []) (VStr "7")] None)].

(** Sessions in which the handle resolves to two channels, and to none. *)
Definition ambiguous_session : state :=
  Scripted.start
    [Ok (page [channel_item "UC1" "UU1"; channel_item "UC2" "UU2"] None);
     Ok (page [channel_item "UC1" "UU1"; channel_item "UC2" "UU2"] None)].

Definition unknown_handle_session : state :=
  Scripted.start [Ok (page [] None); Ok (page [] None)].

(** A session with a channel of one upload whose view count comes as a
    number: the channel, the listing, the answer to the batch. *)
Definition numeric_views_session : state :=
  Scripted.start
    [Ok (page [channel_item "UC1" "UU1"] None);
     Ok (page [playlist_item "youtube#video" "v0"] None);
     Ok (page [video_item "v0" (Some ["a"]) (VInt 7)] None)].

(** A session with a video of one comment thread whose text comes as a
    number: the listing, the answer to the batch. *)
Definition numeric_text_session : state :=
  Scripted.start
    [Ok (page [thread_stub "t1"] None);
     Ok (page [dict [("kind", VStr "youtube#commentThread");
                     ("snippet",
                      dict [("topLevelComment",
                             dict [("snippet",
                                    dict [("textDisplay", VInt 5);
                                          ("publishedAt", VStr "2024-01-01T00:00:00Z");
                                          ("authorDisplayName", VStr "@someone");
                                          ("likeCount", VInt 1)])]);
                            ("totalReplyCount", VInt 0)])]] None)].

End Samples.

(** * Listings that are left part-way *)

Section Leads.
Context `{Runtime}.

(** [leads rq w pages rq' w']: asked [rq] in the world [w], the service
    answers the pages [pages], each continued by [list_next] into the next
    request, the last of them into [rq'], which is still to be executed, in
    the world [w']. *)
Inductive leads : request -> world -> list value -> request -> world -> Prop :=
| leads_here rq w : leads rq w [] rq w
| leads_on rq w page w1 rq1 pages rq' w' :
    execute rq w = (Ok page, w1) ->
    list_next rq page = Ok (Some rq1) ->
    leads rq1 w1 pages rq' w' ->
    leads rq w (page :: pages) rq' w'.

End Leads.

(** * What an object goes through *)

Section Lives.
Context `{Runtime}.

(** A computation that keeps what the instance dictionary holds under
    [name], if it holds [v] there. *)
Definition keeps_entry {A} (name : string) (v : value) (c : M A) : Prop :=
  forall st r st',
    c st = (r, st') ->
    dict_get name (st_dict st) = Some v ->
    dict_get name (st_dict st') = Some v.

(** What can be asked of a [Video]: its property and its two methods. *)
Inductive video_call : Type :=
| get_comment_threads (fuel : nat)
| call_fetch_comments (fuel : nat)
| call_fetch_comment_batch (comment_batch : value).

(** The state a call leaves, however it ends. *)
Definition video_step (self : Video.obj) (st : state) (c : video_call) : state :=
  match c with
  | get_comment_threads fuel => snd (Video.comment_threads fuel self st)
  | call_fetch_comments fuel => snd (Video.fetch_comments fuel self st)
  | call_fetch_comment_batch b => snd (Video._fetch_comment_batch self b st)
  end.

Definition video_life (self : Video.obj) (calls : list video_call) (st : state) : state :=
  fold_left (video_step self) calls st.

(** What can be asked of a [Channel]: its three properties and its two
    methods. *)
Inductive channel_call : Type :=
| get_channel_id
| get_uploads_id
| get_video_ids (fuel : nat)
| call_fetch_videos (fuel : nat)
| call_fetch_video_batch (video_batch : value).

Definition channel_step (self : Channel.obj) (st : state) (c : channel_call) : state :=
  match c with
  | get_channel_id => snd (Channel.channel_id self st)
  | get_uploads_id => snd (Channel.uploads_id self st)
  | get_video_ids fuel => snd (Channel.video_ids fuel self st)
  | call_fetch_videos fuel => snd (Channel.fetch_videos fuel self st)
  | call_fetch_video_batch b => snd (Channel._fetch_video_batch self b st)
  end.

Definition channel_life (self : Channel.obj) (calls : list channel_call) (st : state)
    : state :=
  fold_left (channel_step self) calls st.

End Lives.

(** The naps a trace records, in seconds and in order. *)
Definition naps (trace : list event) : list nat :=
  omap (fun ev => match ev with Slept seconds => Some seconds | _ => None end) trace.

(** * Further sessions *)

Module MoreSamples.
Import Samples.

(** A session in which the handle resolves to one channel, asked twice. *)
Definition known_handle_session : state :=
  Scripted.start
    [Ok (page [channel_item "UC1" "UU1"] None);
     Ok (page [channel_item "UC1" "UU1"] None)].

(** The second of three pages has an item without an identifier between
    two good ones. *)
Definition spoilt_listing_session : state :=
  Scripted.start
    [Ok (page [thread_stub "t1"] (Some "p2"));
     Ok (page [thread_stub "t2"; dict [("kind", VStr "youtube#commentThread")];
               thread_stub "t3"] (Some "p3"));
     Ok (page [thread_stub "t4"] None)].

(** The second of three pages of uploads has an entry without a resource
    between two good ones. *)
Definition spoilt_uploads_session : state :=
  Scripted.start
    [Ok (page [channel_item "UC1" "UU1"] None);
     Ok (page [playlist_item "youtube#video" "v1"] (Some "p2"));
     Ok (page [playlist_item "youtube#video" "v2";
               dict [("kind", VStr "youtube#playlistItem"); ("snippet", dict [])];
               playlist_item "youtube#video" "v3"] (Some "p3"));
     Ok (page [playlist_item "youtube#video" "v4"] None)].

(** A video with 101 comment threads: the listing, the answer to the
    first batch, a refusal of the second, and an answer that would serve
    the third. *)
Definition failing_batch_session : state :=
  Scripted.start
    [Ok (page (map thread_stub (numbered "t" 101)) None);
     Ok (page [comment_thread "first" 3 1 (Some ["r1"])] None);
     Err (ApiError "quotaExceeded");
     Ok (page [comment_thread "last" 1 0 None] None)].

(** A channel with 101 uploads, served the same way. *)
Definition failing_video_batch_session : state :=
  Scripted.start
    [Ok (page [channel_item "UC1" "UU1"] None);
     Ok (page (map (playlist_item "youtube#video") (numbered "v" 101)) None);
     Ok (page [video_item "v0" (Some ["a"]) (VStr "100")] None);
     Err (ApiError "quotaExceeded");
     Ok (page [video_item "v100" (Some []) (VStr "1")] None)].

End MoreSamples.

(** * Properties *)

(** ** Batching *)

Lemma py_range_0_50 (n : nat) :
  py_range 0 n 50 = map (fun k => k * 50)%nat (seq 0 ((n + 49) / 50)).
Proof.
  unfold py_range. rewrite Nat.sub_0_r. reflexivity.
Qed.

Lemma ceil_div_50_bounds (n : nat) :
  (n <= (n + 49) / 50 * 50 < n + 50)%nat.
Proof.
  pose proof (Nat.div_mod_eq (n + 49) 50).
  pose proof (Nat.mod_upper_bound (n + 49) 50).
  lia.
Qed.

Lemma concat_slices (ids : list value) (k : nat) :
  concat (map (fun i => take 50 (drop i ids)) (map (fun j => j * 50)%nat (seq 0 k)))
  = take (k * 50) ids.
Proof.
  induction k as [|k IH].
  - reflexivity.
  - rewrite seq_S, !map_app, concat_app, IH.
    cbn [map concat Nat.add]. rewrite app_nil_r, take_take_drop.
    f_equal. lia.
Qed.

Lemma batches_concat (ids : list value) : concat (batches ids) = ids.
Proof.
  unfold batches. rewrite py_range_0_50, concat_slices.
  apply take_ge. pose proof (ceil_div_50_bounds (length ids)). lia.
Qed.

Lemma batches_length (ids : list value) :
  length (batches ids) = ((length ids + 49) / 50)%nat.
Proof.
  unfold batches. rewrite py_range_0_50, !length_map, length_seq. reflexivity.
Qed.

Lemma batches_lookup (ids : list value) (k : nat) :
  (k < (length ids + 49) / 50)%nat ->
  batches ids !! k = Some (take 50 (drop (k * 50) ids)).
Proof.
  intros Hk. unfold batches. rewrite py_range_0_50, !list_lookup_fmap.
  rewrite lookup_seq_lt by assumption. reflexivity.
Qed.

Lemma batches_sizes (ids : list value) :
  Forall (fun b => 1 <= length b <= 50)%nat (batches ids).
Proof.
  apply Forall_lookup. intros k b Hb.
  assert (k < (length ids + 49) / 50)%nat as Hk.
  { apply lookup_lt_Some in Hb. rewrite batches_length in Hb. exact Hb. }
  rewrite batches_lookup in Hb by assumption. injection Hb as <-.
  rewrite length_take, length_drop.
  pose proof (Nat.div_mod_eq (length ids + 49) 50).
  pose proof (Nat.mod_upper_bound (length ids + 49) 50).
  lia.
Qed.

(** ** Effects: basic facts *)

Section EffectFacts.
Context `{Runtime}.

Lemma dict_get_set (k : string) (v : value) (items : list (string * value)) :
  dict_get k (dict_set k v items) = Some v.
Proof.
  induction items as [|[k' v'] rest IH]; simpl.
  - rewrite String.eqb_refl. reflexivity.
  - destruct (String.eqb k' k) eqn:Hk; simpl; rewrite Hk; [reflexivity|exact IH].
Qed.

Lemma cached_property_hit (name : string) (body : M value) (st : state) (v : value) :
  dict_get name (st_dict st) = Some v ->
  cached_property name body st = (Returns v, st).
Proof. intros Hv. unfold cached_property. rewrite Hv. reflexivity. Qed.


Lemma cached_property_stored (name : string) (body : M value) (st st' : state) (v : value) :
  cached_property name body st = (Returns v, st') ->
  dict_get name (st_dict st') = Some v.
Proof.
  unfold cached_property.
  destruct (dict_get name (st_dict st)) as [w|] eqn:Hc.
  - intros [= -> ->]. exact Hc.
  - destruct (body st) as [[a|e|] st1] eqn:Hb; intros [= <- <-]; simpl.
    apply dict_get_set.
Qed.

Lemma cached_property_again (name : string) (body : M value) (st st0 : state)
    (v : value) :
  cached_property name body st0 = (Returns v, st) ->
  forall st1, st_dict st1 = st_dict st ->
    cached_property name body st1 = (Returns v, st1).
Proof.
  intros Hp st1 Hd. apply cached_property_hit.
  rewrite Hd. exact (cached_property_stored _ _ _ _ _ Hp).
Qed.

Lemma api_execute_trace (rq : request) (st st' : state) (r : outcome value) :
  api_execute rq st = (r, st') -> st_trace st' = st_trace st ++ [Executed rq].
Proof.
  unfold api_execute.
  destruct (execute rq (st_world st)) as [[v|e] w]; simpl; intros [= <- <-]; reflexivity.
Qed.

Lemma bind_returns {A B} (c : M A) (k : A -> M B) (st st1 : state) (a : A) :
  c st = (Returns a, st1) -> bind c k st = k a st1.
Proof. intros Hc. unfold bind. rewrite Hc. reflexivity. Qed.

Lemma lift_ok_bind {A B} (a : A) (k : A -> M B) (st : state) :
  bind (lift (Ok a)) k st = k a st.
Proof. reflexivity. Qed.

Lemma sleep_slept (st : state) : sleep 1 st = (Returns tt, slept st).
Proof. reflexivity. Qed.

Lemma bind_inv {A B} (c : M A) (k : A -> M B) (st st' : state) (b : B) :
  bind c k st = (Returns b, st') ->
  exists a st1, c st = (Returns a, st1) /\ k a st1 = (Returns b, st').
Proof.
  unfold bind. destruct (c st) as [[a|e|] st1]; try discriminate. eauto.
Qed.

Lemma lift_inv {A} (r : result A) (st st' : state) (a : A) :
  lift r st = (Returns a, st') -> r = Ok a /\ st' = st.
Proof. destruct r; simpl; intros [= <- <-]; auto. Qed.

Lemma ret_inv {A} (a b : A) (st st' : state) :
  ret a st = (Returns b, st') -> a = b /\ st' = st.
Proof. intros [= <- <-]; auto. Qed.

(** What leaves the instance dictionary alone. *)
Lemma keeps_dict_bind {A B} (c : M A) (k : A -> M B) :
  keeps_dict c -> (forall a, keeps_dict (k a)) -> keeps_dict (bind c k).
Proof.
  intros Hc Hk st r st'. unfold bind.
  destruct (c st) as [[a|e|] st1] eqn:Ec; apply Hc in Ec.
  - intros Ek. apply Hk in Ek. congruence.
  - intros [= <- <-]. exact Ec.
  - intros [= <- <-]. exact Ec.
Qed.

Lemma keeps_dict_lift {A} (r : result A) : keeps_dict (lift r).
Proof. intros st o st'. destruct r; simpl; intros [= <- <-]; reflexivity. Qed.

Lemma keeps_dict_ret {A} (a : A) : keeps_dict (ret a).
Proof. intros st o st' [= <- <-]; reflexivity. Qed.

Lemma keeps_dict_raise {A} (e : exn) : keeps_dict (@raise _ A e).
Proof. intros st o st' [= <- <-]; reflexivity. Qed.

Lemma keeps_dict_emit (ev : event) : keeps_dict (emit ev).
Proof. intros st o st' [= <- <-]; reflexivity. Qed.

Lemma keeps_dict_api_execute (rq : request) : keeps_dict (api_execute rq).
Proof.
  intros st r st'. unfold api_execute.
  destruct (execute rq (st_world st)) as [[v|e] w]; simpl; intros [= <- <-]; reflexivity.
Qed.

End EffectFacts.

Create HintDb keeps.
#[local] Hint Resolve keeps_dict_bind keeps_dict_lift keeps_dict_ret keeps_dict_raise
  keeps_dict_emit keeps_dict_api_execute : keeps.
(** ** The batch loops *)

Section BatchLoopFacts.
Context `{Runtime}.

(** A table that [pl.DataFrame] returns holds the lists it was given, under
    their names. *)
Lemma pl_columns_to_dict (data : list (string * list value)) :
  forall df, pl_columns data = Ok df -> to_dict df = data.
Proof.
  induction data as [|[name cells_] data IH]; intros df; simpl.
  - intros [= <-]. reflexivity.
  - destruct (pl_dtype cells_) as [d|e]; [|discriminate]. simpl.
    destruct (pl_columns data) as [df'|e]; [|discriminate]. simpl.
    intros [= <-]. simpl. rewrite (IH df' eq_refl). reflexivity.
Qed.

Lemma pl_DataFrame_to_dict (data : list (string * list value)) (df : DataFrame) :
  pl_DataFrame data = Ok df -> to_dict df = data.
Proof.
  unfold pl_DataFrame. destruct (pl_columns data) as [df'|e] eqn:Hcols; [|discriminate].
  simpl. destruct (same_height df'); [|discriminate].
  intros [= <-]. apply pl_columns_to_dict. exact Hcols.
Qed.

Lemma to_dict_names (df : DataFrame) : column_names df = map fst (to_dict df).
Proof. unfold column_names, frame_schema, to_dict. rewrite !map_map. reflexivity. Qed.

Lemma to_dict_rows (n : nat) (df : DataFrame) :
  Forall (fun col => length (snd col) = n) (to_dict df) -> has_rows n df.
Proof.
  unfold has_rows, to_dict. rewrite Forall_map. intros Hall. exact Hall.
Qed.

Lemma column_to_dict (name : string) (df : DataFrame) :
  column name df = dict_column name (to_dict df).
Proof.
  induction df as [|[[n d] c] df IH]; [reflexivity|].
  simpl. destruct (String.eqb n name); [reflexivity|exact IH].
Qed.

(** Each column of a table that [pl.DataFrame] returns has the type polars
    infers for its cells. *)
Lemma pl_columns_typed (data : list (string * list value)) :
  forall df, pl_columns data = Ok df -> well_typed df.
Proof.
  induction data as [|[name cells_] data IH]; intros df; simpl.
  - intros [= <-]. constructor.
  - destruct (pl_dtype cells_) as [d|e] eqn:Hd; [|discriminate]. simpl.
    destruct (pl_columns data) as [df'|e]; [|discriminate]. simpl.
    intros [= <-]. constructor; [exact Hd|]. apply IH. reflexivity.
Qed.

Lemma pl_DataFrame_typed (data : list (string * list value)) (df : DataFrame) :
  pl_DataFrame data = Ok df -> well_typed df.
Proof.
  unfold pl_DataFrame. destruct (pl_columns data) as [df'|e] eqn:Hcols; [|discriminate].
  simpl. destruct (same_height df'); [|discriminate].
  intros [= <-]. apply pl_columns_typed with data. exact Hcols.
Qed.

Lemma frame_schema_declared (schema : list (string * dtype)) :
  frame_schema (pl_DataFrame_schema schema) = schema.
Proof.
  unfold frame_schema, pl_DataFrame_schema. rewrite map_map. simpl. apply map_id.
Qed.

(** Whether [pl.concat] accepts a table below another depends on the
    columns of the upper one only, not on its rows. *)
Lemma pl_concat_schema (df df0 df2 : DataFrame) :
  frame_schema df = frame_schema df0 ->
  pl_concat df df2
  = match pl_concat df0 df2 with
    | Ok _ => Ok (append_columns df df2)
    | Err e => Err e
    end.
Proof.
  intros Hs. unfold pl_concat, column_names, dtypes. rewrite Hs.
  destruct (decide _); [|reflexivity].
  destruct (forallb _ _); reflexivity.
Qed.

Lemma pl_concat_fits (schema : list (string * dtype)) (df df2 : DataFrame) :
  frame_schema df = schema ->
  fits schema df2 = true ->
  pl_concat df df2 = Ok (append_columns df df2).
Proof.
  intros Hs Hfits. unfold fits in Hfits.
  rewrite (pl_concat_schema df (pl_DataFrame_schema schema) df2)
    by (rewrite frame_schema_declared; exact Hs).
  destruct (pl_concat (pl_DataFrame_schema schema) df2); [reflexivity|discriminate].
Qed.

Lemma pl_concat_inv (df df2 df' : DataFrame) :
  pl_concat df df2 = Ok df' ->
  column_names df = column_names df2 /\ df' = append_columns df df2.
Proof.
  unfold pl_concat. destruct (decide _) as [Hn|]; [|discriminate].
  destruct (forallb _ _); [|discriminate]. intros [= <-]. auto.
Qed.

Lemma fits_names (schema : list (string * dtype)) (df2 : DataFrame) :
  fits schema df2 = true -> column_names df2 = map fst schema.
Proof.
  unfold fits. destruct (pl_concat _ df2) as [df'|e] eqn:Hcat; [|discriminate].
  intros _. apply pl_concat_inv in Hcat as [Hn _].
  unfold column_names in Hn at 1. rewrite frame_schema_declared in Hn. auto.
Qed.

Lemma append_columns_schema (df df2 : DataFrame) :
  column_names df = column_names df2 ->
  frame_schema (append_columns df df2) = frame_schema df.
Proof.
  unfold column_names, frame_schema, append_columns. revert df2.
  induction df as [|c df IH]; intros [|c2 df2]; simpl; try discriminate; auto.
  intros [= Hc Hn]. f_equal. apply IH. exact Hn.
Qed.

Lemma append_columns_names (df df2 : DataFrame) :
  column_names df = column_names df2 ->
  column_names (append_columns df df2) = column_names df.
Proof.
  intros Hn. pose proof (append_columns_schema df df2 Hn) as Hs.
  unfold column_names. rewrite Hs. reflexivity.
Qed.

Lemma column_append (name : string) (df df2 : DataFrame) :
  column_names df = column_names df2 ->
  name ∈ column_names df ->
  column name (append_columns df df2) = Some (cells name df ++ cells name df2).
Proof.
  unfold column_names, frame_schema, append_columns, cells. revert df2.
  induction df as [|[[n d] c] df IH]; intros [|[[n2 d2] c2] df2]; simpl; try discriminate.
  - intros _ Hin. inversion Hin.
  - intros [= <- Hn] Hin.
    destruct (String.eqb n name) eqn:Heq; [reflexivity|].
    apply IH; [exact Hn|].
    apply elem_of_cons in Hin as [->|Hin]; [|exact Hin].
    rewrite String.eqb_refl in Heq. discriminate.
Qed.

Lemma cells_schema (name : string) (schema : list (string * dtype)) :
  cells name (pl_DataFrame_schema schema) = [].
Proof.
  unfold cells. induction schema as [|[n d] schema IH]; [reflexivity|].
  simpl. destruct (String.eqb n name); [reflexivity|exact IH].
Qed.

(** Stacking keeps every column's cells in order: those of the first
    table, then those of each following table in turn. *)
Lemma stack_column (name : string) (dfs : list DataFrame) (df : DataFrame) :
  Forall (fun df2 => column_names df2 = column_names df) dfs ->
  name ∈ column_names df ->
  column name (stack dfs df) = Some (cells name df ++ concat (map (cells name) dfs)).
Proof.
  unfold stack. revert df. induction dfs as [|df2 dfs IH]; intros df Hall Hin.
  - simpl. rewrite app_nil_r. unfold cells.
    clear Hall. induction df as [|[[n d] c] df IHdf]; [inversion Hin|].
    unfold column_names, frame_schema in *.
    simpl in *. destruct (String.eqb n name) eqn:Heq; [reflexivity|].
    apply IHdf. apply elem_of_cons in Hin as [->|Hin]; [|exact Hin].
    rewrite String.eqb_refl in Heq. discriminate.
  - inversion Hall as [|? ? Hn Hrest]; subst. simpl.
    rewrite IH.
    + unfold cells at 1. rewrite column_append by (congruence || assumption).
      simpl. rewrite app_assoc. reflexivity.
    + rewrite append_columns_names by congruence. exact Hrest.
    + rewrite append_columns_names by congruence. exact Hin.
Qed.

(** Stacking keeps the columns, with their types, of the first table. *)
Lemma stack_schema (dfs : list DataFrame) (df : DataFrame) :
  Forall (fun df2 => column_names df2 = column_names df) dfs ->
  frame_schema (stack dfs df) = frame_schema df.
Proof.
  unfold stack. revert df. induction dfs as [|df2 dfs IH]; intros df Hall; [reflexivity|].
  inversion Hall as [|? ? Hn Hrest]; subst. simpl.
  rewrite IH.
  - apply append_columns_schema. congruence.
  - rewrite append_columns_names by congruence. exact Hrest.
Qed.

Lemma fits_all_names (schema : list (string * dtype)) (dfs : list DataFrame) :
  forallb (fits schema) dfs = true ->
  Forall (fun df2 => column_names df2 = map fst schema) dfs.
Proof.
  induction dfs as [|df2 dfs IH]; simpl; [constructor|].
  intros [Hdf Hdfs]%andb_prop. constructor; [apply fits_names; exact Hdf|auto].
Qed.

Variable ids_property : M value.
Variable fetch_batch : value -> M DataFrame.
Variable ids : list value.
Variable schema : list (string * dtype).

Hypothesis fetch_batch_dict :
  forall b st r st1, fetch_batch b st = (r, st1) -> st_dict st1 = st_dict st.
Hypothesis ids_property_cached :
  forall st st0, ids_property st0 = (Returns (VList ids), st) ->
    forall st1, st_dict st1 = st_dict st -> ids_property st1 = (Returns (VList ids), st1).

(** When every batch fetch returns and polars accepts every batch table,
    the loop returns the tables stacked in order. *)
Lemma batch_loop_runs (indices : list nat) :
  forall (dfs : list DataFrame) (df : DataFrame) (st0 st1 st st' : state),
    ids_property st0 = (Returns (VList ids), st1) ->
    st_dict st = st_dict st1 ->
    frame_schema df = schema ->
    runs fetch_batch (map (fun i => take 50 (drop i ids)) indices) st dfs st' ->
    forallb (fits schema) dfs = true ->
    batch_loop ids_property fetch_batch indices df st = (Returns (stack dfs df), st').
Proof.
  induction indices as [|i rest IH]; intros dfs df st0 st1 st st' Hp Hd Hn Hruns Hfits.
  - inversion Hruns; subst. reflexivity.
  - simpl in Hruns.
    inversion Hruns as [|b bs st_ df2 st2 dfs' st3 Hf Hrest Eb Est Edfs Est']; clear Hruns.
    subst b bs st_ dfs st3. simpl in Hfits. apply andb_prop in Hfits as [Hfit Hfits].
    cbn [batch_loop].
    rewrite (bind_returns _ _ _ _ _ (ids_property_cached _ _ Hp _ Hd)).
    unfold py_slice. rewrite lift_ok_bind.
    replace (i + 50 - i)%nat with 50%nat by lia.
    rewrite (bind_returns _ _ _ _ _ Hf).
    rewrite (bind_returns _ _ _ _ _ (sleep_slept _)).
    rewrite (pl_concat_fits schema) by assumption.
    rewrite lift_ok_bind.
    change (stack (df2 :: dfs') df) with (stack dfs' (append_columns df df2)).
    apply (IH _ _ st0 st1).
    + exact Hp.
    + simpl. rewrite (fetch_batch_dict _ _ _ _ Hf). exact Hd.
    + rewrite append_columns_schema; [exact Hn|].
      unfold column_names at 1. rewrite Hn. symmetry. apply fits_names. exact Hfit.
    + exact Hrest.
    + exact Hfits.
Qed.

End BatchLoopFacts.

Section BatchInvariant.
Context `{Runtime}.
Variable ids_property : M value.
Variable fetch_batch : value -> M DataFrame.
Variable accumulated : DataFrame -> Prop.
Variable fetched : DataFrame -> Prop.

Hypothesis fetch_batch_fetched :
  forall b st df2 st1, fetch_batch b st = (Returns df2, st1) -> fetched df2.
Hypothesis pl_concat_accumulated :
  forall df df2 df',
    accumulated df -> fetched df2 -> pl_concat df df2 = Ok df' -> accumulated df'.

(** What holds of the table the loop starts with, and is kept by each
    [pl.concat] with a batch table, holds of the table the loop returns,
    whatever the batches bring. *)
Lemma batch_loop_invariant (indices : list nat) :
  forall (df df' : DataFrame) (st st' : state),
    accumulated df ->
    batch_loop ids_property fetch_batch indices df st = (Returns df', st') ->
    accumulated df'.
Proof.
  induction indices as [|i rest IH]; intros df df' st st' Hdf Hrun.
  - apply ret_inv in Hrun as [<- _]. exact Hdf.
  - cbn [batch_loop] in Hrun.
    apply bind_inv in Hrun as (ids & s1 & _ & Hrun).
    apply bind_inv in Hrun as (batch & s2 & _ & Hrun).
    apply bind_inv in Hrun as (df2 & s3 & Hf & Hrun).
    apply bind_inv in Hrun as ([] & s4 & _ & Hrun).
    apply bind_inv in Hrun as (df1 & s5 & [Hcat _]%lift_inv & Hrun).
    apply (IH df1 df' s5 st'); [|exact Hrun].
    eapply pl_concat_accumulated; eauto.
Qed.

End BatchInvariant.

Module VideoFacts.
Import Video.

Section Facts.
Context `{Runtime}.

Lemma fetch_comments_loop_shape (fuel : nat) (self : obj) (indices : list nat) :
  forall df st,
    fetch_comments_loop fuel self indices df st
    = batch_loop (comment_threads fuel self) (_fetch_comment_batch self) indices df st.
Proof.
  induction indices as [|i rest IH]; intros df st; [reflexivity|].
  cbn [fetch_comments_loop batch_loop]. unfold bind.
  repeat match goal with
         | |- context [match ?c with _ => _ end] => destruct c; try reflexivity
         end.
  apply IH.
Qed.

Lemma _fetch_comment_batch_dict (self : obj) (b : value) :
  keeps_dict (_fetch_comment_batch self b).
Proof. unfold _fetch_comment_batch. auto 10 with keeps. Qed.

Lemma _fetch_comment_batch_inv (self : obj) (b : value) (st st1 : state)
    (df : DataFrame) :
  _fetch_comment_batch self b st = (Returns df, st1) ->
  exists comment_ids response items c,
    py_join "," b = Ok comment_ids /\
    api_execute (batch_request comment_ids) st = (Returns response, st1) /\
    (items' <~ subscript response "items" ;; py_iter items') = Ok items /\
    flatten_items items no_columns = Ok c /\
    to_frame c = Ok df.
Proof.
  unfold _fetch_comment_batch. intros Hrun.
  apply bind_inv in Hrun as (comment_ids & s1 & [Hj ->]%lift_inv & Hrun).
  apply bind_inv in Hrun as (response & s2 & Hx & Hrun).
  apply bind_inv in Hrun as (items & s3 & [Hi ->]%lift_inv & Hrun).
  apply bind_inv in Hrun as (c & s4 & [Hc ->]%lift_inv & Hrun).
  apply lift_inv in Hrun as [Hdf ->].
  exists comment_ids, response, items, c. auto.
Qed.

Lemma _fetch_comment_batch_names (self : obj) (b : value) (st st1 : state)
    (df : DataFrame) :
  _fetch_comment_batch self b st = (Returns df, st1) ->
  column_names df = map fst schema.
Proof.
  intros Hrun.
  apply _fetch_comment_batch_inv in Hrun as (? & ? & ? & c & _ & _ & _ & _ & Hdf).
  apply pl_DataFrame_to_dict in Hdf. rewrite to_dict_names, Hdf. reflexivity.
Qed.

Lemma fetch_comments_runs (fuel : nat) (self : obj) (ids : list value)
    (st st0 st' : state) (dfs : list DataFrame) :
  comment_threads fuel self st = (Returns (VList ids), st0) ->
  runs (_fetch_comment_batch self) (batches ids) st0 dfs st' ->
  forallb (fits schema) dfs = true ->
  fetch_comments fuel self st
  = (Returns (stack dfs (pl_DataFrame_schema schema)), st').
Proof.
  intros Hp Hruns Hfits. unfold fetch_comments.
  rewrite (bind_returns _ _ _ _ _ Hp). cbn [py_len]. rewrite lift_ok_bind.
  rewrite fetch_comments_loop_shape.
  apply (batch_loop_runs _ _ ids schema) with (st0 := st) (st1 := st0).
  - intros b st1 r st2; apply _fetch_comment_batch_dict.
  - intros; eapply cached_property_again; eauto.
  - exact Hp.
  - reflexivity.
  - apply frame_schema_declared.
  - exact Hruns.
  - exact Hfits.
Qed.

(** The requests of a run are those of its batches, in order. *)
Lemma comment_runs_executed (self : obj) (bs : list (list value)) (st st' : state)
    (dfs : list DataFrame) :
  runs (_fetch_comment_batch self) bs st dfs st' ->
  executed (st_trace st')
  = executed (st_trace st) ++ map (fun b => batch_request (joined b)) bs.
Proof.
  induction 1 as [st|b bs st df2 st1 dfs st2 Hf _ IH].
  - simpl. rewrite app_nil_r. reflexivity.
  - rewrite IH. simpl.
    apply _fetch_comment_batch_inv in Hf as (ids & ? & ? & ? & Hj & Hx & _).
    apply api_execute_trace in Hx. rewrite Hx.
    unfold executed. rewrite !omap_app. simpl. rewrite app_nil_r, <- app_assoc.
    unfold joined. rewrite Hj. reflexivity.
Qed.

End Facts.
End VideoFacts.

Module ChannelFacts.
Import Channel.

Section Facts.
Context `{Runtime}.

Lemma fetch_videos_loop_shape (fuel : nat) (self : obj) (indices : list nat) :
  forall df st,
    fetch_videos_loop fuel self indices df st
    = batch_loop (video_ids fuel self) (_fetch_video_batch self) indices df st.
Proof.
  induction indices as [|i rest IH]; intros df st; [reflexivity|].
  cbn [fetch_videos_loop batch_loop]. unfold bind.
  repeat match goal with
         | |- context [match ?c with _ => _ end] => destruct c; try reflexivity
         end.
  apply IH.
Qed.

Lemma _fetch_video_batch_dict (self : obj) (b : value) :
  keeps_dict (_fetch_video_batch self b).
Proof. unfold _fetch_video_batch. auto 10 with keeps. Qed.

Lemma _fetch_video_batch_inv (self : obj) (b : value) (st st1 : state)
    (df : DataFrame) :
  _fetch_video_batch self b st = (Returns df, st1) ->
  exists ids' response items c,
    py_join "," b = Ok ids' /\
    api_execute (batch_request ids') st = (Returns response, st1) /\
    (items' <~ subscript response "items" ;; py_iter items') = Ok items /\
    flatten_items items no_columns = Ok c /\
    to_frame c = Ok df.
Proof.
  unfold _fetch_video_batch. intros Hrun.
  apply bind_inv in Hrun as (ids' & s1 & [Hj ->]%lift_inv & Hrun).
  apply bind_inv in Hrun as (response & s2 & Hx & Hrun).
  apply bind_inv in Hrun as (items & s3 & [Hi ->]%lift_inv & Hrun).
  apply bind_inv in Hrun as (c & s4 & [Hc ->]%lift_inv & Hrun).
  apply lift_inv in Hrun as [Hdf ->].
  exists ids', response, items, c. auto.
Qed.

Lemma _fetch_video_batch_names (self : obj) (b : value) (st st1 : state)
    (df : DataFrame) :
  _fetch_video_batch self b st = (Returns df, st1) ->
  column_names df = map fst schema.
Proof.
  intros Hrun.
  apply _fetch_video_batch_inv in Hrun as (? & ? & ? & c & _ & _ & _ & _ & Hdf).
  apply pl_DataFrame_to_dict in Hdf. rewrite to_dict_names, Hdf. reflexivity.
Qed.

Lemma fetch_videos_runs (fuel : nat) (self : obj) (ids : list value)
    (st st0 st' : state) (dfs : list DataFrame) :
  video_ids fuel self st = (Returns (VList ids), st0) ->
  runs (_fetch_video_batch self) (batches ids) st0 dfs st' ->
  forallb (fits schema) dfs = true ->
  fetch_videos fuel self st
  = (Returns (stack dfs (pl_DataFrame_schema schema)), st').
Proof.
  intros Hp Hruns Hfits. unfold fetch_videos.
  rewrite (bind_returns _ _ _ _ _ Hp). cbn [py_len]. rewrite lift_ok_bind.
  rewrite fetch_videos_loop_shape.
  apply (batch_loop_runs _ _ ids schema) with (st0 := st) (st1 := st0).
  - intros b st1 r st2; apply _fetch_video_batch_dict.
  - intros; eapply cached_property_again; eauto.
  - exact Hp.
  - reflexivity.
  - apply frame_schema_declared.
  - exact Hruns.
  - exact Hfits.
Qed.

(** The requests of a run are those of its batches, in order. *)
Lemma video_runs_executed (self : obj) (bs : list (list value)) (st st' : state)
    (dfs : list DataFrame) :
  runs (_fetch_video_batch self) bs st dfs st' ->
  executed (st_trace st')
  = executed (st_trace st) ++ map (fun b => batch_request (joined b)) bs.
Proof.
  induction 1 as [st|b bs st df2 st1 dfs st2 Hf _ IH].
  - simpl. rewrite app_nil_r. reflexivity.
  - rewrite IH. simpl.
    apply _fetch_video_batch_inv in Hf as (ids & ? & ? & ? & Hj & Hx & _).
    apply api_execute_trace in Hx. rewrite Hx.
    unfold executed. rewrite !omap_app. simpl. rewrite app_nil_r, <- app_assoc.
    unfold joined. rewrite Hj. reflexivity.
Qed.

End Facts.
End ChannelFacts.

(** C1. For a list of N identifiers the two fetch operations cut
    ceil(N/50) contiguous slices of at most 50 (none when N = 0), in the
    original order, whose concatenation is the list.  When every batch
    fetch returns a table and polars accepts each of them below the
    declared columns, the fetch returns: the batches were requested in
    that order and the final table holds the rows of the per-batch tables
    in that order. *)
Theorem fetch_batches_partition_in_order `{Runtime} (fuel : nat)
    (video : Video.obj) (channel : Channel.obj) (threads vids : list value)
    (st ct st0 st' ct0 ct' : state) (dfs cdfs : list DataFrame) :
  Video.comment_threads fuel video st = (Returns (VList threads), st0) ->
  runs (Video._fetch_comment_batch video) (batches threads) st0 dfs st' ->
  forallb (fits Video.schema) dfs = true ->
  Channel.video_ids fuel channel ct = (Returns (VList vids), ct0) ->
  runs (Channel._fetch_video_batch channel) (batches vids) ct0 cdfs ct' ->
  forallb (fits Channel.schema) cdfs = true ->
  (forall ids : list value,
     length (batches ids) = ((length ids + 49) / 50)%nat /\
     (length ids <= 50 * length (batches ids) < length ids + 50)%nat /\
     (ids = [] -> batches ids = []) /\
     Forall (fun b => 1 <= length b <= 50)%nat (batches ids) /\
     (forall k b, batches ids !! k = Some b -> b = take 50 (drop (50 * k) ids)) /\
     concat (batches ids) = ids) /\
  (Video.fetch_comments fuel video st
   = (Returns (stack dfs (pl_DataFrame_schema Video.schema)), st') /\
   executed (st_trace st')
   = executed (st_trace st0)
     ++ map (fun b => Video.batch_request (joined b)) (batches threads) /\
   forall name, name ∈ map fst Video.schema ->
     column name (stack dfs (pl_DataFrame_schema Video.schema))
     = Some (concat (map (cells name) dfs))) /\
  (Channel.fetch_videos fuel channel ct
   = (Returns (stack cdfs (pl_DataFrame_schema Channel.schema)), ct') /\
   executed (st_trace ct')
   = executed (st_trace ct0)
     ++ map (fun b => Channel.batch_request (joined b)) (batches vids) /\
   forall name, name ∈ map fst Channel.schema ->
     column name (stack cdfs (pl_DataFrame_schema Channel.schema))
     = Some (concat (map (cells name) cdfs))).
Proof.
  intros Hthreads Hruns Hfits Hvids Hcruns Hcfits. split; [|split].
  - intros ids. pose proof (batches_length ids) as Hlen.
    pose proof (ceil_div_50_bounds (length ids)) as Hceil.
    repeat split.
    + exact Hlen.
    + rewrite Hlen. lia.
    + rewrite Hlen. lia.
    + intros ->. reflexivity.
    + apply batches_sizes.
    + intros k b Hb.
      assert (k < (length ids + 49) / 50)%nat as Hk.
      { apply lookup_lt_Some in Hb. rewrite Hlen in Hb. exact Hb. }
      rewrite batches_lookup in Hb by assumption. injection Hb as <-.
      do 2 f_equal. lia.
    + apply batches_concat.
  - repeat split.
    + eapply VideoFacts.fetch_comments_runs; eauto.
    + eapply VideoFacts.comment_runs_executed; eauto.
    + intros name Hname. rewrite stack_column.
      * rewrite cells_schema. reflexivity.
      * apply fits_all_names. exact Hfits.
      * exact Hname.
  - repeat split.
    + eapply ChannelFacts.fetch_videos_runs; eauto.
    + eapply ChannelFacts.video_runs_executed; eauto.
    + intros name Hname. rewrite stack_column.
      * rewrite cells_schema. reflexivity.
      * apply fits_all_names. exact Hcfits.
      * exact Hname.
Qed.

Lemma fetch_batches_partition_in_order_witness :
  exists dfs st' cdfs ct',
    Video.fetch_comments (H := Scripted.client) 1 Samples.video Samples.video_session
    = (Returns (stack dfs (pl_DataFrame_schema Video.schema)), st') /\
    Channel.fetch_videos (H := Scripted.client) 1 Samples.channel Samples.channel_session
    = (Returns (stack cdfs (pl_DataFrame_schema Channel.schema)), ct') /\
    length dfs = 2%nat /\ length cdfs = 2%nat.
Proof.
  eexists _, _, _, _.
  edestruct (fetch_batches_partition_in_order (H := Scripted.client) 1
               Samples.video Samples.channel
               (map VStr (Samples.numbered "t" 51)) (map VStr (Samples.numbered "v" 51))
               Samples.video_session Samples.channel_session)
    as (_ & (Hv & _) & (Hc & _)).
  - vm_compute; reflexivity.
  - eapply runs_cons; [vm_compute; reflexivity|].
    eapply runs_cons; [vm_compute; reflexivity|].
    apply runs_nil.
  - vm_compute; reflexivity.
  - vm_compute; reflexivity.
  - eapply runs_cons; [vm_compute; reflexivity|].
    eapply runs_cons; [vm_compute; reflexivity|].
    apply runs_nil.
  - vm_compute; reflexivity.
  - split; [exact Hv|]. split; [exact Hc|]. split; reflexivity.
Defined.

(** ** The paginators *)

Section Quiet.
Context `{Runtime}.

Lemma ret_quiet (st : state) :
  exists tr,
    ret tt st = (Returns tt, State (st_world st) (st_trace st ++ tr) (st_dict st)) /\
    printed tr = [] /\ executed tr = [].
Proof.
  exists []. rewrite app_nil_r. destruct st; auto.
Qed.

Lemma sleep_quiet (st : state) :
  exists tr,
    sleep 1 st = (Returns tt, State (st_world st) (st_trace st ++ tr) (st_dict st)) /\
    printed tr = [] /\ executed tr = [].
Proof.
  exists [Slept 1]. auto.
Qed.

End Quiet.

Lemma all_items_readable (readable : value -> bool) (pages : list value) :
  forallb (page_readable readable) pages = true ->
  forallb readable (all_items pages) = true.
Proof.
  unfold all_items. induction pages as [|page pages IH]; [reflexivity|].
  simpl. intros [Hpage Hrest]%andb_prop. rewrite forallb_app, IH by assumption.
  unfold page_readable, page_items in *.
  destruct (subscript page "items") as [[| | | |items|]|e]; try discriminate.
  rewrite Hpage. reflexivity.
Qed.

Section PageLoopFacts.
Context `{Runtime}.
Variable scan : list value -> list value -> list value * option exn.
Variable nap : M unit.
Variable pick : value -> option value.
Variable readable : value -> bool.

Hypothesis scan_readable :
  forall items acc, forallb readable items = true -> scan items acc = (acc ++ omap pick items, None).
Hypothesis nap_quiet :
  forall st, exists tr,
    nap st = (Returns tt, State (st_world st) (st_trace st ++ tr) (st_dict st)) /\
    printed tr = [] /\ executed tr = [].

Lemma printed_app (tr tr' : list event) : printed (tr ++ tr') = printed tr ++ printed tr'.
Proof. apply omap_app. Qed.

Lemma executed_app (tr tr' : list event) :
  executed (tr ++ tr') = executed tr ++ executed tr'.
Proof. apply omap_app. Qed.

Lemma page_readable_items (page : value) :
  page_readable readable page = true ->
  subscript page "items" = Ok (VList (page_items page)) /\
  forallb readable (page_items page) = true.
Proof.
  unfold page_readable, page_items.
  destruct (subscript page "items") as [[| | | |items|]|e]; try discriminate. auto.
Qed.

Lemma page_loop_done (fuel : nat) (acc : list value) (st : state) :
  page_loop scan nap fuel None acc st = (Returns acc, st).
Proof. destruct fuel; reflexivity. Qed.

(** Against a source whose pages can all be read, the loop returns the
    picked items of the pages in order, having printed what the ending
    calls for and nothing else. *)
Lemma page_loop_serves (rq : request) (w w' : world) (pages : list value)
    (how : ending) :
  serves rq w pages how w' ->
  forallb (page_readable readable) pages = true ->
  forall fuel acc trace dict,
    (length pages < fuel)%nat ->
    exists tr,
      page_loop scan nap fuel (Some rq) acc (State w trace dict)
      = (Returns (acc ++ omap pick (concat (map page_items pages))),
         State w' (trace ++ tr) dict) /\
      printed tr = logged how /\
      length (executed tr)
      = (length pages + match how with Exhausted => 0 | Failed _ => 1 end)%nat.
Proof.
  induction 1 as [rq w page w' Hx Hnext|rq w e w' Hx
                 |rq w page w1 rq' pages how w' Hx Hnext _ IH];
    intros Hpages fuel acc trace dict Hfuel;
    (destruct fuel as [|fuel]; [simpl in Hfuel; lia|]).
  - simpl in Hpages. apply andb_prop in Hpages as [Hpage _].
    apply page_readable_items in Hpage as [Hitems Hread].
    set (items := page_items page) in *.
    destruct (nap_quiet (State w' (trace ++ [Executed rq]) dict)) as (tr & Hnap & Hp & He).
    exists ([Executed rq] ++ tr). split; [|split].
    + cbn [page_loop]. unfold bind, try_page, api_execute, read_page. simpl.
      rewrite Hx. simpl. rewrite Hitems. simpl.
      rewrite (scan_readable _ _ Hread). rewrite Hnext. simpl.
      rewrite Hnap. simpl. rewrite page_loop_done.
      rewrite app_nil_r, <- app_assoc. reflexivity.
    + rewrite printed_app, Hp. reflexivity.
    + rewrite executed_app, He. reflexivity.
  - exists [Executed rq; Printed (StrOf e); Printed (FormatExc e)]. split; [|split].
    + cbn [page_loop]. unfold bind, try_page, api_execute. simpl.
      rewrite Hx. simpl. rewrite app_nil_r, <- !app_assoc. reflexivity.
    + reflexivity.
    + reflexivity.
  - simpl in Hpages. apply andb_prop in Hpages as [Hpage Hrest].
    apply page_readable_items in Hpage as [Hitems Hread].
    set (items := page_items page) in *.
    destruct (nap_quiet (State w1 (trace ++ [Executed rq]) dict)) as (tr & Hnap & Hp & He).
    destruct (IH Hrest fuel (acc ++ omap pick items) ((trace ++ [Executed rq]) ++ tr) dict)
      as (tr' & Hloop & Hp' & He'); [simpl in Hfuel; lia|].
    exists ([Executed rq] ++ tr ++ tr'). split; [|split].
    + cbn [page_loop]. unfold bind, try_page, api_execute, read_page. simpl.
      rewrite Hx. simpl. rewrite Hitems. simpl.
      rewrite (scan_readable _ _ Hread). rewrite Hnext. simpl.
      rewrite Hnap. simpl. rewrite Hloop.
      rewrite omap_app, <- !app_assoc. reflexivity.
    + rewrite !printed_app, Hp, Hp'. reflexivity.
    + rewrite !executed_app, !length_app, He, He'. reflexivity.
Qed.

End PageLoopFacts.

Module VideoPages.
Import Video.

Section Facts.
Context `{Runtime}.

Lemma comment_threads_loop_shape (fuel : nat) :
  forall request acc st,
    comment_threads_loop fuel request acc st
    = page_loop scan_items (ret tt) fuel request acc st.
Proof.
  destruct fuel; intros [rq|] acc st; reflexivity.
Qed.

Lemma thread_scan_readable (items : list value) :
  forall acc, forallb thread_readable items = true ->
    scan_items items acc = (acc ++ thread_ids items, None).
Proof.
  induction items as [|item items IH]; intros acc Hall.
  - simpl. rewrite app_nil_r. reflexivity.
  - simpl in Hall. apply andb_prop in Hall as [Hitem Hrest].
    unfold thread_ids in *. simpl. unfold thread_readable, thread_id, is_thread in *.
    destruct (subscript item "kind") as [kind|e]; [|discriminate Hitem].
    destruct (py_eq_str kind "youtube#commentThread") eqn:Hmatch.
    + destruct (subscript item "id") as [id|e]; [|discriminate Hitem]. simpl.
      rewrite IH by assumption. rewrite <- app_assoc. reflexivity.
    + apply IH. assumption.
Qed.

(** The identifiers returned are those of the comment threads among the
    items, one for one and in order. *)
Lemma thread_ids_matching (items : list value) :
  forallb thread_readable items = true ->
  Forall2 (fun item id => subscript item "id" = Ok id)
          (filter (fun item => is_thread item = true) items) (thread_ids items).
Proof.
  induction items as [|item items IH]; intros Hall; [constructor|].
  simpl in Hall. apply andb_prop in Hall as [Hitem Hrest].
  unfold thread_ids. simpl. unfold thread_id at 1.
  rewrite filter_cons. unfold thread_readable in Hitem.
  destruct (is_thread item) eqn:Hmatch.
  - rewrite decide_True by reflexivity.
    apply andb_prop in Hitem as [_ Hid].
    destruct (subscript item "id") as [id|e] eqn:Hid'; [|discriminate Hid]. simpl.
    constructor; auto.
  - rewrite decide_False by discriminate. auto.
Qed.

Lemma comment_threads_serves (fuel : nat) (self : obj) (st : state)
    (pages : list value) (how : ending) (w' : world) :
  dict_get "comment_threads" (st_dict st) = None ->
  serves (comment_threads_request self) (st_world st) pages how w' ->
  forallb (page_readable thread_readable) pages = true ->
  (length pages < fuel)%nat ->
  exists st',
    comment_threads fuel self st
    = (Returns (VList (thread_ids (all_items pages))), st') /\
    st_world st' = w' /\
    printed (st_trace st') = printed (st_trace st) ++ logged how /\
    length (executed (st_trace st'))
    = (length (executed (st_trace st)) + length pages
       + match how with Exhausted => 0 | Failed _ => 1 end)%nat.
Proof.
  intros Hcache Hserves Hpages Hfuel. destruct st as [w trace dict]. simpl in *.
  destruct (page_loop_serves scan_items (ret tt) thread_id thread_readable
              thread_scan_readable
              ret_quiet
              _ _ _ _ _ Hserves Hpages fuel [] trace dict Hfuel)
    as (tr & Hloop & Hp & He).
  eexists. split; [|split; [|split]].
  - unfold comment_threads, cached_property. simpl. rewrite Hcache.
    unfold bind. rewrite comment_threads_loop_shape, Hloop. simpl. reflexivity.
  - reflexivity.
  - simpl. rewrite !printed_app, Hp. simpl. rewrite app_nil_r. reflexivity.
  - simpl. rewrite !executed_app, !length_app, He. simpl. lia.
Qed.

End Facts.
End VideoPages.

Module ChannelPages.
Import Channel.

Section Facts.
Context `{Runtime}.

Lemma video_ids_loop_shape (fuel : nat) :
  forall request acc st,
    video_ids_loop fuel request acc st
    = page_loop scan_items (sleep 1) fuel request acc st.
Proof.
  destruct fuel; intros [rq|] acc st; reflexivity.
Qed.

Lemma entry_scan_readable (items : list value) :
  forall acc, forallb entry_readable items = true ->
    scan_items items acc = (acc ++ entry_ids items, None).
Proof.
  induction items as [|item items IH]; intros acc Hall.
  - simpl. rewrite app_nil_r. reflexivity.
  - simpl in Hall. apply andb_prop in Hall as [Hitem Hrest].
    unfold entry_ids in *. simpl. unfold entry_readable, entry_id, is_video_entry in *.
    unfold resource_of in *.
    destruct (subscript item "snippet") as [snippet|e]; [|discriminate Hitem].
    simpl in *.
    destruct (subscript snippet "resourceId") as [resource|e]; [|discriminate Hitem].
    simpl in *.
    destruct (subscript resource "kind") as [kind|e]; [|discriminate Hitem].
    simpl in *.
    destruct (py_eq_str kind "youtube#video") eqn:Hmatch.
    + destruct (subscript resource "videoId") as [id|e]; [|discriminate Hitem]. simpl.
      rewrite IH by assumption. rewrite <- app_assoc. reflexivity.
    + apply IH. assumption.
Qed.

(** The identifiers returned are those of the videos among the entries,
    one for one and in order. *)
Lemma entry_ids_matching (items : list value) :
  forallb entry_readable items = true ->
  Forall2 (fun item id =>
             (resource <~ resource_of item ;; subscript resource "videoId") = Ok id)
          (filter (fun item => is_video_entry item = true) items) (entry_ids items).
Proof.
  induction items as [|item items IH]; intros Hall; [constructor|].
  simpl in Hall. apply andb_prop in Hall as [Hitem Hrest].
  unfold entry_ids. simpl. unfold entry_id at 1.
  rewrite filter_cons. unfold entry_readable in Hitem.
  destruct (is_video_entry item) eqn:Hmatch.
  - rewrite decide_True by reflexivity.
    apply andb_prop in Hitem as [_ Hid].
    destruct (resource <~ resource_of item ;; subscript resource "videoId")
      as [id|e] eqn:Hid'; [|discriminate Hid]. simpl.
    constructor; auto.
  - rewrite decide_False by discriminate. auto.
Qed.

Lemma video_ids_serves (fuel : nat) (self : obj) (st st1 : state) (uploads : value)
    (pages : list value) (how : ending) (w' : world) :
  dict_get "video_ids" (st_dict st) = None ->
  uploads_id self st = (Returns uploads, st1) ->
  serves (video_ids_request uploads) (st_world st1) pages how w' ->
  forallb (page_readable entry_readable) pages = true ->
  (length pages < fuel)%nat ->
  exists st',
    video_ids fuel self st
    = (Returns (VList (entry_ids (all_items pages))), st') /\
    st_world st' = w' /\
    printed (st_trace st') = printed (st_trace st1) ++ logged how /\
    length (executed (st_trace st'))
    = (length (executed (st_trace st1)) + length pages
       + match how with Exhausted => 0 | Failed _ => 1 end)%nat.
Proof.
  intros Hcache Hup Hserves Hpages Hfuel.
  destruct st1 as [w1 trace1 dict1]. simpl in *.
  destruct (page_loop_serves scan_items (sleep 1) entry_id entry_readable
              entry_scan_readable sleep_quiet
              _ _ _ _ _ Hserves Hpages fuel [] trace1 dict1 Hfuel)
    as (tr & Hloop & Hp & He).
  eexists. split; [|split; [|split]].
  - unfold video_ids, cached_property. rewrite Hcache.
    unfold bind at 1. rewrite Hup.
    unfold bind. rewrite video_ids_loop_shape, Hloop. simpl. reflexivity.
  - reflexivity.
  - simpl. rewrite !printed_app, Hp. reflexivity.
  - simpl. rewrite !executed_app, !length_app, He. lia.
Qed.

End Facts.
End ChannelPages.

(** Deriving [serves] for a scripted session. *)
Ltac served :=
  repeat first
    [ eapply serves_more; [vm_compute; reflexivity | vm_compute; reflexivity | ]
    | eapply serves_last; [vm_compute; reflexivity | vm_compute; reflexivity ]
    | eapply serves_failure; vm_compute; reflexivity ].

(** C2. Against a finite source of K pages whose items can be read, each
    paginator returns the identifiers of exactly the items of the expected
    kind, in source order, drops the others without a word, and stops once
    [list_next] returns [None]: any allowance of more than K iterations
    yields the same answer after K requests. *)
Theorem paginators_return_matching_items `{Runtime} (fuel : nat)
    (video : Video.obj) (channel : Channel.obj) (st ct ct1 : state)
    (uploads : value) (vpages cpages : list value) (w' cw' : world) :
  dict_get "comment_threads" (st_dict st) = None ->
  serves (Video.comment_threads_request video) (st_world st) vpages Exhausted w' ->
  forallb (page_readable thread_readable) vpages = true ->
  (length vpages < fuel)%nat ->
  dict_get "video_ids" (st_dict ct) = None ->
  Channel.uploads_id channel ct = (Returns uploads, ct1) ->
  serves (Channel.video_ids_request uploads) (st_world ct1) cpages Exhausted cw' ->
  forallb (page_readable entry_readable) cpages = true ->
  (length cpages < fuel)%nat ->
  (exists st',
     Video.comment_threads fuel video st
     = (Returns (VList (thread_ids (all_items vpages))), st') /\
     st_world st' = w' /\
     printed (st_trace st') = printed (st_trace st) /\
     length (executed (st_trace st'))
     = (length (executed (st_trace st)) + length vpages)%nat) /\
  Forall2 (fun item id => subscript item "id" = Ok id)
          (filter (fun item => is_thread item = true) (all_items vpages))
          (thread_ids (all_items vpages)) /\
  (exists ct',
     Channel.video_ids fuel channel ct
     = (Returns (VList (entry_ids (all_items cpages))), ct') /\
     st_world ct' = cw' /\
     printed (st_trace ct') = printed (st_trace ct1) /\
     length (executed (st_trace ct'))
     = (length (executed (st_trace ct1)) + length cpages)%nat) /\
  Forall2 (fun item id =>
             (resource <~ resource_of item ;; subscript resource "videoId") = Ok id)
          (filter (fun item => is_video_entry item = true) (all_items cpages))
          (entry_ids (all_items cpages)).
Proof.
  intros Hvc Hvs Hvr Hvf Hcc Hup Hcs Hcr Hcf.
  split; [|split; [|split]].
  - destruct (VideoPages.comment_threads_serves fuel video st vpages Exhausted w')
      as (st' & Hrun & Hw & Hp & He); try assumption.
    exists st'. simpl in Hp, He. rewrite app_nil_r in Hp. rewrite Nat.add_0_r in He. auto.
  - apply VideoPages.thread_ids_matching, all_items_readable, Hvr.
  - destruct (ChannelPages.video_ids_serves fuel channel ct ct1 uploads cpages Exhausted cw')
      as (ct' & Hrun & Hw & Hp & He); try assumption.
    exists ct'. simpl in Hp, He. rewrite app_nil_r in Hp. rewrite Nat.add_0_r in He. auto.
  - apply ChannelPages.entry_ids_matching, all_items_readable, Hcr.
Qed.


Lemma paginators_return_matching_items_witness :
  fst (Video.comment_threads (H := Scripted.client) 4 Samples.video Samples.listing_session)
  = Returns (VList [VStr "t1"; VStr "t2"; VStr "t3"]) /\
  fst (Channel.video_ids (H := Scripted.client) 4 Samples.channel Samples.uploads_session)
  = Returns (VList [VStr "v1"; VStr "v2"; VStr "v3"]).
Proof.
  edestruct (paginators_return_matching_items (H := Scripted.client) 4
               Samples.video Samples.channel
               Samples.listing_session Samples.uploads_session)
    with (vpages := Samples.thread_pages) (cpages := Samples.upload_pages)
    as ((st' & Hv & _) & _ & (ct' & Hc & _) & _).
  - reflexivity.
  - served.
  - reflexivity.
  - vm_compute. lia.
  - reflexivity.
  - vm_compute; reflexivity.
  - served.
  - reflexivity.
  - vm_compute. lia.
  - rewrite Hv, Hc. split; reflexivity.
Defined.

(** C3. When the request of some page raises, after K pages that were
    fetched and read, each paginator stops there: no exception escapes (the
    call returns), the error is printed ([str(e)], then the traceback),
    nothing is requested after the failed request, and the value returned
    is exactly what the K pages contributed. *)
Theorem paginators_abort_on_failure `{Runtime} (fuel : nat)
    (video : Video.obj) (channel : Channel.obj) (st ct ct1 : state)
    (uploads : value) (vpages cpages : list value) (e ce : exn) (w' cw' : world) :
  dict_get "comment_threads" (st_dict st) = None ->
  serves (Video.comment_threads_request video) (st_world st) vpages (Failed e) w' ->
  forallb (page_readable thread_readable) vpages = true ->
  (length vpages < fuel)%nat ->
  dict_get "video_ids" (st_dict ct) = None ->
  Channel.uploads_id channel ct = (Returns uploads, ct1) ->
  serves (Channel.video_ids_request uploads) (st_world ct1) cpages (Failed ce) cw' ->
  forallb (page_readable entry_readable) cpages = true ->
  (length cpages < fuel)%nat ->
  (exists st',
     Video.comment_threads fuel video st
     = (Returns (VList (thread_ids (all_items vpages))), st') /\
     st_world st' = w' /\
     printed (st_trace st') = printed (st_trace st) ++ [StrOf e; FormatExc e] /\
     length (executed (st_trace st'))
     = (length (executed (st_trace st)) + length vpages + 1)%nat) /\
  (exists ct',
     Channel.video_ids fuel channel ct
     = (Returns (VList (entry_ids (all_items cpages))), ct') /\
     st_world ct' = cw' /\
     printed (st_trace ct') = printed (st_trace ct1) ++ [StrOf ce; FormatExc ce] /\
     length (executed (st_trace ct'))
     = (length (executed (st_trace ct1)) + length cpages + 1)%nat).
Proof.
  intros Hvc Hvs Hvr Hvf Hcc Hup Hcs Hcr Hcf. split.
  - exact (VideoPages.comment_threads_serves fuel video st vpages (Failed e) w'
             Hvc Hvs Hvr Hvf).
  - exact (ChannelPages.video_ids_serves fuel channel ct ct1 uploads cpages (Failed ce) cw'
             Hcc Hup Hcs Hcr Hcf).
Qed.

Lemma paginators_abort_on_failure_witness :
  (let r := Video.comment_threads (H := Scripted.client) 4 Samples.video
              Samples.broken_listing_session in
   fst r = Returns (VList [VStr "t1"; VStr "t2"]) /\
   printed (st_trace (snd r))
   = [StrOf (ApiError "quotaExceeded"); FormatExc (ApiError "quotaExceeded")] /\
   length (st_world (snd r)) = 1%nat) /\
  (let r := Channel.video_ids (H := Scripted.client) 4 Samples.channel
              Samples.broken_uploads_session in
   fst r = Returns (VList [VStr "v1"]) /\
   printed (st_trace (snd r))
   = [StrOf (ApiError "quotaExceeded"); FormatExc (ApiError "quotaExceeded")] /\
   length (st_world (snd r)) = 1%nat).
Proof.
  edestruct (paginators_abort_on_failure (H := Scripted.client) 4
               Samples.video Samples.channel
               Samples.broken_listing_session Samples.broken_uploads_session)
    with (vpages := take 1 Samples.thread_pages) (cpages := take 1 Samples.upload_pages)
    as ((st' & Hv & Hvw & Hvp & _) & (ct' & Hc & Hcw & Hcp & _)).
  - reflexivity.
  - served.
  - reflexivity.
  - vm_compute. lia.
  - reflexivity.
  - vm_compute; reflexivity.
  - served.
  - reflexivity.
  - vm_compute. lia.
  - cbv zeta. rewrite Hv, Hc. simpl fst. simpl snd. rewrite Hvw, Hcw, Hvp, Hcp.
    repeat split; reflexivity.
Defined.

(** ** Flattening *)

Lemma map_result_length {A B} (f : A -> result B) (l : list A) (bs : list B) :
  map_result f l = Ok bs -> length bs = length l.
Proof.
  revert bs. induction l as [|a l IH]; intros bs; simpl.
  - intros [= <-]. reflexivity.
  - destruct (f a) as [b|e]; [|discriminate]. simpl.
    destruct (map_result f l) as [bs'|e]; [|discriminate]. simpl.
    intros [= <-]. simpl. f_equal. apply IH. reflexivity.
Qed.

Lemma map_result_Forall2 {A B} (f : A -> result B) (l : list A) (bs : list B) :
  map_result f l = Ok bs -> Forall2 (fun a b => f a = Ok b) l bs.
Proof.
  revert bs. induction l as [|a l IH]; intros bs; simpl.
  - intros [= <-]. constructor.
  - destruct (f a) as [b|e] eqn:Hfa; [|discriminate]. simpl.
    destruct (map_result f l) as [bs'|e]; [|discriminate]. simpl.
    intros [= <-]. constructor; auto.
Qed.

(** One element that raises is enough for the whole to raise, and what is
    raised is what the first such element raises. *)
Lemma map_result_first_error {A B} (f : A -> result B) (pre post : list A) (a : A)
    (e : exn) :
  forallb (fun x => is_ok (f x)) pre = true ->
  f a = Err e ->
  map_result f (pre ++ a :: post) = Err e.
Proof.
  intros Hpre Ha. induction pre as [|x pre IH]; simpl.
  - rewrite Ha. reflexivity.
  - simpl in Hpre. apply andb_prop in Hpre as [Hx Hpre].
    destruct (f x) as [b|e']; [|discriminate Hx]. simpl.
    rewrite IH by assumption. reflexivity.
Qed.

Lemma map_result_all_ok {A B} (f : A -> result B) (l : list A) :
  forallb (fun x => is_ok (f x)) l = true -> exists bs, map_result f l = Ok bs.
Proof.
  induction l as [|a l IH]; simpl; [eauto|].
  intros [Ha Hl]%andb_prop. destruct (f a) as [b|e]; [|discriminate Ha].
  destruct (IH Hl) as [bs ->]. simpl. eauto.
Qed.

(** A list some element of which fails splits at the first that does. *)
Lemma first_failure {A} (p : A -> bool) (l : list A) :
  forallb p l = false ->
  exists pre a post, l = pre ++ a :: post /\ forallb p pre = true /\ p a = false.
Proof.
  induction l as [|x l IH]; simpl; [discriminate|].
  destruct (p x) eqn:Hx; simpl.
  - intros Hl. destruct (IH Hl) as (pre & a & post & -> & Hpre & Ha).
    exists (x :: pre), a, post. simpl. rewrite Hx. auto.
  - intros _. exists [], x, l. auto.
Qed.

Module CommentFacts.
Import Video CommentRecord.

Section Facts.
Context `{Runtime}.

Lemma reply_texts_map (rs : list value) :
  forall last,
    Video.reply_texts rs last
    = (texts <~ map_result (fun reply => get_path reply reply_path) rs ;;
       Ok (last ++ texts)).
Proof.
  induction rs as [|reply rs IH]; intros last; simpl.
  - rewrite app_nil_r. reflexivity.
  - destruct (subscript reply "snippet") as [snippet|e]; [|reflexivity]. simpl.
    destruct (subscript snippet "textDisplay") as [text|e]; [|reflexivity]. simpl.
    rewrite IH.
    destruct (map_result _ rs) as [texts|e]; [|reflexivity]. simpl.
    rewrite <- app_assoc. reflexivity.
Qed.

(** The loop body computes the flat record of the item and adds it as a
    row. *)
Lemma comment_item_record (c : columns) (item : value) :
  flatten_item c item = (r <~ of_item item ;; Ok (add_row c r)).
Proof.
  unfold flatten_item, of_item, CommentRecord.reply_texts. simpl.
  destruct (subscript item "snippet") as [snippet|e]; [|reflexivity]. simpl.
  destruct (subscript snippet "topLevelComment") as [top_level|e]; [|reflexivity]. simpl.
  destruct (subscript top_level "snippet") as [top_comment|e]; [|reflexivity]. simpl.
  destruct (subscript top_comment "textDisplay") as [comment|e]; [|reflexivity]. simpl.
  destruct (subscript top_comment "publishedAt") as [comment_dt|e]; [|reflexivity]. simpl.
  destruct (subscript top_comment "authorDisplayName") as [user_name|e]; [|reflexivity].
  simpl.
  destruct (subscript top_comment "likeCount") as [like_cnt|e]; [|reflexivity]. simpl.
  destruct (subscript snippet "totalReplyCount") as [reply_cnt|e]; [|reflexivity]. simpl.
  destruct (py_gt_zero reply_cnt) as [[|]|e]; [|reflexivity|reflexivity]. simpl.
  destruct (subscript item "replies") as [item_replies|e]; [|reflexivity]. simpl.
  destruct (subscript item_replies "comments") as [reply_comments|e]; [|reflexivity]. simpl.
  destruct (py_iter reply_comments) as [rs|e]; [|reflexivity]. simpl.
  rewrite reply_texts_map.
  destruct (map_result _ rs) as [texts|e]; reflexivity.
Qed.

Lemma comment_items_records (items : list value) :
  forall c,
    flatten_items items c
    = (rows <~ map_result of_item items ;; Ok (fold_left add_row rows c)).
Proof.
  induction items as [|item items IH]; intros c; [reflexivity|].
  simpl. rewrite comment_item_record.
  destruct (of_item item) as [r|e]; [|reflexivity]. simpl.
  rewrite IH. destruct (map_result of_item items) as [rows|e]; reflexivity.
Qed.

(** The columns after a run of rows. *)
Lemma comment_rows_columns (rows : list t) :
  forall c,
    fold_left add_row rows c
    = Columns
        (comments c ++ map comment_text rows)
        (comment_dts c ++ map published_at rows)
        (user_names c ++ map author_name rows)
        (like_cnts c ++ map (fun r => VStr (py_str py_repr (like_count r))) rows)
        (reply_cnts c ++ map (fun r => VStr (py_str py_repr (reply_count r))) rows)
        (Video.replies c ++ map CommentRecord.replies rows).
Proof.
  induction rows as [|r rows IH]; intros c.
  - simpl. rewrite !app_nil_r. destruct c; reflexivity.
  - simpl. rewrite IH. simpl. rewrite <- !app_assoc. reflexivity.
Qed.

End Facts.
End CommentFacts.

(** Case analysis along the fields an item is read by. *)
Ltac split_andb :=
  repeat match goal with
         | H : _ && _ = true |- _ => apply andb_prop in H as [? ?]
         end.

Ltac read_fields :=
  repeat (simpl in *;
          try discriminate;
          try solve [eauto];
          match goal with
          | H : context [match dict_get ?k ?m with _ => _ end] |- _ =>
              destruct (dict_get k m) eqn:?
          | |- context [match dict_get ?k ?m with _ => _ end] =>
              destruct (dict_get k m) eqn:?
          | H : context [match ?v with VDict _ => _ | _ => _ end] |- _ =>
              is_var v; destruct v
          | |- context [match ?v with VDict _ => _ | _ => _ end] =>
              is_var v; destruct v
          end).

Module CommentShape.
Import Video CommentRecord.

Lemma reply_texts_shaped (rs : list value) (e : exn) :
  forallb reply_shaped rs = true ->
  map_result (fun reply => get_path reply reply_path) rs = Err e ->
  exists k, e = KeyError (VStr k).
Proof.
  induction rs as [|reply rs IH]; cbn [map_result forallb]; [discriminate|].
  intros [Hreply Hrs]%andb_prop.
  destruct (get_path reply reply_path) as [text|e'] eqn:Hpath.
  - cbn [rbind]. destruct (map_result _ rs) as [texts|e'']; [intros [=]|].
    intros [= <-]. apply IH; auto.
  - cbn [rbind]. intros [= <-]. clear IH Hrs.
    unfold reply_shaped, reply_path in *. split_andb.
    destruct reply; try discriminate. read_fields.
    all: injection Hpath as <-; eauto.
Qed.

(** Of an item of the documented shape, the only thing that can go wrong
    is a field that is not there. *)
Lemma of_item_shaped (item : value) (e : exn) :
  shaped item = true -> of_item item = Err e -> exists k, e = KeyError (VStr k).
Proof.
  unfold shaped. intros Hshape. split_andb.
  destruct item as [| | | | |fields]; try discriminate.
  unfold of_item, CommentRecord.reply_texts, replies_path, top in *.
  intros Hrow. read_fields.
  all: try (injection Hrow as <-; eauto).
  all: simpl in Hrow.
  all: match type of Hrow with
       | context [if ?b then _ else _] => destruct b
       end; simpl in Hrow; try discriminate.
  all: try solve [injection Hrow as <-; eauto].
  all: match type of Hrow with
       | context [map_result ?f ?l] => destruct (map_result f l) as [texts|e'] eqn:Hmap
       end; simpl in Hrow; try discriminate.
  all: injection Hrow as <-; eapply reply_texts_shaped; eauto.
Qed.

(** A record is only had of an item that lacks none of its fields. *)
Lemma of_item_complete (item : value) (r : t) :
  of_item item = Ok r -> complete item = true.
Proof.
  unfold of_item, complete, paths, CommentRecord.reply_texts. cbn [forallb].
  intros Hrow.
  destruct (get_path item (top ++ ["textDisplay"])) as [comment|e]; [|discriminate].
  destruct (get_path item (top ++ ["publishedAt"])) as [comment_dt|e]; [|discriminate].
  destruct (get_path item (top ++ ["authorDisplayName"])) as [user_name|e]; [|discriminate].
  destruct (get_path item (top ++ ["likeCount"])) as [like_cnt|e]; [|discriminate].
  destruct (get_path item ["snippet"; "totalReplyCount"]) as [reply_cnt|e]; [|discriminate].
  cbn [rbind is_ok andb] in *.
  destruct (py_gt_zero reply_cnt) as [[|]|e]; cbn [rbind] in *; try reflexivity.
  destruct (get_path item replies_path) as [[| | | |rs|]|e]; cbn [rbind py_iter] in *;
    try reflexivity; try discriminate.
  destruct (map_result (fun reply => get_path reply reply_path) rs) as [texts|e] eqn:Hmap;
    [|discriminate].
  clear Hrow. apply map_result_Forall2 in Hmap.
  induction Hmap as [|reply text rs texts Hreply _ IH]; [reflexivity|].
  cbn [forallb]. rewrite Hreply. exact IH.
Qed.

(** An item of the documented shape that lacks none of its fields has a
    record. *)
Lemma shaped_complete_record (item : value) :
  shaped item = true -> complete item = true -> exists r, of_item item = Ok r.
Proof.
  intros Hshape Hcomplete.
  destruct (of_item item) as [r|e] eqn:Hrow; [eauto|exfalso].
  destruct (of_item_shaped _ _ Hshape Hrow) as [k ->].
  assert (count_if_present (get_path item ["snippet"; "totalReplyCount"]) = true)
    as Hcount by (unfold shaped in Hshape; split_andb; assumption).
  clear Hshape.
  unfold of_item, complete, paths, CommentRecord.reply_texts in *. cbn [forallb] in *.
  destruct (get_path item (top ++ ["textDisplay"])) as [comment|e]; [|discriminate].
  destruct (get_path item (top ++ ["publishedAt"])) as [comment_dt|e]; [|discriminate].
  destruct (get_path item (top ++ ["authorDisplayName"])) as [user_name|e]; [|discriminate].
  destruct (get_path item (top ++ ["likeCount"])) as [like_cnt|e]; [|discriminate].
  destruct (get_path item ["snippet"; "totalReplyCount"]) as [reply_cnt|e]; [|discriminate].
  cbn [rbind is_ok andb] in *.
  destruct reply_cnt as [|b|z| | |]; try discriminate Hcount.
  all: cbn [py_gt_zero rbind] in *.
  all: match type of Hrow with
       | context [if ?b then _ else _] => destruct b
       end; try discriminate.
  all: destruct (get_path item replies_path) as [[| | |s|rs|fields]|e];
    cbn [rbind py_iter] in *; try discriminate.
  all: try (destruct s; simpl in Hrow; discriminate).
  all: try (destruct fields as [|[k' v] rest]; simpl in Hrow; discriminate).
  all: apply map_result_all_ok in Hcomplete as [texts Htexts];
    rewrite Htexts in Hrow; discriminate.
Qed.

End CommentShape.

Module VideoRows.
Import Channel VideoRecord.

(** The loop body adds the record of a video as a row and leaves the
    columns alone for an item of another kind. *)
Lemma video_item_record (c : columns) (item : value) :
  flatten_item c item
  = (row <~ of_any item ;;
     Ok (match row with Some r => add_row c r | None => c end)).
Proof.
  unfold flatten_item, of_any, of_item. simpl.
  destruct (subscript item "kind") as [kind|e]; [|reflexivity]. simpl.
  destruct (py_eq_str kind "youtube#video"); [|reflexivity].
  destruct (subscript item "id") as [video_id|e]; [|reflexivity]. simpl.
  destruct (subscript item "snippet") as [snippet|e]; [|reflexivity]. simpl.
  destruct (subscript snippet "publishedAt") as [published_dt|e]; [|reflexivity]. simpl.
  destruct (subscript snippet "title") as [video_title|e]; [|reflexivity]. simpl.
  destruct (subscript snippet "description") as [video_description|e]; [|reflexivity].
  simpl.
  destruct (subscript snippet "tags") as [video_tag|e]; [|reflexivity]. simpl.
  destruct (subscript item "statistics") as [stats|e]; [|reflexivity]. simpl.
  destruct (subscript stats "viewCount") as [view_cnt|e]; [|reflexivity]. simpl.
  destruct (subscript stats "likeCount") as [like_cnt|e]; [|reflexivity]. simpl.
  destruct (subscript stats "favoriteCount") as [fave_cnt|e]; [|reflexivity]. simpl.
  destruct (subscript stats "commentCount") as [comment_cnt|e]; reflexivity.
Qed.

Lemma video_items_records (items : list value) :
  forall c,
    flatten_items items c
    = (rows <~ map_result of_any items ;; Ok (fold_left add_row (records rows) c)).
Proof.
  induction items as [|item items IH]; intros c; [reflexivity|].
  simpl. rewrite video_item_record.
  destruct (of_any item) as [[r|]|e]; [| |reflexivity]; simpl.
  - rewrite IH. destruct (map_result of_any items) as [rows|e]; reflexivity.
  - rewrite IH. destruct (map_result of_any items) as [rows|e]; reflexivity.
Qed.

(** The columns after a run of rows. *)
Lemma video_rows_columns (rows : list t) :
  forall c,
    fold_left add_row rows c
    = Columns
        (video_ids_col c ++ map video_id rows)
        (published_dts c ++ map published_at rows)
        (video_titles c ++ map title rows)
        (video_descriptions c ++ map description rows)
        (video_tags c ++ map tags rows)
        (view_cnts c ++ map view_count rows)
        (like_cnts c ++ map like_count rows)
        (fave_cnts c ++ map favorite_count rows)
        (comment_cnts c ++ map comment_count rows).
Proof.
  induction rows as [|r rows IH]; intros c.
  - simpl. rewrite !app_nil_r. destruct c; reflexivity.
  - simpl. rewrite IH. simpl. rewrite <- !app_assoc. reflexivity.
Qed.

(** The records had of a response are those of its videos, one for one
    and in order. *)
Lemma records_of_videos (items : list value) (rows : list (option t)) :
  map_result of_any items = Ok rows ->
  Forall2 (fun item r => of_item item = Ok r)
          (filter (fun item => is_video item = true) items) (records rows).
Proof.
  revert rows. induction items as [|item items IH]; intros rows; simpl.
  - intros [= <-]. constructor.
  - destruct (of_any item) as [row|e] eqn:Hrow; [|discriminate]. simpl.
    destruct (map_result of_any items) as [rows'|e]; [|discriminate]. simpl.
    intros [= <-]. specialize (IH _ eq_refl).
    rewrite filter_cons. unfold of_any, is_video in *.
    destruct (subscript item "kind") as [kind|e]; [|discriminate]. simpl in Hrow.
    destruct (py_eq_str kind "youtube#video").
    + rewrite decide_True by reflexivity.
      destruct (of_item item) as [r|e] eqn:Hitem; [|discriminate]. injection Hrow as <-.
      unfold records. simpl. constructor; auto.
    + rewrite decide_False by discriminate. injection Hrow as <-. exact IH.
Qed.

(** Of an item of the documented shape, the only thing that can go wrong
    is a field that is not there. *)
Lemma of_any_shaped (item : value) (e : exn) :
  shaped item = true -> of_any item = Err e -> exists k, e = KeyError (VStr k).
Proof.
  unfold shaped. intros Hshape. split_andb.
  destruct item as [| | | | |fields]; try discriminate.
  unfold of_any, of_item in *.
  intros Hrow. read_fields.
  all: try (injection Hrow as <-; eauto).
  all: match type of Hrow with
       | context [if ?b then _ else _] => destruct b
       end; try discriminate.
  all: read_fields.
  all: try (injection Hrow as <-; eauto).
Qed.

(** Something is only had of an item that lacks none of its fields. *)
Lemma of_any_complete (item : value) (row : option t) :
  of_any item = Ok row -> complete item = true.
Proof.
  unfold of_any, complete, is_video, of_item, paths. cbn [forallb].
  intros Hrow.
  destruct (subscript item "kind") as [kind|e]; [|discriminate].
  cbn [rbind is_ok andb] in *.
  destruct (py_eq_str kind "youtube#video"); [|reflexivity].
  repeat match type of Hrow with
         | context [get_path ?v ?p] =>
             destruct (get_path v p); [|discriminate]; cbn [rbind is_ok andb] in *
         end.
  reflexivity.
Qed.

(** An item of the documented shape that lacks none of its fields
    contributes something. *)
Lemma shaped_complete_row (item : value) :
  shaped item = true -> complete item = true -> exists row, of_any item = Ok row.
Proof.
  intros Hshape Hcomplete.
  destruct (of_any item) as [row|e] eqn:Hrow; [eauto|exfalso].
  destruct (of_any_shaped _ _ Hshape Hrow) as [k ->]. clear Hshape.
  unfold of_any, complete, is_video, of_item, paths in *. cbn [forallb] in *.
  destruct (subscript item "kind") as [kind|e]; [|discriminate].
  cbn [rbind is_ok andb] in *.
  destruct (py_eq_str kind "youtube#video"); [|discriminate].
  repeat match type of Hrow with
         | context [get_path ?v ?p] =>
             destruct (get_path v p); [|discriminate]; cbn [rbind is_ok andb] in *
         end.
  discriminate.
Qed.

End VideoRows.

Lemma Forall2_map_result {A B} (f : A -> result B) (l : list A) (bs : list B) :
  Forall2 (fun a b => f a = Ok b) l bs -> map_result f l = Ok bs.
Proof.
  induction 1 as [|a b l bs Ha _ IH]; [reflexivity|].
  simpl. rewrite Ha, IH. reflexivity.
Qed.

(** ** The batch fetches, once the service has answered *)

Section BatchRuns.
Context `{Runtime}.

Lemma _fetch_comment_batch_answered (self : Video.obj) (batch : value) (ids : string)
    (st : state) (response : value) (w' : world) (items : list value) :
  py_join "," batch = Ok ids ->
  execute (Video.batch_request ids) (st_world st) = (Ok response, w') ->
  (l <~ subscript response "items" ;; py_iter l) = Ok items ->
  Video._fetch_comment_batch self batch st
  = (match (c <~ Video.flatten_items items Video.no_columns ;; Video.to_frame c) with
     | Ok df => Returns df
     | Err e => Raises e
     end,
     State w' (st_trace st ++ [Executed (Video.batch_request ids)]) (st_dict st)).
Proof.
  intros Hjoin Hx Hitems.
  unfold Video._fetch_comment_batch, bind, api_execute.
  rewrite Hjoin. simpl. rewrite Hx. simpl. rewrite Hitems. simpl.
  destruct (Video.flatten_items items Video.no_columns) as [c|e]; [|reflexivity].
  simpl. destruct (Video.to_frame c); reflexivity.
Qed.

Lemma _fetch_video_batch_answered (self : Channel.obj) (batch : value) (ids : string)
    (st : state) (response : value) (w' : world) (items : list value) :
  py_join "," batch = Ok ids ->
  execute (Channel.batch_request ids) (st_world st) = (Ok response, w') ->
  (l <~ subscript response "items" ;; py_iter l) = Ok items ->
  Channel._fetch_video_batch self batch st
  = (match (c <~ Channel.flatten_items items Channel.no_columns ;; Channel.to_frame c) with
     | Ok df => Returns df
     | Err e => Raises e
     end,
     State w' (st_trace st ++ [Executed (Channel.batch_request ids)]) (st_dict st)).
Proof.
  intros Hjoin Hx Hitems.
  unfold Channel._fetch_video_batch, bind, api_execute.
  rewrite Hjoin. simpl. rewrite Hx. simpl. rewrite Hitems. simpl.
  destruct (Channel.flatten_items items Channel.no_columns) as [c|e]; [|reflexivity].
  simpl. destruct (Channel.to_frame c); reflexivity.
Qed.

End BatchRuns.

(** C4, as the code has it. For a comment thread whose top-level fields
    are there: with a positive [totalReplyCount] and reply data, the
    replies cell is the display texts of the replies in the order the
    service returned them; with a [totalReplyCount] of zero (or below) it is
    the empty list, whether reply data came or not; with a positive
    [totalReplyCount] and reply data that cannot be read, the flattening
    raises the error of the failed read, a [KeyError] for a missing
    [replies]. *)
Theorem replies_of_flattened_thread `{Runtime} (c : Video.columns) (item : value)
    (comment comment_dt user_name like_cnt : value) (n : Z) :
  get_path item (CommentRecord.top ++ ["textDisplay"]) = Ok comment ->
  get_path item (CommentRecord.top ++ ["publishedAt"]) = Ok comment_dt ->
  get_path item (CommentRecord.top ++ ["authorDisplayName"]) = Ok user_name ->
  get_path item (CommentRecord.top ++ ["likeCount"]) = Ok like_cnt ->
  get_path item ["snippet"; "totalReplyCount"] = Ok (VInt n) ->
  (0 < n ->
   forall rs texts,
     get_path item CommentRecord.replies_path = Ok (VList rs) ->
     Forall2 (fun reply text => get_path reply CommentRecord.reply_path = Ok text)
             rs texts ->
     exists c', Video.flatten_item c item = Ok c' /\
                Video.replies c' = Video.replies c ++ [texts]) /\
  (n <= 0 ->
   exists c', Video.flatten_item c item = Ok c' /\
              Video.replies c' = Video.replies c ++ [[]]) /\
  (0 < n ->
   forall e,
     get_path item CommentRecord.replies_path = Err e ->
     Video.flatten_item c item = Err e) /\
  (0 < n ->
   subscript item "replies" = Err (KeyError (VStr "replies")) ->
   Video.flatten_item c item = Err (KeyError (VStr "replies"))).
Proof.
  intros Hcomment Hdt Hname Hlike Hcnt.
  rewrite CommentFacts.comment_item_record.
  unfold CommentRecord.of_item, CommentRecord.reply_texts.
  rewrite Hcomment, Hdt, Hname, Hlike, Hcnt. cbn [rbind py_gt_zero].
  split; [|split; [|split]].
  - intros Hn rs texts Hrs Htexts.
    apply Z.ltb_lt in Hn. rewrite Hn, Hrs. cbn [rbind py_iter].
    rewrite (Forall2_map_result _ _ _ Htexts). cbn [rbind].
    eexists. split; reflexivity.
  - intros Hn. apply Z.ltb_ge in Hn. rewrite Hn. cbn [rbind].
    eexists. split; reflexivity.
  - intros Hn e He. apply Z.ltb_lt in Hn. rewrite Hn, He. reflexivity.
  - intros Hn He. apply Z.ltb_lt in Hn. rewrite Hn.
    unfold CommentRecord.replies_path. cbn [get_path]. rewrite He. reflexivity.
Qed.

Lemma replies_of_flattened_thread_witness :
  exists c',
    Video.flatten_item (H := Scripted.client) Video.no_columns
      (Samples.comment_thread "second" 0 2 (Some ["r1"; "r2"])) = Ok c' /\
    Video.replies c' = [[VStr "r1"; VStr "r2"]].
Proof.
  refine (proj1 (replies_of_flattened_thread (H := Scripted.client) Video.no_columns
                   (Samples.comment_thread "second" 0 2 (Some ["r1"; "r2"]))
                   (VStr "second") (VStr "2024-01-01T00:00:00Z") (VStr "@someone")
                   (VInt 0) 2 _ _ _ _ _) _ (map Samples.reply ["r1"; "r2"])
                [VStr "r1"; VStr "r2"] _ _);
    try reflexivity.
  repeat constructor.
Defined.

(** C4 as stated fails: a thread that counts two replies and comes without
    reply data does not get an empty list, its flattening raises. *)
Lemma thread_without_reply_data_raises :
  Video.flatten_item (H := Scripted.client) Video.no_columns
    (Samples.comment_thread "lonely" 0 2 None)
  = Err (KeyError (VStr "replies")) /\
  fst (Video._fetch_comment_batch (H := Scripted.client) Samples.video
         (VList [VStr "t1"])
         (Scripted.start [Ok (Samples.page [Samples.comment_thread "lonely" 0 2 None] None)]))
  = Raises (KeyError (VStr "replies")).
Proof. split; reflexivity. Qed.

Lemma readable_prefix {A} (shaped complete ok : A -> bool) (l : list A) :
  (forall a, shaped a = true -> complete a = true -> ok a = true) ->
  forallb shaped l = true -> forallb complete l = true -> forallb ok l = true.
Proof.
  intros Hok. induction l as [|a l IH]; [reflexivity|]. simpl.
  intros [Ha Hl]%andb_prop [Ha' Hl']%andb_prop.
  rewrite (Hok a Ha Ha'), IH by assumption. reflexivity.
Qed.

(** Among items of the documented shape, one that lacks a field makes the
    whole flattening raise a [KeyError]. *)
Lemma comment_items_lacking_field `{Runtime} (items : list value) (c : Video.columns) :
  forallb CommentRecord.shaped items = true ->
  forallb CommentRecord.complete items = false ->
  exists k, Video.flatten_items items c = Err (KeyError (VStr k)).
Proof.
  intros Hshape Hlack.
  apply first_failure in Hlack as (pre & item & post & -> & Hpre & Hitem).
  rewrite forallb_app in Hshape. apply andb_prop in Hshape as [Hspre Hsrest].
  simpl in Hsrest. apply andb_prop in Hsrest as [Hsitem _].
  destruct (CommentRecord.of_item item) as [r|e] eqn:Hrow.
  { apply CommentShape.of_item_complete in Hrow. congruence. }
  destruct (CommentShape.of_item_shaped _ _ Hsitem Hrow) as [k ->].
  exists k. rewrite CommentFacts.comment_items_records.
  rewrite (map_result_first_error _ pre post item (KeyError (VStr k)));
    [reflexivity| |exact Hrow].
  apply (readable_prefix CommentRecord.shaped CommentRecord.complete); try assumption.
  intros a Ha Ha'. destruct (CommentShape.shaped_complete_record a Ha Ha') as [r ->].
  reflexivity.
Qed.

Lemma video_items_lacking_field (items : list value) (c : Channel.columns) :
  forallb VideoRecord.shaped items = true ->
  forallb VideoRecord.complete items = false ->
  exists k, Channel.flatten_items items c = Err (KeyError (VStr k)).
Proof.
  intros Hshape Hlack.
  apply first_failure in Hlack as (pre & item & post & -> & Hpre & Hitem).
  rewrite forallb_app in Hshape. apply andb_prop in Hshape as [Hspre Hsrest].
  simpl in Hsrest. apply andb_prop in Hsrest as [Hsitem _].
  destruct (VideoRecord.of_any item) as [r|e] eqn:Hrow.
  { apply VideoRows.of_any_complete in Hrow. congruence. }
  destruct (VideoRows.of_any_shaped _ _ Hsitem Hrow) as [k ->].
  exists k. rewrite VideoRows.video_items_records.
  rewrite (map_result_first_error _ pre post item (KeyError (VStr k)));
    [reflexivity| |exact Hrow].
  apply (readable_prefix VideoRecord.shaped VideoRecord.complete); try assumption.
  intros a Ha Ha'. destruct (VideoRows.shaped_complete_row a Ha Ha') as [r ->].
  reflexivity.
Qed.

(** C5. When the items of a response are of the documented shape and one
    of them lacks an expected field, the batch fetch raises a [KeyError],
    a lookup error, which nothing catches: that is the outcome of the call,
    reached right after the request, and no table is returned. *)
Theorem missing_field_aborts_batch `{Runtime}
    (video : Video.obj) (channel : Channel.obj) (batch cbatch : value)
    (ids cids : string) (st ct : state) (response cresponse : value)
    (w' cw' : world) (items citems : list value) :
  py_join "," batch = Ok ids ->
  execute (Video.batch_request ids) (st_world st) = (Ok response, w') ->
  subscript response "items" = Ok (VList items) ->
  forallb CommentRecord.shaped items = true ->
  forallb CommentRecord.complete items = false ->
  py_join "," cbatch = Ok cids ->
  execute (Channel.batch_request cids) (st_world ct) = (Ok cresponse, cw') ->
  subscript cresponse "items" = Ok (VList citems) ->
  forallb VideoRecord.shaped citems = true ->
  forallb VideoRecord.complete citems = false ->
  (exists k,
     Video._fetch_comment_batch video batch st
     = (Raises (KeyError (VStr k)),
        State w' (st_trace st ++ [Executed (Video.batch_request ids)]) (st_dict st)) /\
     is_LookupError (KeyError (VStr k)) = true) /\
  (exists k,
     Channel._fetch_video_batch channel cbatch ct
     = (Raises (KeyError (VStr k)),
        State cw' (st_trace ct ++ [Executed (Channel.batch_request cids)]) (st_dict ct)) /\
     is_LookupError (KeyError (VStr k)) = true).
Proof.
  intros Hj Hx Hi Hs Hl Hcj Hcx Hci Hcs Hcl. split.
  - destruct (comment_items_lacking_field items Video.no_columns Hs Hl) as [k Hk].
    exists k. split; [|reflexivity].
    rewrite (_fetch_comment_batch_answered video batch ids st response w' items Hj Hx)
      by (rewrite Hi; reflexivity).
    rewrite Hk. reflexivity.
  - destruct (video_items_lacking_field citems Channel.no_columns Hcs Hcl) as [k Hk].
    exists k. split; [|reflexivity].
    rewrite (_fetch_video_batch_answered channel cbatch cids ct cresponse cw' citems Hcj Hcx)
      by (rewrite Hci; reflexivity).
    rewrite Hk. reflexivity.
Qed.

Lemma missing_field_aborts_batch_witness :
  (exists k,
     fst (Video._fetch_comment_batch (H := Scripted.client) Samples.video
            (VList [VStr "t1"; VStr "t2"]) Samples.lacking_thread_session)
     = Raises (KeyError (VStr k))) /\
  (exists k,
     fst (Channel._fetch_video_batch (H := Scripted.client) Samples.channel
            (VList [VStr "v1"; VStr "v2"]) Samples.lacking_video_session)
     = Raises (KeyError (VStr k))).
Proof.
  edestruct (missing_field_aborts_batch (H := Scripted.client) Samples.video Samples.channel
               (VList [VStr "t1"; VStr "t2"]) (VList [VStr "v1"; VStr "v2"])
               "t1,t2" "v1,v2" Samples.lacking_thread_session Samples.lacking_video_session)
    as ((k & Hk & _) & (ck & Hck & _)).
  1-10: vm_compute; reflexivity.
  split; [exists k; rewrite Hk|exists ck; rewrite Hck]; reflexivity.
Defined.

(** C6, as the code has it. Of a video whose other fields are there, the
    [tags] are put in the row as they came, whatever they are, when the
    snippet has them; when the snippet has none, the flattening raises a
    [KeyError] for [tags] and no row is made. *)
Theorem tags_kept_when_present (c : Channel.columns) (item : value)
    (id published_dt title description views likes faves comments : value) :
  VideoRecord.is_video item = true ->
  get_path item ["id"] = Ok id ->
  get_path item ["snippet"; "publishedAt"] = Ok published_dt ->
  get_path item ["snippet"; "title"] = Ok title ->
  get_path item ["snippet"; "description"] = Ok description ->
  get_path item ["statistics"; "viewCount"] = Ok views ->
  get_path item ["statistics"; "likeCount"] = Ok likes ->
  get_path item ["statistics"; "favoriteCount"] = Ok faves ->
  get_path item ["statistics"; "commentCount"] = Ok comments ->
  (forall tags,
     get_path item ["snippet"; "tags"] = Ok tags ->
     exists c', Channel.flatten_item c item = Ok c' /\
                Channel.video_tags c' = Channel.video_tags c ++ [tags]) /\
  (get_path item ["snippet"; "tags"] = Err (KeyError (VStr "tags")) ->
   Channel.flatten_item c item = Err (KeyError (VStr "tags"))).
Proof.
  intros Hvideo Hid Hpub Htitle Hdesc Hviews Hlikes Hfaves Hcomments.
  rewrite VideoRows.video_item_record. unfold VideoRecord.of_any.
  unfold VideoRecord.is_video in Hvideo.
  destruct (subscript item "kind") as [kind|e]; [|discriminate Hvideo].
  cbn [rbind]. rewrite Hvideo. unfold VideoRecord.of_item.
  rewrite Hid, Hpub, Htitle, Hdesc. cbn [rbind]. split.
  - intros tags Htags.
    rewrite Htags, Hviews, Hlikes, Hfaves, Hcomments. cbn [rbind].
    eexists. split; reflexivity.
  - intros Htags. rewrite Htags. reflexivity.
Qed.

Lemma tags_kept_when_present_witness :
  exists c',
    Channel.flatten_item Channel.no_columns
      (Samples.video_item "v0" (Some ["a"; "b"]) (VStr "100")) = Ok c' /\
    Channel.video_tags c' = [VList [VStr "a"; VStr "b"]].
Proof.
  refine (proj1 (tags_kept_when_present Channel.no_columns
                   (Samples.video_item "v0" (Some ["a"; "b"]) (VStr "100"))
                   (VStr "v0") (VStr "2024-01-01T00:00:00Z") (VStr "a title")
                   (VStr "a description") (VStr "100") (VStr "10") (VStr "0") (VStr "3")
                   _ _ _ _ _ _ _ _ _) (VList [VStr "a"; VStr "b"]) _);
    reflexivity.
Defined.

(** C6 as stated fails: the flattening of a video without [tags] does not
    succeed, it raises, and the batch it is in returns no table. *)
Lemma video_without_tags_raises :
  Channel.flatten_item Channel.no_columns (Samples.video_item "v2" None (VStr "7"))
  = Err (KeyError (VStr "tags")) /\
  fst (Channel._fetch_video_batch (H := Scripted.client) Samples.channel
         (VList [VStr "v1"; VStr "v2"]) Samples.lacking_video_session)
  = Raises (KeyError (VStr "tags")).
Proof. split; reflexivity. Qed.

(** ** The resolvers *)

Section Resolvers.
Context `{Runtime}.

(** What both resolvers do with the answer to their request. *)
Lemma resolver_answered (name : string) (rq : request) (e : exn)
    (pick : value -> result value) (st : state) (response : value) (w' : world) :
  dict_get name (st_dict st) = None ->
  execute rq (st_world st) = (Ok response, w') ->
  cached_property name
    (response <- api_execute rq ;;
     items <- lift (subscript response "items") ;;
     n <- lift (py_len items) ;;
     if (1 <? n)%nat then raise e
     else sleep 1 ;;;
          lift (items' <~ subscript response "items" ;;
                first <~ py_index items' 0 ;;
                pick first)) st
  = match (items <~ subscript response "items" ;; py_len items) with
    | Err e' => (Raises e', State w' (st_trace st ++ [Executed rq]) (st_dict st))
    | Ok n =>
        if (1 <? n)%nat
        then (Raises e, State w' (st_trace st ++ [Executed rq]) (st_dict st))
        else
          match (items <~ subscript response "items" ;;
                 first <~ py_index items 0 ;;
                 pick first) with
          | Ok id =>
              (Returns id,
               State w' (st_trace st ++ [Executed rq; Slept 1])
                     (dict_set name id (st_dict st)))
          | Err e' =>
              (Raises e', State w' (st_trace st ++ [Executed rq; Slept 1]) (st_dict st))
          end
    end.
Proof.
  intros Hcache Hx. unfold cached_property. rewrite Hcache.
  unfold bind, api_execute. rewrite Hx. simpl.
  destruct (subscript response "items") as [items|e1]; [|reflexivity]. simpl.
  destruct (py_len items) as [n|e2]; [|reflexivity]. simpl.
  destruct (1 <? n)%nat; [reflexivity|]. simpl.
  destruct (py_index items 0) as [first|e3]; simpl;
    [|rewrite <- app_assoc; reflexivity].
  destruct (pick first) as [id|e4]; simpl; rewrite <- app_assoc; reflexivity.
Qed.

End Resolvers.

(** C7. When the response to a resolver holds more than one item, the
    resolver raises the ambiguity error: that is the outcome of the call,
    no identifier is returned and none is kept. *)
Theorem resolvers_raise_on_ambiguity `{Runtime} (channel : Channel.obj)
    (st : state) (response items : value) (n : nat) (w' : world) :
  dict_get "channel_id" (st_dict st) = None ->
  dict_get "uploads_id" (st_dict st) = None ->
  execute (Channel.channels_request channel) (st_world st) = (Ok response, w') ->
  subscript response "items" = Ok items ->
  py_len items = Ok n ->
  (1 < n)%nat ->
  Channel.channel_id channel st
  = (Raises ambiguous_handle,
     State w' (st_trace st ++ [Executed (Channel.channels_request channel)]) (st_dict st)) /\
  Channel.uploads_id channel st
  = (Raises ambiguous_channel,
     State w' (st_trace st ++ [Executed (Channel.channels_request channel)]) (st_dict st)).
Proof.
  intros Hc Hu Hx Hitems Hlen Hn.
  apply Nat.ltb_lt in Hn. split.
  - unfold Channel.channel_id.
    rewrite (resolver_answered _ _ _ (fun first => subscript first "id") _ _ _ Hc Hx).
    rewrite Hitems. cbn [rbind]. rewrite Hlen, Hn. reflexivity.
  - unfold Channel.uploads_id.
    rewrite (resolver_answered _ _ _
               (fun first => details <~ subscript first "contentDetails" ;;
                             related <~ subscript details "relatedPlaylists" ;;
                             subscript related "uploads") _ _ _ Hu Hx).
    rewrite Hitems. cbn [rbind]. rewrite Hlen, Hn. reflexivity.
Qed.

Lemma resolvers_raise_on_ambiguity_witness :
  fst (Channel.channel_id (H := Scripted.client) Samples.channel Samples.ambiguous_session)
  = Raises ambiguous_handle /\
  fst (Channel.uploads_id (H := Scripted.client) Samples.channel Samples.ambiguous_session)
  = Raises ambiguous_channel.
Proof.
  edestruct (resolvers_raise_on_ambiguity (H := Scripted.client) Samples.channel
               Samples.ambiguous_session) as [Hc Hu].
  1-5: vm_compute; reflexivity.
  - vm_compute. lia.
  - rewrite Hc, Hu. split; reflexivity.
Defined.

(** C8. When the response to a resolver holds no item, what reaches the
    caller is the lookup error of taking the first of none, an
    [IndexError] for an empty list; it is not the ambiguity error. *)
Theorem resolvers_raise_lookup_error_on_empty `{Runtime} (channel : Channel.obj)
    (st : state) (response items : value) (w' : world) :
  dict_get "channel_id" (st_dict st) = None ->
  dict_get "uploads_id" (st_dict st) = None ->
  execute (Channel.channels_request channel) (st_world st) = (Ok response, w') ->
  subscript response "items" = Ok items ->
  py_len items = Ok 0%nat ->
  exists e,
    Channel.channel_id channel st
    = (Raises e,
       State w' (st_trace st ++ [Executed (Channel.channels_request channel); Slept 1])
             (st_dict st)) /\
    Channel.uploads_id channel st
    = (Raises e,
       State w' (st_trace st ++ [Executed (Channel.channels_request channel); Slept 1])
             (st_dict st)) /\
    is_LookupError e = true /\
    is_RuntimeError e = false /\
    (items = VList [] -> e = IndexError).
Proof.
  intros Hc Hu Hx Hitems Hlen.
  assert (exists e, py_index items 0 = Err e /\ is_LookupError e = true /\
                    is_RuntimeError e = false /\ (items = VList [] -> e = IndexError))
    as (e & He & Hlookup & Hkind & Hlist).
  { destruct items as [| | |s|l|fields]; try discriminate Hlen.
    - destruct s; [|discriminate Hlen]. exists IndexError. auto.
    - destruct l; [|discriminate Hlen]. exists IndexError. auto.
    - exists (KeyError (VInt 0)). repeat split. discriminate. }
  exists e. repeat split; try assumption.
  - unfold Channel.channel_id.
    rewrite (resolver_answered _ _ _ (fun first => subscript first "id") _ _ _ Hc Hx).
    rewrite Hitems. cbn [rbind]. rewrite Hlen, He. reflexivity.
  - unfold Channel.uploads_id.
    rewrite (resolver_answered _ _ _
               (fun first => details <~ subscript first "contentDetails" ;;
                             related <~ subscript details "relatedPlaylists" ;;
                             subscript related "uploads") _ _ _ Hu Hx).
    rewrite Hitems. cbn [rbind]. rewrite Hlen, He. reflexivity.
Qed.

Lemma resolvers_raise_lookup_error_on_empty_witness :
  fst (Channel.channel_id (H := Scripted.client) Samples.channel
         Samples.unknown_handle_session) = Raises IndexError /\
  fst (Channel.uploads_id (H := Scripted.client) Samples.channel
         Samples.unknown_handle_session) = Raises IndexError.
Proof.
  edestruct (resolvers_raise_lookup_error_on_empty (H := Scripted.client) Samples.channel
               Samples.unknown_handle_session) as (e & Hc & Hu & _ & _ & He).
  1-5: vm_compute; reflexivity.
  rewrite Hc, Hu, (He eq_refl). split; reflexivity.
Defined.
(** ** Column contents *)

Section Columns.
Context `{Runtime}.

Lemma api_execute_returns (rq : request) (st st' : state) (v : value) :
  api_execute rq st = (Returns v, st') -> fst (execute rq (st_world st)) = Ok v.
Proof.
  unfold api_execute. destruct (execute rq (st_world st)) as [[v'|e] w]; simpl.
  - intros [= -> _]. reflexivity.
  - discriminate.
Qed.

(** The fields of the record of a comment thread are what the paths give. *)
Lemma comment_record_fields (item : value) (r : CommentRecord.t) :
  CommentRecord.of_item item = Ok r ->
  get_path item (CommentRecord.top ++ ["textDisplay"]) = Ok (CommentRecord.comment_text r) /\
  get_path item (CommentRecord.top ++ ["publishedAt"]) = Ok (CommentRecord.published_at r) /\
  get_path item (CommentRecord.top ++ ["authorDisplayName"])
  = Ok (CommentRecord.author_name r) /\
  get_path item (CommentRecord.top ++ ["likeCount"]) = Ok (CommentRecord.like_count r) /\
  get_path item ["snippet"; "totalReplyCount"] = Ok (CommentRecord.reply_count r).
Proof.
  unfold CommentRecord.of_item. intros Hrow.
  repeat match type of Hrow with
         | rbind ?x _ = _ => destruct x; [|discriminate]; cbn [rbind] in Hrow
         end.
  injection Hrow as <-. simpl. auto.
Qed.

(** The fields of the record of a video are what the paths give. *)
Lemma video_record_fields (item : value) (r : VideoRecord.t) :
  VideoRecord.of_item item = Ok r ->
  get_path item ["id"] = Ok (VideoRecord.video_id r) /\
  get_path item ["snippet"; "publishedAt"] = Ok (VideoRecord.published_at r) /\
  get_path item ["snippet"; "title"] = Ok (VideoRecord.title r) /\
  get_path item ["snippet"; "description"] = Ok (VideoRecord.description r) /\
  get_path item ["snippet"; "tags"] = Ok (VideoRecord.tags r) /\
  get_path item ["statistics"; "viewCount"] = Ok (VideoRecord.view_count r) /\
  get_path item ["statistics"; "likeCount"] = Ok (VideoRecord.like_count r) /\
  get_path item ["statistics"; "favoriteCount"] = Ok (VideoRecord.favorite_count r) /\
  get_path item ["statistics"; "commentCount"] = Ok (VideoRecord.comment_count r).
Proof.
  unfold VideoRecord.of_item. intros Hrow.
  repeat match type of Hrow with
         | rbind ?x _ = _ => destruct x; [|discriminate]; cbn [rbind] in Hrow
         end.
  injection Hrow as <-. simpl. auto 10.
Qed.

(** A table that [_fetch_comment_batch] returns: the response it was made
    from, a record for each item, and the columns read off the records. *)
Lemma comment_batch_table (self : Video.obj) (batch : value) (st st' : state)
    (df : DataFrame) :
  Video._fetch_comment_batch self batch st = (Returns df, st') ->
  exists ids response items rows,
    py_join "," batch = Ok ids /\
    fst (execute (Video.batch_request ids) (st_world st)) = Ok response /\
    (l <~ subscript response "items" ;; py_iter l) = Ok items /\
    Forall2 (fun item r => CommentRecord.of_item item = Ok r) items rows /\
    to_dict df
    = [("comment", map CommentRecord.comment_text rows);
       ("comment_dt", map CommentRecord.published_at rows);
       ("user_name", map CommentRecord.author_name rows);
       ("like_cnt",
        map (fun r => VStr (py_str py_repr (CommentRecord.like_count r))) rows);
       ("reply_cnt",
        map (fun r => VStr (py_str py_repr (CommentRecord.reply_count r))) rows);
       ("replies", map (fun r => VList (CommentRecord.replies r)) rows)] /\
    well_typed df.
Proof.
  intros Hrun.
  apply VideoFacts._fetch_comment_batch_inv in Hrun
    as (ids & response & items & c & Hj & Hx & Hi & Hf & Hdf).
  rewrite CommentFacts.comment_items_records in Hf.
  destruct (map_result CommentRecord.of_item items) as [rows|e] eqn:Hrows;
    [|discriminate Hf].
  injection Hf as <-.
  exists ids, response, items, rows. repeat split; try assumption.
  - eapply api_execute_returns; eauto.
  - apply map_result_Forall2. exact Hrows.
  - apply pl_DataFrame_to_dict in Hdf. rewrite Hdf.
    rewrite CommentFacts.comment_rows_columns. simpl. rewrite map_map. reflexivity.
  - eapply pl_DataFrame_typed; eauto.
Qed.

(** A table that [_fetch_video_batch] returns: the response it was made
    from, a record for each item that is a video, and the columns read
    off the records. *)
Lemma video_batch_table (self : Channel.obj) (batch : value) (st st' : state)
    (df : DataFrame) :
  Channel._fetch_video_batch self batch st = (Returns df, st') ->
  exists ids response items rows,
    py_join "," batch = Ok ids /\
    fst (execute (Channel.batch_request ids) (st_world st)) = Ok response /\
    (l <~ subscript response "items" ;; py_iter l) = Ok items /\
    Forall2 (fun item r => VideoRecord.of_item item = Ok r)
            (filter (fun item => VideoRecord.is_video item = true) items) rows /\
    to_dict df
    = [("video_id", map VideoRecord.video_id rows);
       ("published_dt", map VideoRecord.published_at rows);
       ("video_title", map VideoRecord.title rows);
       ("video_description", map VideoRecord.description rows);
       ("video_tags", map VideoRecord.tags rows);
       ("view_cnt", map VideoRecord.view_count rows);
       ("like_cnt", map VideoRecord.like_count rows);
       ("fave_cnt", map VideoRecord.favorite_count rows);
       ("comment_cnt", map VideoRecord.comment_count rows)] /\
    well_typed df.
Proof.
  intros Hrun.
  apply ChannelFacts._fetch_video_batch_inv in Hrun
    as (ids & response & items & c & Hj & Hx & Hi & Hf & Hdf).
  rewrite VideoRows.video_items_records in Hf.
  destruct (map_result VideoRecord.of_any items) as [rows|e] eqn:Hrows;
    [|discriminate Hf].
  injection Hf as <-.
  exists ids, response, items, (VideoRecord.records rows).
  repeat split; try assumption.
  - eapply api_execute_returns; eauto.
  - apply VideoRows.records_of_videos. exact Hrows.
  - apply pl_DataFrame_to_dict in Hdf. rewrite Hdf.
    rewrite VideoRows.video_rows_columns. reflexivity.
  - eapply pl_DataFrame_typed; eauto.
Qed.

(** Reading a column of records against the items they were made of. *)
Lemma Forall2_records {R} (related : value -> R -> Prop) (P : value -> value -> Prop)
    (f : R -> value) (items : list value) (rows : list R) :
  (forall item r, related item r -> P item (f r)) ->
  Forall2 related items rows -> Forall2 P items (map f rows).
Proof.
  intros HP. induction 1; simpl; constructor; auto.
Qed.




End Columns.

(** ** The stand-in for polars keeps text apart *)

Module ScriptedFacts.
Import Scripted.







End ScriptedFacts.




Lemma dict_get_set_other (k k' : string) (v : value) (fields : list (string * value)) :
  k <> k' -> dict_get k' (dict_set k v fields) = dict_get k' fields.
Proof.
  intros Hne. induction fields as [|[k0 v0] rest IH]; simpl.
  - destruct (String.eqb k k') eqn:Hk; [|reflexivity].
    apply String.eqb_eq in Hk. contradiction.
  - destruct (String.eqb k0 k) eqn:Hk0; simpl.
    + apply String.eqb_eq in Hk0. subst k0.
      destruct (String.eqb k k') eqn:Hk; [|reflexivity].
      apply String.eqb_eq in Hk. contradiction.
    + rewrite IH. reflexivity.
Qed.

Lemma subscript_with_kind (kind item : value) (k : string) :
  "kind" <> k -> subscript (with_kind kind item) k = subscript item k.
Proof.
  intros Hne. destruct item; try reflexivity. simpl.
  rewrite dict_get_set_other by assumption. reflexivity.
Qed.

Section RowCounts.
Context `{Runtime}.

(** The comment flattener never looks at the kind tag. *)
Lemma comment_flatten_item_any_kind (c : Video.columns) (item kind : value) :
  Video.flatten_item c (with_kind kind item) = Video.flatten_item c item.
Proof.
  unfold Video.flatten_item.
  rewrite !subscript_with_kind by discriminate. reflexivity.
Qed.

(** A table whose columns are made of as many records has as many rows. *)
Lemma to_dict_has_rows (n : nat) (df : DataFrame) (data : list (string * list value)) :
  to_dict df = data ->
  Forall (fun col => length (snd col) = n) data ->
  has_rows n df.
Proof. intros <-. apply to_dict_rows. Qed.

End RowCounts.

(** C10. A table that [_fetch_comment_batch] returns has the six declared
    columns, each with one cell for every item of the response, in the
    order of the response: the row of an item is made whatever its kind
    tag, which the flattener does not read.  A table that
    [_fetch_video_batch] returns has the nine declared columns, each with
    one cell for every item of the kind [youtube#video], in the order of
    the response, and none for the items of another kind. *)
Theorem comment_batch_keeps_every_item `{Runtime}
    (video : Video.obj) (channel : Channel.obj) (batch cbatch : value)
    (st ct st' ct' : state) (df cdf : DataFrame) :
  Video._fetch_comment_batch video batch st = (Returns df, st') ->
  Channel._fetch_video_batch channel cbatch ct = (Returns cdf, ct') ->
  (exists ids response items,
     py_join "," batch = Ok ids /\
     fst (execute (Video.batch_request ids) (st_world st)) = Ok response /\
     (l <~ subscript response "items" ;; py_iter l) = Ok items /\
     column_names df = map fst Video.schema /\
     has_rows (length items) df /\
     Forall2 (fun item cell =>
                get_path item (CommentRecord.top ++ ["textDisplay"]) = Ok cell)
             items (cells "comment" df)) /\
  (forall c item kind,
     Video.flatten_item c (with_kind kind item) = Video.flatten_item c item) /\
  (exists ids response items,
     py_join "," cbatch = Ok ids /\
     fst (execute (Channel.batch_request ids) (st_world ct)) = Ok response /\
     (l <~ subscript response "items" ;; py_iter l) = Ok items /\
     column_names cdf = map fst Channel.schema /\
     has_rows (length (filter (fun item => VideoRecord.is_video item = true) items)) cdf /\
     Forall2 (fun item cell => get_path item ["id"] = Ok cell)
             (filter (fun item => VideoRecord.is_video item = true) items)
             (cells "video_id" cdf)).
Proof.
  intros Hv Hc. split; [|split].
  - pose proof (VideoFacts._fetch_comment_batch_names _ _ _ _ _ Hv) as Hnames.
    apply comment_batch_table in Hv
      as (ids & response & items & rows & Hj & Hx & Hi & Hrows & Hdict & _).
    exists ids, response, items. repeat split; try assumption.
    + apply (to_dict_has_rows _ _ _ Hdict). apply Forall2_length in Hrows.
      repeat constructor; simpl; rewrite !length_map; symmetry; exact Hrows.
    + unfold cells. rewrite column_to_dict, Hdict.
      cbn [dict_column String.eqb Ascii.eqb Bool.eqb default].
      eapply Forall2_records; [|exact Hrows]. intros item r Hr.
      apply comment_record_fields in Hr as (Hf & _). exact Hf.
  - intros c item kind. apply comment_flatten_item_any_kind.
  - pose proof (ChannelFacts._fetch_video_batch_names _ _ _ _ _ Hc) as Hnames.
    apply video_batch_table in Hc
      as (ids & response & items & rows & Hj & Hx & Hi & Hrows & Hdict & _).
    exists ids, response, items. repeat split; try assumption.
    + apply (to_dict_has_rows _ _ _ Hdict). apply Forall2_length in Hrows.
      repeat constructor; simpl; rewrite !length_map; symmetry; exact Hrows.
    + unfold cells. rewrite column_to_dict, Hdict.
      cbn [dict_column String.eqb Ascii.eqb Bool.eqb default].
      eapply Forall2_records; [|exact Hrows]. intros item r Hr.
      apply video_record_fields in Hr as (Hf & _). exact Hf.
Qed.

Lemma comment_batch_keeps_every_item_witness :
  exists df cdf,
    fst (Video._fetch_comment_batch (H := Scripted.client) Samples.video
           (VList [VStr "t1"; VStr "t2"]) Samples.two_thread_session) = Returns df /\
    fst (Channel._fetch_video_batch (H := Scripted.client) Samples.channel
           (VList [VStr "v0"; VStr "x"; VStr "v1"]) Samples.mixed_video_session)
    = Returns cdf /\
    (column_names df = map fst Video.schema /\ has_rows 2 df) /\
    (column_names cdf = map fst Channel.schema /\ has_rows 2 cdf).
Proof.
  eexists _, _.
  edestruct (comment_batch_keeps_every_item (H := Scripted.client)
               Samples.video Samples.channel
               (VList [VStr "t1"; VStr "t2"]) (VList [VStr "v0"; VStr "x"; VStr "v1"])
               Samples.two_thread_session Samples.mixed_video_session)
    as ((ids & response & items & Hj & Hx & Hi & Hnames & Hrows & _) & _
        & (cids & cresponse & citems & Hcj & Hcx & Hci & Hcnames & Hcrows & _)).
  - vm_compute; reflexivity.
  - vm_compute; reflexivity.
  - split; [reflexivity|]. split; [reflexivity|].
    injection Hj as <-. injection Hx as <-. injection Hi as <-.
    injection Hcj as <-. injection Hcx as <-. injection Hci as <-.
    split; split; assumption.
Defined.

(** * Further properties *)

(** ** Cached properties *)

Section Cached.
Context `{Runtime}.

Lemma cached_property_kept (name : string) (body body' : M value) (st st1 st2 : state)
    (v : value) :
  cached_property name body st = (Returns v, st1) ->
  st_dict st2 = st_dict st1 ->
  cached_property name body' st2 = (Returns v, st2).
Proof.
  intros Hrun Hdict. apply cached_property_hit. rewrite Hdict.
  exact (cached_property_stored _ _ _ _ _ Hrun).
Qed.

(** A body that leaves the instance dictionary alone leaves it alone
    under [cached_property] too, unless it returns. *)
Lemma cached_property_raises (name : string) (body : M value) (st st' : state)
    (e : exn) :
  keeps_dict body ->
  cached_property name body st = (Raises e, st') ->
  st_dict st' = st_dict st /\ dict_get name (st_dict st) = None /\
  body st = (Raises e, st').
Proof.
  intros Hkeeps. unfold cached_property.
  destruct (dict_get name (st_dict st)) as [v|]; [discriminate|].
  destruct (body st) as [[v|e'|] st1] eqn:Hbody; try discriminate.
  intros [= <- <-]. split; [|split]; try reflexivity.
  exact (Hkeeps _ _ _ Hbody).
Qed.

End Cached.

(** *** What the calls of an object keep *)

Section Entries.
Context `{Runtime}.
Variable name : string.
Variable v : value.

Lemma keeps_dict_entry {A} (c : M A) : keeps_dict c -> keeps_entry name v c.
Proof.
  intros Hkeeps st r st' Hrun Hget. rewrite (Hkeeps _ _ _ Hrun). exact Hget.
Qed.

Lemma keeps_entry_bind {A B} (c : M A) (k : A -> M B) :
  keeps_entry name v c -> (forall a, keeps_entry name v (k a)) ->
  keeps_entry name v (x <- c ;; k x).
Proof.
  intros Hc Hk st r st'. unfold bind.
  destruct (c st) as [[a|e|] s1] eqn:Hrun.
  - intros Hrest Hget. exact (Hk a _ _ _ Hrest (Hc _ _ _ Hrun Hget)).
  - intros [= <- <-] Hget. exact (Hc _ _ _ Hrun Hget).
  - intros [= <- <-] Hget. exact (Hc _ _ _ Hrun Hget).
Qed.

(** [cached_property] overwrites nothing: it sets its own name, and only
    when nothing is kept under it. *)
Lemma keeps_entry_cached_property (name' : string) (body : M value) :
  keeps_entry name v body -> keeps_entry name v (cached_property name' body).
Proof.
  intros Hbody st r st'. unfold cached_property.
  destruct (dict_get name' (st_dict st)) as [v'|] eqn:Hmiss.
  - intros [= <- <-] Hget. exact Hget.
  - destruct (body st) as [[v'|e|] s1] eqn:Hrun.
    + intros [= <- <-] Hget. simpl.
      rewrite dict_get_set_other; [exact (Hbody _ _ _ Hrun Hget)|].
      intros ->. congruence.
    + intros [= <- <-] Hget. exact (Hbody _ _ _ Hrun Hget).
    + intros [= <- <-] Hget. exact (Hbody _ _ _ Hrun Hget).
Qed.

Lemma keeps_dict_diverge {A} : keeps_dict (@diverge _ A).
Proof. intros st r st' [= <- <-]. reflexivity. Qed.

Lemma keeps_dict_try_page (scan : list value -> list value -> list value * option exn)
    (rq : request) (acc : list value) :
  keeps_dict (try_page scan rq acc).
Proof.
  intros st r st'. unfold try_page.
  destruct (api_execute rq st) as [[response|e|] s1] eqn:Hx;
    intros [= <- <-]; exact (keeps_dict_api_execute _ _ _ _ Hx).
Qed.

Lemma keeps_dict_page_loop (scan : list value -> list value -> list value * option exn)
    (nap : M unit) (fuel : nat) :
  keeps_dict nap ->
  forall request acc, keeps_dict (page_loop scan nap fuel request acc).
Proof.
  intros Hnap. induction fuel as [|fuel IH]; intros [rq|] acc;
    try apply keeps_dict_ret; try apply keeps_dict_diverge.
  cbn [page_loop]. apply keeps_dict_bind; [apply keeps_dict_try_page|].
  intros [acc' [request'|e]]; simpl.
  - apply keeps_dict_bind; [exact Hnap|]. intros _. apply IH.
  - unfold log_exception, print. auto 10 with keeps.
Qed.

Lemma keeps_entry_batch_loop (ids_property : M value) (fetch_batch : value -> M DataFrame)
    (indices : list nat) :
  keeps_entry name v ids_property ->
  (forall b, keeps_entry name v (fetch_batch b)) ->
  forall df, keeps_entry name v (batch_loop ids_property fetch_batch indices df).
Proof.
  intros Hids Hfetch. induction indices as [|i rest IH]; intros df.
  - apply keeps_dict_entry, keeps_dict_ret.
  - cbn [batch_loop].
    apply keeps_entry_bind; [exact Hids|]. intros ids.
    apply keeps_entry_bind; [apply keeps_dict_entry, keeps_dict_lift|]. intros batch.
    apply keeps_entry_bind; [apply Hfetch|]. intros df2.
    apply keeps_entry_bind; [apply keeps_dict_entry, keeps_dict_emit|]. intros _.
    apply keeps_entry_bind; [apply keeps_dict_entry, keeps_dict_lift|]. intros df'.
    apply IH.
Qed.

Lemma keeps_dict_resolver (rq : request) (e : exn) (pick : value -> result value) :
  keeps_dict
    (response <- api_execute rq ;;
     items <- lift (subscript response "items") ;;
     n <- lift (py_len items) ;;
     if (1 <? n)%nat then raise e
     else sleep 1 ;;;
          lift (items' <~ subscript response "items" ;;
                first <~ py_index items' 0 ;;
                pick first)).
Proof.
  apply keeps_dict_bind; [apply keeps_dict_api_execute|]. intros response.
  apply keeps_dict_bind; [apply keeps_dict_lift|]. intros items.
  apply keeps_dict_bind; [apply keeps_dict_lift|]. intros n.
  destruct (1 <? n)%nat; [apply keeps_dict_raise|].
  apply keeps_dict_bind; [apply keeps_dict_emit|]. intros _. apply keeps_dict_lift.
Qed.

Lemma keeps_entry_comment_threads (fuel : nat) (self : Video.obj) :
  keeps_entry name v (Video.comment_threads fuel self).
Proof.
  apply keeps_entry_cached_property, keeps_dict_entry.
  apply keeps_dict_bind.
  - intros st r st'. rewrite VideoPages.comment_threads_loop_shape.
    apply keeps_dict_page_loop, keeps_dict_ret.
  - intros threads. apply keeps_dict_bind; [apply keeps_dict_emit|].
    intros _. apply keeps_dict_ret.
Qed.

Lemma keeps_entry_fetch_comments (fuel : nat) (self : Video.obj) :
  keeps_entry name v (Video.fetch_comments fuel self).
Proof.
  apply keeps_entry_bind; [apply keeps_entry_comment_threads|]. intros threads.
  apply keeps_entry_bind; [apply keeps_dict_entry, keeps_dict_lift|]. intros n.
  intros st r st'. rewrite VideoFacts.fetch_comments_loop_shape.
  apply keeps_entry_batch_loop; [apply keeps_entry_comment_threads|].
  intros b. apply keeps_dict_entry, VideoFacts._fetch_comment_batch_dict.
Qed.

Lemma keeps_entry_video_step (self : Video.obj) (c : video_call) (st : state) :
  dict_get name (st_dict st) = Some v ->
  dict_get name (st_dict (video_step self st c)) = Some v.
Proof.
  destruct c as [fuel|fuel|b]; simpl.
  - destruct (Video.comment_threads fuel self st) as [r st'] eqn:Hrun.
    exact (keeps_entry_comment_threads _ _ _ _ _ Hrun).
  - destruct (Video.fetch_comments fuel self st) as [r st'] eqn:Hrun.
    exact (keeps_entry_fetch_comments _ _ _ _ _ Hrun).
  - destruct (Video._fetch_comment_batch self b st) as [r st'] eqn:Hrun.
    intros Hget. simpl. rewrite (VideoFacts._fetch_comment_batch_dict _ _ _ _ _ Hrun).
    exact Hget.
Qed.

Lemma keeps_entry_video_life (self : Video.obj) (calls : list video_call) :
  forall st,
    dict_get name (st_dict st) = Some v ->
    dict_get name (st_dict (video_life self calls st)) = Some v.
Proof.
  unfold video_life. induction calls as [|c calls IH]; intros st Hget; [exact Hget|].
  simpl. apply IH, keeps_entry_video_step, Hget.
Qed.

Lemma keeps_entry_channel_id (self : Channel.obj) :
  keeps_entry name v (Channel.channel_id self).
Proof. apply keeps_entry_cached_property, keeps_dict_entry, keeps_dict_resolver. Qed.

Lemma keeps_entry_uploads_id (self : Channel.obj) :
  keeps_entry name v (Channel.uploads_id self).
Proof. apply keeps_entry_cached_property, keeps_dict_entry, keeps_dict_resolver. Qed.

Lemma keeps_entry_video_ids (fuel : nat) (self : Channel.obj) :
  keeps_entry name v (Channel.video_ids fuel self).
Proof.
  apply keeps_entry_cached_property.
  apply keeps_entry_bind; [apply keeps_entry_uploads_id|]. intros uploads.
  apply keeps_dict_entry, keeps_dict_bind.
  - intros st r st'. rewrite ChannelPages.video_ids_loop_shape.
    apply keeps_dict_page_loop, keeps_dict_emit.
  - intros vids. apply keeps_dict_ret.
Qed.

Lemma keeps_entry_fetch_videos (fuel : nat) (self : Channel.obj) :
  keeps_entry name v (Channel.fetch_videos fuel self).
Proof.
  apply keeps_entry_bind; [apply keeps_entry_video_ids|]. intros vids.
  apply keeps_entry_bind; [apply keeps_dict_entry, keeps_dict_lift|]. intros n.
  intros st r st'. rewrite ChannelFacts.fetch_videos_loop_shape.
  apply keeps_entry_batch_loop; [apply keeps_entry_video_ids|].
  intros b. apply keeps_dict_entry, ChannelFacts._fetch_video_batch_dict.
Qed.

Lemma keeps_entry_channel_step (self : Channel.obj) (c : channel_call) (st : state) :
  dict_get name (st_dict st) = Some v ->
  dict_get name (st_dict (channel_step self st c)) = Some v.
Proof.
  destruct c as [| |fuel|fuel|b]; simpl.
  - destruct (Channel.channel_id self st) as [r st'] eqn:Hrun.
    exact (keeps_entry_channel_id _ _ _ _ Hrun).
  - destruct (Channel.uploads_id self st) as [r st'] eqn:Hrun.
    exact (keeps_entry_uploads_id _ _ _ _ Hrun).
  - destruct (Channel.video_ids fuel self st) as [r st'] eqn:Hrun.
    exact (keeps_entry_video_ids _ _ _ _ _ Hrun).
  - destruct (Channel.fetch_videos fuel self st) as [r st'] eqn:Hrun.
    exact (keeps_entry_fetch_videos _ _ _ _ _ Hrun).
  - destruct (Channel._fetch_video_batch self b st) as [r st'] eqn:Hrun.
    intros Hget. simpl. rewrite (ChannelFacts._fetch_video_batch_dict _ _ _ _ _ Hrun).
    exact Hget.
Qed.

Lemma keeps_entry_channel_life (self : Channel.obj) (calls : list channel_call) :
  forall st,
    dict_get name (st_dict st) = Some v ->
    dict_get name (st_dict (channel_life self calls st)) = Some v.
Proof.
  unfold channel_life. induction calls as [|c calls IH]; intros st Hget; [exact Hget|].
  simpl. apply IH, keeps_entry_channel_step, Hget.
Qed.

End Entries.

(** X1. Each cached property is computed once in the life of an object:
    after an access that returned, and whatever is asked of the object
    from then on (its properties, its fetches, in any order, however they
    end and whatever the service answers), an access returns the same
    value and does nothing else: no request, no nap, nothing printed. *)
Theorem cached_properties_computed_once `{Runtime} (fuel : nat)
    (video : Video.obj) (channel : Channel.obj)
    (threads id uploads vids : value) (s1 s2 s3 s4 s1' s2' s3' s4' : state) :
  Video.comment_threads fuel video s1 = (Returns threads, s1') ->
  Channel.channel_id channel s2 = (Returns id, s2') ->
  Channel.uploads_id channel s3 = (Returns uploads, s3') ->
  Channel.video_ids fuel channel s4 = (Returns vids, s4') ->
  (forall calls fuel',
     let st := video_life video calls s1' in
     Video.comment_threads fuel' video st = (Returns threads, st)) /\
  (forall calls,
     let st := channel_life channel calls s2' in
     Channel.channel_id channel st = (Returns id, st)) /\
  (forall calls,
     let st := channel_life channel calls s3' in
     Channel.uploads_id channel st = (Returns uploads, st)) /\
  (forall calls fuel',
     let st := channel_life channel calls s4' in
     Channel.video_ids fuel' channel st = (Returns vids, st)).
Proof.
  intros H1 H2 H3 H4.
  apply cached_property_stored in H1, H2, H3, H4.
  repeat split; intros; apply cached_property_hit.
  - apply keeps_entry_video_life. exact H1.
  - apply keeps_entry_channel_life. exact H2.
  - apply keeps_entry_channel_life. exact H3.
  - apply keeps_entry_channel_life. exact H4.
Qed.

Lemma cached_properties_computed_once_witness :
  (let st := video_life (H := Scripted.client) Samples.video
               [call_fetch_comments 1; get_comment_threads 1]
               (snd (Video.comment_threads (H := Scripted.client) 4 Samples.video
                       Samples.video_session)) in
   fst (Video.comment_threads (H := Scripted.client) 0 Samples.video st)
   = Returns (VList (map VStr (Samples.numbered "t" 51)))) /\
  (let st := channel_life (H := Scripted.client) Samples.channel
               [get_channel_id; get_video_ids 4; call_fetch_videos 4]
               (snd (Channel.uploads_id (H := Scripted.client) Samples.channel
                       Samples.uploads_session)) in
   fst (Channel.uploads_id (H := Scripted.client) Samples.channel st)
   = Returns (VStr "UU1")).
Proof.
  edestruct (cached_properties_computed_once (H := Scripted.client) 4
               Samples.video Samples.channel)
    with (s1 := Samples.video_session) (s2 := MoreSamples.known_handle_session)
         (s3 := Samples.uploads_session) (s4 := Samples.uploads_session)
    as (Hv & _ & Hu & _).
  1-4: vm_compute; reflexivity.
  split.
  - exact (f_equal fst (Hv [call_fetch_comments 1; get_comment_threads 1] 0%nat)).
  - exact (f_equal fst (Hu [get_channel_id; get_video_ids 4; call_fetch_videos 4])).
Defined.

Section ResolverFailure.
Context `{Runtime}.

Lemma resolver_raises (name : string) (rq : request) (e0 e : exn)
    (pick : value -> result value) (st st' : state) :
  cached_property name
    (response <- api_execute rq ;;
     items <- lift (subscript response "items") ;;
     n <- lift (py_len items) ;;
     if (1 <? n)%nat then raise e0
     else sleep 1 ;;;
          lift (items' <~ subscript response "items" ;;
                first <~ py_index items' 0 ;;
                pick first)) st
  = (Raises e, st') ->
  st_dict st' = st_dict st /\
  dict_get name (st_dict st) = None /\
  executed (st_trace st') = executed (st_trace st) ++ [rq].
Proof.
  unfold cached_property.
  destruct (dict_get name (st_dict st)) as [v|]; [discriminate|].
  unfold bind, api_execute.
  destruct (execute rq (st_world st)) as [[response|e1] w]; simpl.
  - destruct (subscript response "items") as [items|e2]; simpl.
    + destruct (py_len items) as [n|e3]; simpl.
      * destruct (1 <? n)%nat; simpl.
        -- intros [= <- <-]. simpl. rewrite executed_app. auto.
        -- destruct (py_index items 0) as [first|e4]; simpl.
           ++ destruct (pick first) as [id|e5]; simpl; [discriminate|].
              intros [= <- <-]. simpl. rewrite !executed_app. simpl.
              rewrite app_nil_r. auto.
           ++ intros [= <- <-]. simpl. rewrite !executed_app. simpl.
              rewrite app_nil_r. auto.
      * intros [= <- <-]. simpl. rewrite executed_app. auto.
    + intros [= <- <-]. simpl. rewrite executed_app. auto.
  - intros [= <- <-]. simpl. rewrite executed_app. auto.
Qed.

End ResolverFailure.

(** X2. A resolver that raises, for whatever reason, keeps nothing: the
    instance dictionary is as it was and the property is still unset, so
    the next access starts over; and it has made its one request. *)
Theorem failed_resolver_caches_nothing `{Runtime} (channel : Channel.obj)
    (st st' ct ct' : state) (e ce : exn) :
  Channel.channel_id channel st = (Raises e, st') ->
  Channel.uploads_id channel ct = (Raises ce, ct') ->
  (st_dict st' = st_dict st /\
   dict_get "channel_id" (st_dict st') = None /\
   executed (st_trace st')
   = executed (st_trace st) ++ [Channel.channels_request channel]) /\
  (st_dict ct' = st_dict ct /\
   dict_get "uploads_id" (st_dict ct') = None /\
   executed (st_trace ct')
   = executed (st_trace ct) ++ [Channel.channels_request channel]).
Proof.
  intros Hc Hu. split.
  - apply resolver_raises in Hc as (Hd & Hnone & Hx). rewrite Hd. auto.
  - apply resolver_raises in Hu as (Hd & Hnone & Hx). rewrite Hd. auto.
Qed.

Lemma failed_resolver_caches_nothing_witness :
  (let r := Channel.channel_id (H := Scripted.client) Samples.channel
              Samples.ambiguous_session in
   st_dict (snd r) = [] /\ length (executed (st_trace (snd r))) = 1%nat) /\
  (let r := Channel.uploads_id (H := Scripted.client) Samples.channel
              Samples.unknown_handle_session in
   st_dict (snd r) = [] /\ length (executed (st_trace (snd r))) = 1%nat).
Proof.
  edestruct (failed_resolver_caches_nothing (H := Scripted.client) Samples.channel
               Samples.ambiguous_session) with (ct := Samples.unknown_handle_session)
    as ((Hd & _ & Hx) & (Hcd & _ & Hcx)).
  - vm_compute; reflexivity.
  - vm_compute; reflexivity.
  - vm_compute. repeat split; reflexivity.
Defined.

(** X3. A listing cut short by a failed request is kept like a complete
    one: the paginator returns the identifiers of the pages it got, and
    every later access returns that same truncated list without asking the
    service again, however many pages are still to be had. *)
Theorem truncated_listing_is_kept `{Runtime} (fuel : nat)
    (video : Video.obj) (channel : Channel.obj) (st ct ct1 : state)
    (uploads : value) (vpages cpages : list value) (e ce : exn) (w' cw' : world) :
  dict_get "comment_threads" (st_dict st) = None ->
  serves (Video.comment_threads_request video) (st_world st) vpages (Failed e) w' ->
  forallb (page_readable thread_readable) vpages = true ->
  (length vpages < fuel)%nat ->
  dict_get "video_ids" (st_dict ct) = None ->
  Channel.uploads_id channel ct = (Returns uploads, ct1) ->
  serves (Channel.video_ids_request uploads) (st_world ct1) cpages (Failed ce) cw' ->
  forallb (page_readable entry_readable) cpages = true ->
  (length cpages < fuel)%nat ->
  (exists st',
     Video.comment_threads fuel video st
     = (Returns (VList (thread_ids (all_items vpages))), st') /\
     forall fuel' st2,
       st_dict st2 = st_dict st' ->
       Video.comment_threads fuel' video st2
       = (Returns (VList (thread_ids (all_items vpages))), st2)) /\
  (exists ct',
     Channel.video_ids fuel channel ct
     = (Returns (VList (entry_ids (all_items cpages))), ct') /\
     forall fuel' ct2,
       st_dict ct2 = st_dict ct' ->
       Channel.video_ids fuel' channel ct2
       = (Returns (VList (entry_ids (all_items cpages))), ct2)).
Proof.
  intros Hvc Hvs Hvr Hvf Hcc Hup Hcs Hcr Hcf. split.
  - destruct (VideoPages.comment_threads_serves fuel video st vpages (Failed e) w'
                Hvc Hvs Hvr Hvf) as (st' & Hrun & _).
    exists st'. split; [exact Hrun|]. intros fuel' st2 Hd.
    exact (cached_property_kept _ _ _ _ _ _ _ Hrun Hd).
  - destruct (ChannelPages.video_ids_serves fuel channel ct ct1 uploads cpages (Failed ce)
                cw' Hcc Hup Hcs Hcr Hcf) as (ct' & Hrun & _).
    exists ct'. split; [exact Hrun|]. intros fuel' ct2 Hd.
    exact (cached_property_kept _ _ _ _ _ _ _ Hrun Hd).
Qed.

Lemma truncated_listing_is_kept_witness :
  (let r := Video.comment_threads (H := Scripted.client) 4 Samples.video
              Samples.broken_listing_session in
   Video.comment_threads (H := Scripted.client) 4 Samples.video (snd r)
   = (Returns (VList [VStr "t1"; VStr "t2"]), snd r)) /\
  (let r := Channel.video_ids (H := Scripted.client) 4 Samples.channel
              Samples.broken_uploads_session in
   Channel.video_ids (H := Scripted.client) 4 Samples.channel (snd r)
   = (Returns (VList [VStr "v1"]), snd r)).
Proof.
  edestruct (truncated_listing_is_kept (H := Scripted.client) 4
               Samples.video Samples.channel
               Samples.broken_listing_session Samples.broken_uploads_session)
    with (vpages := take 1 Samples.thread_pages) (cpages := take 1 Samples.upload_pages)
    as ((st' & Hv & Hv') & (ct' & Hc & Hc')).
  - reflexivity.
  - served.
  - reflexivity.
  - vm_compute. lia.
  - reflexivity.
  - vm_compute; reflexivity.
  - served.
  - reflexivity.
  - vm_compute. lia.
  - cbv zeta. rewrite Hv, Hc. cbn [snd]. split.
    + apply Hv'. reflexivity.
    + apply Hc'. reflexivity.
Defined.

(** ** Pages that cannot be read to the end *)

Section SpoiltPage.
Context `{Runtime}.
Variable scan : list value -> list value -> list value * option exn.
Variable nap : M unit.
Variable pick : value -> option value.
Variable readable : value -> bool.

Hypothesis scan_readable :
  forall items acc, forallb readable items = true -> scan items acc = (acc ++ omap pick items, None).
Hypothesis nap_quiet :
  forall st, exists tr,
    nap st = (Returns tt, State (st_world st) (st_trace st ++ tr) (st_dict st)) /\
    printed tr = [] /\ executed tr = [].

(** After pages that were read, a page whose scan is left by an exception
    ends the loop: what the scan had gathered by then is returned. *)
Lemma page_loop_spoilt (rq rq' : request) (w w1 w' : world) (pages : list value)
    (page : value) (items kept : list value) (e : exn) :
  leads rq w pages rq' w1 ->
  forallb (page_readable readable) pages = true ->
  execute rq' w1 = (Ok page, w') ->
  subscript page "items" = Ok (VList items) ->
  (forall acc, scan items acc = (acc ++ kept, Some e)) ->
  forall fuel acc trace dict,
    (length pages < fuel)%nat ->
    exists tr,
      page_loop scan nap fuel (Some rq) acc (State w trace dict)
      = (Returns (acc ++ omap pick (all_items pages) ++ kept),
         State w' (trace ++ tr) dict) /\
      printed tr = [StrOf e; FormatExc e] /\
      length (executed tr) = (length pages + 1)%nat.
Proof.
  intros Hleads. revert w' page items kept e.
  induction Hleads as [rq w|rq w page0 w0 rq1 pages rq' w1 Hx Hnext _ IH];
    intros w' page items kept e Hpages Hx' Hitems Hscan fuel acc trace dict Hfuel;
    (destruct fuel as [|fuel]; [simpl in Hfuel; lia|]).
  - exists [Executed rq; Printed (StrOf e); Printed (FormatExc e)]. split; [|split].
    + cbn [page_loop]. unfold bind, try_page, api_execute, read_page. simpl.
      rewrite Hx'. simpl. rewrite Hitems. simpl. rewrite Hscan. simpl.
      rewrite <- !app_assoc. reflexivity.
    + reflexivity.
    + reflexivity.
  - simpl in Hpages. apply andb_prop in Hpages as [Hpage Hrest].
    apply (page_readable_items readable) in Hpage as [Hitems0 Hread].
    set (items0 := page_items page0) in *.
    destruct (nap_quiet (State w0 (trace ++ [Executed rq]) dict)) as (tr & Hnap & Hp & He).
    destruct (IH w' page items kept e Hrest Hx' Hitems Hscan fuel
                 (acc ++ omap pick items0) ((trace ++ [Executed rq]) ++ tr) dict)
      as (tr' & Hloop & Hp' & He'); [simpl in Hfuel; lia|].
    exists ([Executed rq] ++ tr ++ tr'). split; [|split].
    + cbn [page_loop]. unfold bind, try_page, api_execute, read_page. simpl.
      rewrite Hx. simpl. rewrite Hitems0. simpl.
      rewrite (scan_readable _ _ Hread). rewrite Hnext. simpl.
      rewrite Hnap. simpl. rewrite Hloop.
      unfold all_items. simpl. fold items0. rewrite omap_app, <- !app_assoc. reflexivity.
    + rewrite !printed_app, Hp, Hp'. reflexivity.
    + rewrite !executed_app, !length_app, He, He'. reflexivity.
Qed.

End SpoiltPage.

Lemma thread_scan_spoilt (pre post : list value) (bad : value) (e : exn) :
  forallb thread_readable pre = true ->
  subscript bad "kind" = Err e \/ (is_thread bad = true /\ subscript bad "id" = Err e) ->
  forall acc,
    Video.scan_items (pre ++ bad :: post) acc = (acc ++ thread_ids pre, Some e).
Proof.
  intros Hpre Hbad. induction pre as [|item pre IH]; intros acc.
  - simpl. rewrite app_nil_r. unfold is_thread in Hbad.
    destruct Hbad as [->|[Hkind Hid]]; [reflexivity|].
    destruct (subscript bad "kind") as [kind|e']; [|discriminate Hkind].
    rewrite Hkind, Hid. reflexivity.
  - simpl in Hpre. apply andb_prop in Hpre as [Hitem Hpre].
    unfold thread_ids in *. simpl. unfold thread_readable, thread_id, is_thread in *.
    destruct (subscript item "kind") as [kind|e']; [|discriminate Hitem].
    destruct (py_eq_str kind "youtube#commentThread").
    + destruct (subscript item "id") as [id|e']; [|discriminate Hitem]. simpl.
      rewrite IH by assumption. rewrite <- app_assoc. reflexivity.
    + apply IH. assumption.
Qed.

Lemma entry_scan_spoilt (pre post : list value) (bad : value) (e : exn) :
  forallb entry_readable pre = true ->
  (resource <~ resource_of bad ;; subscript resource "kind") = Err e \/
  (is_video_entry bad = true /\
   (resource <~ resource_of bad ;; subscript resource "videoId") = Err e) ->
  forall acc,
    Channel.scan_items (pre ++ bad :: post) acc = (acc ++ entry_ids pre, Some e).
Proof.
  intros Hpre Hbad. induction pre as [|item pre IH]; intros acc.
  - simpl. rewrite app_nil_r. unfold is_video_entry, resource_of in Hbad.
    destruct (subscript bad "snippet") as [snippet|e'']; simpl in *;
      [|destruct Hbad as [[= ->]|[Hk _]]; [reflexivity|discriminate Hk]].
    destruct (subscript snippet "resourceId") as [resource|e'']; simpl in *;
      [|destruct Hbad as [[= ->]|[Hk _]]; [reflexivity|discriminate Hk]].
    destruct (subscript resource "kind") as [kind|e'']; simpl in *;
      [|destruct Hbad as [[= ->]|[Hk _]]; [reflexivity|discriminate Hk]].
    destruct Hbad as [Hk|[Hk Hid]]; [discriminate Hk|].
    rewrite Hk, Hid. reflexivity.
  - simpl in Hpre. apply andb_prop in Hpre as [Hitem Hpre].
    unfold entry_ids in *. simpl. unfold entry_readable, entry_id, is_video_entry in *.
    unfold resource_of in *.
    destruct (subscript item "snippet") as [snippet|e']; [|discriminate Hitem].
    simpl in *.
    destruct (subscript snippet "resourceId") as [resource|e']; [|discriminate Hitem].
    simpl in *.
    destruct (subscript resource "kind") as [kind|e']; [|discriminate Hitem].
    simpl in *.
    destruct (py_eq_str kind "youtube#video").
    + destruct (subscript resource "videoId") as [id|e']; [|discriminate Hitem]. simpl.
      rewrite IH by assumption. rewrite <- app_assoc. reflexivity.
    + apply IH. assumption.
Qed.

(** X4. An item that cannot be read, in the middle of a page, ends the
    listing there: the paginator returns the identifiers of the pages
    before and of the items before it on its page, prints the error, and
    neither reads the items after it nor asks for another page. No
    exception escapes. *)
Theorem unreadable_item_truncates_listing `{Runtime} (fuel : nat)
    (video : Video.obj) (channel : Channel.obj) (st ct ct1 : state) (uploads : value)
    (vpages cpages : list value) (vrq crq : request) (w1 w' cw1 cw' : world)
    (vpage cpage vbad cbad : value) (vpre vpost cpre cpost : list value) (e ce : exn) :
  dict_get "comment_threads" (st_dict st) = None ->
  leads (Video.comment_threads_request video) (st_world st) vpages vrq w1 ->
  forallb (page_readable thread_readable) vpages = true ->
  execute vrq w1 = (Ok vpage, w') ->
  subscript vpage "items" = Ok (VList (vpre ++ vbad :: vpost)) ->
  forallb thread_readable vpre = true ->
  subscript vbad "kind" = Err e \/ (is_thread vbad = true /\ subscript vbad "id" = Err e) ->
  (length vpages < fuel)%nat ->
  dict_get "video_ids" (st_dict ct) = None ->
  Channel.uploads_id channel ct = (Returns uploads, ct1) ->
  leads (Channel.video_ids_request uploads) (st_world ct1) cpages crq cw1 ->
  forallb (page_readable entry_readable) cpages = true ->
  execute crq cw1 = (Ok cpage, cw') ->
  subscript cpage "items" = Ok (VList (cpre ++ cbad :: cpost)) ->
  forallb entry_readable cpre = true ->
  (resource <~ resource_of cbad ;; subscript resource "kind") = Err ce \/
  (is_video_entry cbad = true /\
   (resource <~ resource_of cbad ;; subscript resource "videoId") = Err ce) ->
  (length cpages < fuel)%nat ->
  (exists st',
     Video.comment_threads fuel video st
     = (Returns (VList (thread_ids (all_items vpages) ++ thread_ids vpre)), st') /\
     st_world st' = w' /\
     printed (st_trace st') = printed (st_trace st) ++ [StrOf e; FormatExc e] /\
     length (executed (st_trace st'))
     = (length (executed (st_trace st)) + length vpages + 1)%nat) /\
  (exists ct',
     Channel.video_ids fuel channel ct
     = (Returns (VList (entry_ids (all_items cpages) ++ entry_ids cpre)), ct') /\
     st_world ct' = cw' /\
     printed (st_trace ct') = printed (st_trace ct1) ++ [StrOf ce; FormatExc ce] /\
     length (executed (st_trace ct'))
     = (length (executed (st_trace ct1)) + length cpages + 1)%nat).
Proof.
  intros Hvc Hvl Hvr Hvx Hvi Hvp Hvb Hvf Hcc Hup Hcl Hcr Hcx Hci Hcp Hcb Hcf. split.
  - destruct st as [w trace dict]. simpl in *.
    destruct (page_loop_spoilt Video.scan_items (ret tt) thread_id thread_readable
                VideoPages.thread_scan_readable ret_quiet
                _ _ _ _ _ _ _ _ _ e Hvl Hvr Hvx Hvi
                (thread_scan_spoilt vpre vpost vbad e Hvp Hvb) fuel [] trace dict Hvf)
      as (tr & Hloop & Hp & He).
    eexists. split; [|split; [|split]].
    + unfold Video.comment_threads, cached_property. simpl. rewrite Hvc.
      unfold bind. rewrite VideoPages.comment_threads_loop_shape, Hloop. simpl.
      reflexivity.
    + reflexivity.
    + simpl. rewrite !printed_app, Hp. simpl. rewrite ?app_nil_r. reflexivity.
    + simpl. rewrite !executed_app, !length_app, He. simpl. lia.
  - destruct ct1 as [w trace dict]. simpl in *.
    destruct (page_loop_spoilt Channel.scan_items (sleep 1) entry_id entry_readable
                ChannelPages.entry_scan_readable sleep_quiet
                _ _ _ _ _ _ _ _ _ ce Hcl Hcr Hcx Hci
                (entry_scan_spoilt cpre cpost cbad ce Hcp Hcb) fuel [] trace dict Hcf)
      as (tr & Hloop & Hp & He).
    eexists. split; [|split; [|split]].
    + unfold Channel.video_ids, cached_property. rewrite Hcc.
      unfold bind at 1. rewrite Hup.
      unfold bind. rewrite ChannelPages.video_ids_loop_shape, Hloop. simpl. reflexivity.
    + reflexivity.
    + simpl. rewrite !printed_app, Hp. simpl. rewrite ?app_nil_r. reflexivity.
    + simpl. rewrite !executed_app, !length_app, He. simpl. lia.
Qed.

Lemma unreadable_item_truncates_listing_witness :
  fst (Video.comment_threads (H := Scripted.client) 4 Samples.video
         MoreSamples.spoilt_listing_session)
  = Returns (VList [VStr "t1"; VStr "t2"]) /\
  fst (Channel.video_ids (H := Scripted.client) 4 Samples.channel
         MoreSamples.spoilt_uploads_session)
  = Returns (VList [VStr "v1"; VStr "v2"]).
Proof.
  edestruct (unreadable_item_truncates_listing (H := Scripted.client) 4
               Samples.video Samples.channel
               MoreSamples.spoilt_listing_session MoreSamples.spoilt_uploads_session)
    with (vpages := [Samples.page [Samples.thread_stub "t1"] (Some "p2")])
         (cpages := [Samples.page [Samples.playlist_item "youtube#video" "v1"] (Some "p2")])
         (vpre := [Samples.thread_stub "t2"]) (vpost := [Samples.thread_stub "t3"])
         (vbad := Samples.dict [("kind", VStr "youtube#commentThread")])
         (cpre := [Samples.playlist_item "youtube#video" "v2"])
         (cpost := [Samples.playlist_item "youtube#video" "v3"])
         (cbad := Samples.dict [("kind", VStr "youtube#playlistItem");
                                ("snippet", Samples.dict [])])
    as ((st' & Hv & _) & (ct' & Hc & _)).
  - reflexivity.
  - eapply leads_on; [vm_compute; reflexivity | vm_compute; reflexivity | apply leads_here].
  - reflexivity.
  - vm_compute; reflexivity.
  - reflexivity.
  - reflexivity.
  - right. split; reflexivity.
  - vm_compute. lia.
  - reflexivity.
  - vm_compute; reflexivity.
  - eapply leads_on; [vm_compute; reflexivity | vm_compute; reflexivity | apply leads_here].
  - reflexivity.
  - vm_compute; reflexivity.
  - reflexivity.
  - reflexivity.
  - left. reflexivity.
  - vm_compute. lia.
  - rewrite Hv, Hc. split; reflexivity.
Defined.

(** ** A batch that fails *)

Section BatchFailure.
Context `{Runtime}.
Variable ids_property : M value.
Variable fetch_batch : value -> M DataFrame.
Variable ids : list value.
Variable schema : list (string * dtype).

Hypothesis fetch_batch_dict :
  forall b st r st1, fetch_batch b st = (r, st1) -> st_dict st1 = st_dict st.
Hypothesis ids_property_cached :
  forall st st0, ids_property st0 = (Returns (VList ids), st) ->
    forall st1, st_dict st1 = st_dict st -> ids_property st1 = (Returns (VList ids), st1).

Lemma batch_loop_fails (indices : list nat) (i : nat) (rest : list nat) (e : exn) :
  forall (dfs : list DataFrame) (df : DataFrame) (st0 st1 st st2 st3 : state),
    ids_property st0 = (Returns (VList ids), st1) ->
    st_dict st = st_dict st1 ->
    frame_schema df = schema ->
    runs fetch_batch (map (fun i => take 50 (drop i ids)) indices) st dfs st2 ->
    forallb (fits schema) dfs = true ->
    fetch_batch (VList (take 50 (drop i ids))) st2 = (Raises e, st3) ->
    batch_loop ids_property fetch_batch (indices ++ i :: rest) df st = (Raises e, st3).
Proof.
  induction indices as [|j indices IH];
    intros dfs df st0 st1 st st2 st3 Hp Hd Hn Hruns Hfits Hfail.
  - inversion Hruns as [st_ Est Edfs Est'|]; clear Hruns. subst st_ st2.
    cbn [app batch_loop].
    rewrite (bind_returns _ _ _ _ _ (ids_property_cached _ _ Hp _ Hd)).
    unfold py_slice. rewrite lift_ok_bind.
    replace (i + 50 - i)%nat with 50%nat by lia.
    unfold bind at 1. rewrite Hfail. reflexivity.
  - simpl in Hruns.
    inversion Hruns as [|b bs st_ df2 st4 dfs' st5 Hf Hrest Eb Est Edfs Est']; clear Hruns.
    subst b bs st_ dfs st5. simpl in Hfits. apply andb_prop in Hfits as [Hfit Hfits].
    cbn [app batch_loop].
    rewrite (bind_returns _ _ _ _ _ (ids_property_cached _ _ Hp _ Hd)).
    unfold py_slice. rewrite lift_ok_bind.
    replace (j + 50 - j)%nat with 50%nat by lia.
    rewrite (bind_returns _ _ _ _ _ Hf).
    rewrite (bind_returns _ _ _ _ _ (sleep_slept _)).
    rewrite (pl_concat_fits schema) by assumption.
    rewrite lift_ok_bind.
    apply (IH dfs' _ st0 st1 _ st2).
    + exact Hp.
    + simpl. rewrite (fetch_batch_dict _ _ _ _ Hf). exact Hd.
    + rewrite append_columns_schema; [exact Hn|].
      unfold column_names at 1. rewrite Hn. symmetry. apply fits_names. exact Hfit.
    + exact Hrest.
    + exact Hfits.
    + exact Hfail.
Qed.

(** The same, with the batches given rather than their offsets. *)
Lemma batch_loop_fails_at (n : nat) (done rest : list (list value)) (b : list value)
    (e : exn) (dfs : list DataFrame) (df : DataFrame) (st0 st1 st2 st3 : state) :
  ids_property st0 = (Returns (VList ids), st1) ->
  frame_schema df = schema ->
  map (fun i => take 50 (drop i ids)) (py_range 0 n 50) = done ++ b :: rest ->
  runs fetch_batch done st1 dfs st2 ->
  forallb (fits schema) dfs = true ->
  fetch_batch (VList b) st2 = (Raises e, st3) ->
  batch_loop ids_property fetch_batch (py_range 0 n 50) df st1 = (Raises e, st3).
Proof.
  intros Hp Hn Hsplit Hruns Hfits Hfail.
  apply map_eq_app in Hsplit as (indices & tl & -> & <- & Htl).
  apply map_eq_cons in Htl as (i & rest' & -> & <- & _).
  eapply batch_loop_fails; eauto.
Qed.

End BatchFailure.

Section BatchTraces.
Context `{Runtime}.

(** A batch fetch that raises has sent its one request, or none. *)
Lemma _fetch_comment_batch_raises (self : Video.obj) (b : list value) (e : exn)
    (st st' : state) :
  Video._fetch_comment_batch self (VList b) st = (Raises e, st') ->
  executed (st_trace st') = executed (st_trace st) \/
  executed (st_trace st')
  = executed (st_trace st) ++ [Video.batch_request (joined b)].
Proof.
  unfold Video._fetch_comment_batch, joined. intros Hrun.
  destruct (py_join "," (VList b)) as [ids|e'].
  - rewrite lift_ok_bind in Hrun. unfold bind at 1 in Hrun.
    destruct (api_execute (Video.batch_request ids) st) as [r s1] eqn:Hx.
    pose proof (api_execute_trace _ _ _ _ Hx) as Ht.
    assert (executed (st_trace s1)
            = executed (st_trace st) ++ [Video.batch_request ids]) as Hs1.
    { rewrite Ht, executed_app. reflexivity. }
    destruct r as [response|e'|].
    + right. rewrite <- Hs1. f_equal. f_equal.
      unfold bind, lift, ret in Hrun.
      destruct (items <~ subscript response "items" ;; py_iter items)
        as [items|e']; [|congruence].
      destruct (Video.flatten_items items Video.no_columns) as [c|]; [|congruence].
      destruct (Video.to_frame c); congruence.
    + right. injection Hrun as _ <-. exact Hs1.
    + discriminate Hrun.
  - left. unfold bind, lift in Hrun. injection Hrun as _ <-. reflexivity.
Qed.

Lemma _fetch_video_batch_raises (self : Channel.obj) (b : list value) (e : exn)
    (st st' : state) :
  Channel._fetch_video_batch self (VList b) st = (Raises e, st') ->
  executed (st_trace st') = executed (st_trace st) \/
  executed (st_trace st')
  = executed (st_trace st) ++ [Channel.batch_request (joined b)].
Proof.
  unfold Channel._fetch_video_batch, joined. intros Hrun.
  destruct (py_join "," (VList b)) as [ids|e'].
  - rewrite lift_ok_bind in Hrun. unfold bind at 1 in Hrun.
    destruct (api_execute (Channel.batch_request ids) st) as [r s1] eqn:Hx.
    pose proof (api_execute_trace _ _ _ _ Hx) as Ht.
    assert (executed (st_trace s1)
            = executed (st_trace st) ++ [Channel.batch_request ids]) as Hs1.
    { rewrite Ht, executed_app. reflexivity. }
    destruct r as [response|e'|].
    + right. rewrite <- Hs1. f_equal. f_equal.
      unfold bind, lift, ret in Hrun.
      destruct (items <~ subscript response "items" ;; py_iter items)
        as [items|e']; [|congruence].
      destruct (Channel.flatten_items items Channel.no_columns) as [c|]; [|congruence].
      destruct (Channel.to_frame c); congruence.
    + right. injection Hrun as _ <-. exact Hs1.
    + discriminate Hrun.
  - left. unfold bind, lift in Hrun. injection Hrun as _ <-. reflexivity.
Qed.

End BatchTraces.

(** X5. A batch that raises ends the fetch: when the batches before it
    returned tables that polars accepted, [fetch_comments] and
    [fetch_videos] raise the exception of the first batch that fails, the
    tables of the batches before it are lost, and no request is sent for
    the batches after it. *)
Theorem failed_batch_aborts_fetch `{Runtime} (fuel : nat)
    (video : Video.obj) (channel : Channel.obj) (st ct : state)
    (threads vids : list value) (done rest cdone crest : list (list value))
    (b cb : list value) (e ce : exn)
    (st0 st1 st2 ct0 ct1 ct2 : state) (dfs cdfs : list DataFrame) :
  Video.comment_threads fuel video st = (Returns (VList threads), st0) ->
  batches threads = done ++ b :: rest ->
  runs (Video._fetch_comment_batch video) done st0 dfs st1 ->
  forallb (fits Video.schema) dfs = true ->
  Video._fetch_comment_batch video (VList b) st1 = (Raises e, st2) ->
  Channel.video_ids fuel channel ct = (Returns (VList vids), ct0) ->
  batches vids = cdone ++ cb :: crest ->
  runs (Channel._fetch_video_batch channel) cdone ct0 cdfs ct1 ->
  forallb (fits Channel.schema) cdfs = true ->
  Channel._fetch_video_batch channel (VList cb) ct1 = (Raises ce, ct2) ->
  (Video.fetch_comments fuel video st = (Raises e, st2) /\
   exists sent,
     executed (st_trace st2)
     = executed (st_trace st0)
       ++ map (fun b => Video.batch_request (joined b)) done ++ sent /\
     (sent = [] \/ sent = [Video.batch_request (joined b)])) /\
  (Channel.fetch_videos fuel channel ct = (Raises ce, ct2) /\
   exists sent,
     executed (st_trace ct2)
     = executed (st_trace ct0)
       ++ map (fun b => Channel.batch_request (joined b)) cdone ++ sent /\
     (sent = [] \/ sent = [Channel.batch_request (joined cb)])).
Proof.
  intros Hp Hsplit Hruns Hfits Hfail Hcp Hcsplit Hcruns Hcfits Hcfail. split; split.
  - unfold Video.fetch_comments.
    rewrite (bind_returns _ _ _ _ _ Hp). cbn [py_len]. rewrite lift_ok_bind.
    rewrite VideoFacts.fetch_comments_loop_shape.
    eapply (batch_loop_fails_at _ _ threads Video.schema); eauto.
    + intros b' s r s'; apply VideoFacts._fetch_comment_batch_dict.
    + intros; eapply cached_property_again; eauto.
  - pose proof (VideoFacts.comment_runs_executed _ _ _ _ _ Hruns) as Hdone.
    destruct (_fetch_comment_batch_raises _ _ _ _ _ Hfail) as [Hs|Hs].
    + exists []. rewrite Hs, Hdone, app_nil_r. auto.
    + eexists. rewrite Hs, Hdone, <- app_assoc. auto.
  - unfold Channel.fetch_videos.
    rewrite (bind_returns _ _ _ _ _ Hcp). cbn [py_len]. rewrite lift_ok_bind.
    rewrite ChannelFacts.fetch_videos_loop_shape.
    eapply (batch_loop_fails_at _ _ vids Channel.schema); eauto.
    + intros b' s r s'; apply ChannelFacts._fetch_video_batch_dict.
    + intros; eapply cached_property_again; eauto.
  - pose proof (ChannelFacts.video_runs_executed _ _ _ _ _ Hcruns) as Hdone.
    destruct (_fetch_video_batch_raises _ _ _ _ _ Hcfail) as [Hs|Hs].
    + exists []. rewrite Hs, Hdone, app_nil_r. auto.
    + eexists. rewrite Hs, Hdone, <- app_assoc. auto.
Qed.

Lemma failed_batch_aborts_fetch_witness :
  fst (Video.fetch_comments (H := Scripted.client) 1 Samples.video
         MoreSamples.failing_batch_session)
  = Raises (ApiError "quotaExceeded") /\
  fst (Channel.fetch_videos (H := Scripted.client) 1 Samples.channel
         MoreSamples.failing_video_batch_session)
  = Raises (ApiError "quotaExceeded").
Proof.
  edestruct (failed_batch_aborts_fetch (H := Scripted.client) 1
               Samples.video Samples.channel
               MoreSamples.failing_batch_session MoreSamples.failing_video_batch_session
               (map VStr (Samples.numbered "t" 101)) (map VStr (Samples.numbered "v" 101)))
    with (done := [map VStr (Samples.numbered "t" 50)])
         (cdone := [map VStr (Samples.numbered "v" 50)])
    as ((Hv & _) & (Hc & _)).
  - vm_compute; reflexivity.
  - vm_compute; reflexivity.
  - eapply runs_cons; [vm_compute; reflexivity|]. apply runs_nil.
  - vm_compute; reflexivity.
  - vm_compute; reflexivity.
  - vm_compute; reflexivity.
  - vm_compute; reflexivity.
  - eapply runs_cons; [vm_compute; reflexivity|]. apply runs_nil.
  - vm_compute; reflexivity.
  - vm_compute; reflexivity.
  - rewrite Hv, Hc. split; reflexivity.
Defined.

(** ** A listing without identifiers *)

(** X6. When the listing yields no identifier, because the first request
    fails, because there is nothing to list or because nothing listed is
    of the expected kind, [fetch_comments] and [fetch_videos] return the
    table of the declared columns without a row and send no batch
    request; a later fetch on the same object returns that table again
    without asking the service anything. *)
Theorem fetch_without_identifiers `{Runtime} (fuel : nat)
    (video : Video.obj) (channel : Channel.obj) (st ct ct1 : state)
    (uploads : value) (vpages cpages : list value) (how chow : ending)
    (w' cw' : world) :
  dict_get "comment_threads" (st_dict st) = None ->
  serves (Video.comment_threads_request video) (st_world st) vpages how w' ->
  forallb (page_readable thread_readable) vpages = true ->
  thread_ids (all_items vpages) = [] ->
  (length vpages < fuel)%nat ->
  dict_get "video_ids" (st_dict ct) = None ->
  Channel.uploads_id channel ct = (Returns uploads, ct1) ->
  serves (Channel.video_ids_request uploads) (st_world ct1) cpages chow cw' ->
  forallb (page_readable entry_readable) cpages = true ->
  entry_ids (all_items cpages) = [] ->
  (length cpages < fuel)%nat ->
  (exists st',
     Video.fetch_comments fuel video st
     = (Returns (pl_DataFrame_schema Video.schema), st') /\
     st_world st' = w' /\
     length (executed (st_trace st'))
     = (length (executed (st_trace st)) + length vpages
        + match how with Exhausted => 0 | Failed _ => 1 end)%nat /\
     forall fuel' st2,
       st_dict st2 = st_dict st' ->
       Video.fetch_comments fuel' video st2
       = (Returns (pl_DataFrame_schema Video.schema), st2)) /\
  (exists ct',
     Channel.fetch_videos fuel channel ct
     = (Returns (pl_DataFrame_schema Channel.schema), ct') /\
     st_world ct' = cw' /\
     length (executed (st_trace ct'))
     = (length (executed (st_trace ct1)) + length cpages
        + match chow with Exhausted => 0 | Failed _ => 1 end)%nat /\
     forall fuel' ct2,
       st_dict ct2 = st_dict ct' ->
       Channel.fetch_videos fuel' channel ct2
       = (Returns (pl_DataFrame_schema Channel.schema), ct2)).
Proof.
  intros Hvc Hvs Hvr Hvn Hvf Hcc Hup Hcs Hcr Hcn Hcf. split.
  - destruct (VideoPages.comment_threads_serves fuel video st vpages how w'
                Hvc Hvs Hvr Hvf) as (st' & Hrun & Hw & _ & He).
    rewrite Hvn in Hrun.
    exists st'. repeat split; try assumption.
    + unfold Video.fetch_comments. rewrite (bind_returns _ _ _ _ _ Hrun). reflexivity.
    + intros fuel' st2 Hd. unfold Video.fetch_comments.
      assert (Video.comment_threads fuel' video st2 = (Returns (VList []), st2)) as Hagain
        by exact (cached_property_kept _ _ _ _ _ _ _ Hrun Hd).
      rewrite (bind_returns _ _ _ _ _ Hagain). reflexivity.
  - destruct (ChannelPages.video_ids_serves fuel channel ct ct1 uploads cpages chow cw'
                Hcc Hup Hcs Hcr Hcf) as (ct' & Hrun & Hw & _ & He).
    rewrite Hcn in Hrun.
    exists ct'. repeat split; try assumption.
    + unfold Channel.fetch_videos. rewrite (bind_returns _ _ _ _ _ Hrun). reflexivity.
    + intros fuel' ct2 Hd. unfold Channel.fetch_videos.
      assert (Channel.video_ids fuel' channel ct2 = (Returns (VList []), ct2)) as Hagain
        by exact (cached_property_kept _ _ _ _ _ _ _ Hrun Hd).
      rewrite (bind_returns _ _ _ _ _ Hagain). reflexivity.
Qed.

Lemma fetch_without_identifiers_witness :
  fst (Video.fetch_comments (H := Scripted.client) 2 Samples.video
         (Scripted.start [Err (ApiError "quotaExceeded")]))
  = Returns (pl_DataFrame_schema Video.schema) /\
  fst (Channel.fetch_videos (H := Scripted.client) 2 Samples.channel
         (Scripted.start
            [Ok (Samples.page [Samples.channel_item "UC1" "UU1"] None);
             Ok (Samples.page [Samples.playlist_item "youtube#channel" "c1"] None)]))
  = Returns (pl_DataFrame_schema Channel.schema).
Proof.
  edestruct (fetch_without_identifiers (H := Scripted.client) 2
               Samples.video Samples.channel
               (Scripted.start [Err (ApiError "quotaExceeded")])
               (Scripted.start
                  [Ok (Samples.page [Samples.channel_item "UC1" "UU1"] None);
                   Ok (Samples.page [Samples.playlist_item "youtube#channel" "c1"] None)]))
    with (vpages := @nil value)
         (cpages := [Samples.page [Samples.playlist_item "youtube#channel" "c1"] None])
    as ((st' & Hv & _) & (ct' & Hc & _)).
  - reflexivity.
  - served.
  - reflexivity.
  - reflexivity.
  - vm_compute. lia.
  - reflexivity.
  - vm_compute; reflexivity.
  - served.
  - reflexivity.
  - reflexivity.
  - vm_compute. lia.
  - rewrite Hv, Hc. split; reflexivity.
Defined.

(** ** Batches *)

Lemma join_strs_non_text (sep : string) (l : list value) :
  forallb is_str l = false -> join_strs sep l = Err TypeError.
Proof.
  induction l as [|v l IH]; [discriminate|].
  destruct v as [| | |s| |]; try reflexivity.
  simpl. intros Hl. rewrite (IH Hl). destruct l; [discriminate Hl|reflexivity].
Qed.

(** X7. A batch with an identifier that is not text is refused before the
    service is asked: both batch fetches raise [TypeError] and leave the
    state, the trace of requests included, as it was. *)
Theorem batch_of_non_text_sends_nothing `{Runtime}
    (video : Video.obj) (channel : Channel.obj) (b : list value) (st : state) :
  forallb is_str b = false ->
  Video._fetch_comment_batch video (VList b) st = (Raises TypeError, st) /\
  Channel._fetch_video_batch channel (VList b) st = (Raises TypeError, st).
Proof.
  intros Hb.
  unfold Video._fetch_comment_batch, Channel._fetch_video_batch, py_join.
  cbn [py_iter rbind]. rewrite (join_strs_non_text _ _ Hb). split; reflexivity.
Qed.

Lemma batch_of_non_text_sends_nothing_witness :
  Video._fetch_comment_batch (H := Scripted.client) Samples.video
    (VList [VStr "t1"; VInt 2]) Samples.two_thread_session
  = (Raises TypeError, Samples.two_thread_session) /\
  Channel._fetch_video_batch (H := Scripted.client) Samples.channel
    (VList [VStr "t1"; VInt 2]) Samples.two_thread_session
  = (Raises TypeError, Samples.two_thread_session).
Proof.
  apply (batch_of_non_text_sends_nothing (H := Scripted.client)
           Samples.video Samples.channel [VStr "t1"; VInt 2] Samples.two_thread_session).
  reflexivity.
Defined.

(** X8. The rows of a batch table follow the items of the response: the
    table of [_fetch_comment_batch] has, column by column and in response
    order, the fields of the flat record of each item, the two counts as
    text; the table of [_fetch_video_batch] has the fields of the flat
    record of each item of the kind [youtube#video], as they came.  Each
    column has the type polars infers for its cells. *)
Theorem batch_rows_follow_items `{Runtime}
    (video : Video.obj) (channel : Channel.obj) (batch cbatch : value)
    (st ct st' ct' : state) (df cdf : DataFrame) :
  Video._fetch_comment_batch video batch st = (Returns df, st') ->
  Channel._fetch_video_batch channel cbatch ct = (Returns cdf, ct') ->
  (exists ids response items rows,
     py_join "," batch = Ok ids /\
     fst (execute (Video.batch_request ids) (st_world st)) = Ok response /\
     (l <~ subscript response "items" ;; py_iter l) = Ok items /\
     Forall2 (fun item r => CommentRecord.of_item item = Ok r) items rows /\
     to_dict df
     = [("comment", map CommentRecord.comment_text rows);
        ("comment_dt", map CommentRecord.published_at rows);
        ("user_name", map CommentRecord.author_name rows);
        ("like_cnt",
         map (fun r => VStr (py_str py_repr (CommentRecord.like_count r))) rows);
        ("reply_cnt",
         map (fun r => VStr (py_str py_repr (CommentRecord.reply_count r))) rows);
        ("replies", map (fun r => VList (CommentRecord.replies r)) rows)] /\
     well_typed df) /\
  (exists ids response items rows,
     py_join "," cbatch = Ok ids /\
     fst (execute (Channel.batch_request ids) (st_world ct)) = Ok response /\
     (l <~ subscript response "items" ;; py_iter l) = Ok items /\
     Forall2 (fun item r => VideoRecord.of_item item = Ok r)
             (filter (fun item => VideoRecord.is_video item = true) items) rows /\
     to_dict cdf
     = [("video_id", map VideoRecord.video_id rows);
        ("published_dt", map VideoRecord.published_at rows);
        ("video_title", map VideoRecord.title rows);
        ("video_description", map VideoRecord.description rows);
        ("video_tags", map VideoRecord.tags rows);
        ("view_cnt", map VideoRecord.view_count rows);
        ("like_cnt", map VideoRecord.like_count rows);
        ("fave_cnt", map VideoRecord.favorite_count rows);
        ("comment_cnt", map VideoRecord.comment_count rows)] /\
     well_typed cdf).
Proof.
  intros Hv Hc. split.
  - destruct (comment_batch_table _ _ _ _ _ Hv)
      as (ids & response & items & rows & Hj & Hx & Hi & Hrows & Hdict & Htyped).
    exists ids, response, items, rows. repeat split; assumption.
  - destruct (video_batch_table _ _ _ _ _ Hc)
      as (ids & response & items & rows & Hj & Hx & Hi & Hrows & Hdict & Htyped).
    exists ids, response, items, rows. repeat split; assumption.
Qed.

Lemma batch_rows_follow_items_witness :
  exists df cdf,
    fst (Video._fetch_comment_batch (H := Scripted.client) Samples.video
           (VList [VStr "t1"; VStr "t2"]) Samples.two_thread_session) = Returns df /\
    fst (Channel._fetch_video_batch (H := Scripted.client) Samples.channel
           (VList [VStr "v0"; VStr "x"; VStr "v1"]) Samples.mixed_video_session)
    = Returns cdf /\
    column "comment" df = Some [VStr "first"; VStr "second"] /\
    column "video_id" cdf = Some [VStr "v0"; VStr "v1"].
Proof.
  eexists _, _.
  edestruct (batch_rows_follow_items (H := Scripted.client)
               Samples.video Samples.channel
               (VList [VStr "t1"; VStr "t2"]) (VList [VStr "v0"; VStr "x"; VStr "v1"])
               Samples.two_thread_session Samples.mixed_video_session)
    as (_ & _).
  - vm_compute; reflexivity.
  - vm_compute; reflexivity.
  - repeat split; vm_compute; reflexivity.
Defined.

(** ** The resolvers *)

(** X9. A handle that names exactly one channel resolves to it:
    [channel_id] returns the [id] of the one item and [uploads_id] the
    uploads playlist of the one item of its own response. Each sends the
    same request, naps a second and keeps its result; the answer to the
    one is not used for the other, so that reading both costs two
    requests. *)
Theorem one_channel_resolves `{Runtime} (channel : Channel.obj)
    (w w1 w2 : world) (trace : list event) (dict : list (string * value))
    (r1 r2 item1 item2 id uploads : value) :
  dict_get "channel_id" dict = None ->
  dict_get "uploads_id" dict = None ->
  execute (Channel.channels_request channel) w = (Ok r1, w1) ->
  subscript r1 "items" = Ok (VList [item1]) ->
  subscript item1 "id" = Ok id ->
  execute (Channel.channels_request channel) w1 = (Ok r2, w2) ->
  subscript r2 "items" = Ok (VList [item2]) ->
  get_path item2 ["contentDetails"; "relatedPlaylists"; "uploads"] = Ok uploads ->
  let rq := Channel.channels_request channel in
  let st1 := State w1 (trace ++ [Executed rq; Slept 1]) (dict_set "channel_id" id dict) in
  Channel.channel_id channel (State w trace dict) = (Returns id, st1) /\
  Channel.uploads_id channel st1
  = (Returns uploads,
     State w2 (trace ++ [Executed rq; Slept 1; Executed rq; Slept 1])
           (dict_set "uploads_id" uploads (dict_set "channel_id" id dict))).
Proof.
  intros Hc Hu Hx1 Hi1 Hid Hx2 Hi2 Hup rq st1. split.
  - unfold Channel.channel_id.
    rewrite (resolver_answered _ _ _ _ (State w trace dict) r1 w1 Hc Hx1).
    cbn [st_world st_trace st_dict]. rewrite Hi1. cbn [rbind py_len length Nat.ltb Nat.leb py_index lookup list_lookup].
    rewrite Hid. reflexivity.
  - unfold Channel.uploads_id, st1.
    rewrite (resolver_answered _ _ _ _ _ r2 w2); cbn [st_world st_trace st_dict].
    + rewrite Hi2. cbn [rbind py_len length Nat.ltb Nat.leb py_index lookup list_lookup].
      cbn [get_path rbind] in Hup.
      destruct (subscript item2 "contentDetails") as [details|e]; [|discriminate Hup].
      cbn [rbind] in *.
      destruct (subscript details "relatedPlaylists") as [related|e]; [|discriminate Hup].
      cbn [rbind] in *.
      destruct (subscript related "uploads") as [u|e]; [|discriminate Hup].
      injection Hup as ->. rewrite <- app_assoc. reflexivity.
    + rewrite dict_get_set_other by discriminate. exact Hu.
    + exact Hx2.
Qed.

Lemma one_channel_resolves_witness :
  fst (Channel.channel_id (H := Scripted.client) Samples.channel
         MoreSamples.known_handle_session) = Returns (VStr "UC1") /\
  (let st1 := snd (Channel.channel_id (H := Scripted.client) Samples.channel
                     MoreSamples.known_handle_session) in
   fst (Channel.uploads_id (H := Scripted.client) Samples.channel st1)
   = Returns (VStr "UU1")).
Proof.
  edestruct (one_channel_resolves (H := Scripted.client) Samples.channel
               (st_world MoreSamples.known_handle_session)) with (trace := @nil event)
      (dict := @nil (string * value)) (item1 := Samples.channel_item "UC1" "UU1")
      (item2 := Samples.channel_item "UC1" "UU1")
    as (Hc & Hu).
  - reflexivity.
  - reflexivity.
  - vm_compute; reflexivity.
  - reflexivity.
  - reflexivity.
  - vm_compute; reflexivity.
  - reflexivity.
  - reflexivity.
  - change (State (st_world MoreSamples.known_handle_session) [] [])
      with MoreSamples.known_handle_session in Hc.
    cbv zeta. rewrite Hc. cbn [fst snd]. rewrite Hu. split; reflexivity.
Defined.

(** X10. Unlike a failure of the listing, a failure of the resolver is
    not caught: when [uploads_id] raises, [video_ids] and [fetch_videos]
    raise the same exception, nothing is kept for [video_ids], and the
    request for the channel is the only one made. *)
Theorem resolver_failure_reaches_fetch `{Runtime} (fuel : nat) (channel : Channel.obj)
    (ct ct' : state) (e : exn) :
  dict_get "video_ids" (st_dict ct) = None ->
  Channel.uploads_id channel ct = (Raises e, ct') ->
  Channel.video_ids fuel channel ct = (Raises e, ct') /\
  Channel.fetch_videos fuel channel ct = (Raises e, ct') /\
  dict_get "video_ids" (st_dict ct') = None /\
  executed (st_trace ct')
  = executed (st_trace ct) ++ [Channel.channels_request channel].
Proof.
  intros Hc Hu.
  assert (Channel.video_ids fuel channel ct = (Raises e, ct')) as Hv.
  { unfold Channel.video_ids, cached_property. rewrite Hc.
    unfold bind at 1. rewrite Hu. reflexivity. }
  split; [exact Hv|]. split; [|split].
  - unfold Channel.fetch_videos, bind. rewrite Hv. reflexivity.
  - apply resolver_raises in Hu as (Hd & _ & _). rewrite Hd. exact Hc.
  - apply resolver_raises in Hu as (_ & _ & Hx). exact Hx.
Qed.

Lemma resolver_failure_reaches_fetch_witness :
  fst (Channel.fetch_videos (H := Scripted.client) 1 Samples.channel
         Samples.unknown_handle_session) = Raises IndexError /\
  fst (Channel.fetch_videos (H := Scripted.client) 1 Samples.channel
         Samples.ambiguous_session) = Raises ambiguous_channel.
Proof.
  split.
  - edestruct (resolver_failure_reaches_fetch (H := Scripted.client) 1 Samples.channel
                 Samples.unknown_handle_session) as (_ & Hf & _).
    + reflexivity.
    + vm_compute; reflexivity.
    + rewrite Hf. reflexivity.
  - edestruct (resolver_failure_reaches_fetch (H := Scripted.client) 1 Samples.channel
                 Samples.ambiguous_session) as (_ & Hf & _).
    + reflexivity.
    + vm_compute; reflexivity.
    + rewrite Hf. reflexivity.
Defined.

(** ** Naps *)

Section Naps.
Context `{Runtime}.
Variable scan : list value -> list value -> list value * option exn.
Variable nap : M unit.
Variable pick : value -> option value.
Variable readable : value -> bool.
Variable nap_events : list event.

Hypothesis scan_readable :
  forall items acc, forallb readable items = true -> scan items acc = (acc ++ omap pick items, None).
Hypothesis nap_emits :
  forall st,
    nap st = (Returns tt, State (st_world st) (st_trace st ++ nap_events) (st_dict st)).

Lemma naps_app (tr tr' : list event) : naps (tr ++ tr') = naps tr ++ naps tr'.
Proof. apply omap_app. Qed.

(** The loop naps once for each page it has read, and not after a
    request that failed. *)
Lemma page_loop_naps (rq : request) (w w' : world) (pages : list value) (how : ending) :
  serves rq w pages how w' ->
  forallb (page_readable readable) pages = true ->
  forall fuel acc trace dict,
    (length pages < fuel)%nat ->
    exists r tr,
      page_loop scan nap fuel (Some rq) acc (State w trace dict)
      = (Returns r, State w' (trace ++ tr) dict) /\
      naps tr = concat (replicate (length pages) (naps nap_events)).
Proof.
  induction 1 as [rq w page w' Hx Hnext|rq w e w' Hx
                 |rq w page w1 rq' pages how w' Hx Hnext _ IH];
    intros Hpages fuel acc trace dict Hfuel;
    (destruct fuel as [|fuel]; [simpl in Hfuel; lia|]).
  - simpl in Hpages. apply andb_prop in Hpages as [Hpage _].
    apply (page_readable_items readable) in Hpage as [Hitems Hread].
    eexists _, ([Executed rq] ++ nap_events). split.
    + cbn [page_loop]. unfold bind, try_page, api_execute, read_page. simpl.
      rewrite Hx. simpl. rewrite Hitems. simpl.
      rewrite (scan_readable _ _ Hread). rewrite Hnext. simpl.
      rewrite nap_emits. simpl. rewrite page_loop_done.
      rewrite <- app_assoc. reflexivity.
    + simpl. rewrite app_nil_r. reflexivity.
  - eexists _, [Executed rq; Printed (StrOf e); Printed (FormatExc e)]. split.
    + cbn [page_loop]. unfold bind, try_page, api_execute. simpl.
      rewrite Hx. simpl. rewrite <- !app_assoc. reflexivity.
    + reflexivity.
  - simpl in Hpages. apply andb_prop in Hpages as [Hpage Hrest].
    apply (page_readable_items readable) in Hpage as [Hitems Hread].
    destruct (IH Hrest fuel (acc ++ omap pick (page_items page))
                ((trace ++ [Executed rq]) ++ nap_events) dict)
      as (r & tr' & Hloop & Hn); [simpl in Hfuel; lia|].
    exists r, ([Executed rq] ++ nap_events ++ tr'). split.
    + cbn [page_loop]. unfold bind, try_page, api_execute, read_page. simpl.
      rewrite Hx. simpl. rewrite Hitems. simpl.
      rewrite (scan_readable _ _ Hread). rewrite Hnext. simpl.
      rewrite nap_emits. simpl. rewrite Hloop.
      rewrite <- !app_assoc. reflexivity.
    + simpl. rewrite naps_app, Hn. reflexivity.
Qed.

End Naps.

(** X11. The two paginators pace themselves differently: [video_ids]
    naps a second after each page it has read, and not after a request
    that failed, while [comment_threads] asks for page after page without
    a pause and naps once, when the listing is over, however it ended. *)
Theorem paginators_nap `{Runtime} (fuel : nat)
    (video : Video.obj) (channel : Channel.obj) (st ct ct1 : state)
    (uploads : value) (vpages cpages : list value) (how chow : ending)
    (w' cw' : world) :
  dict_get "comment_threads" (st_dict st) = None ->
  serves (Video.comment_threads_request video) (st_world st) vpages how w' ->
  forallb (page_readable thread_readable) vpages = true ->
  (length vpages < fuel)%nat ->
  dict_get "video_ids" (st_dict ct) = None ->
  Channel.uploads_id channel ct = (Returns uploads, ct1) ->
  serves (Channel.video_ids_request uploads) (st_world ct1) cpages chow cw' ->
  forallb (page_readable entry_readable) cpages = true ->
  (length cpages < fuel)%nat ->
  (exists threads st',
     Video.comment_threads fuel video st = (Returns threads, st') /\
     exists tr, st_trace st' = st_trace st ++ tr ++ [Slept 1] /\ naps tr = []) /\
  (exists vids ct',
     Channel.video_ids fuel channel ct = (Returns vids, ct') /\
     naps (st_trace ct') = naps (st_trace ct1) ++ replicate (length cpages) 1%nat).
Proof.
  intros Hvc Hvs Hvr Hvf Hcc Hup Hcs Hcr Hcf. split.
  - destruct st as [w trace dict]. simpl in *.
    destruct (page_loop_naps Video.scan_items (ret tt) thread_id thread_readable []
                VideoPages.thread_scan_readable) with
      (rq := Video.comment_threads_request video) (w := w) (w' := w') (pages := vpages)
      (how := how) (fuel := fuel) (acc := @nil value) (trace := trace) (dict := dict)
      as (r & tr & Hloop & Hn); try assumption.
    { intros [w0 t0 d0]. unfold ret. simpl. rewrite app_nil_r. reflexivity. }
    eexists _, _. split.
    + unfold Video.comment_threads, cached_property. simpl. rewrite Hvc.
      unfold bind. rewrite VideoPages.comment_threads_loop_shape, Hloop. simpl.
      reflexivity.
    + exists tr. simpl. split; [rewrite <- app_assoc; reflexivity|].
      rewrite Hn. clear. induction (length vpages); [reflexivity|assumption].
  - destruct ct1 as [w trace dict]. simpl in *.
    destruct (page_loop_naps Channel.scan_items (sleep 1) entry_id entry_readable
                [Slept 1] ChannelPages.entry_scan_readable) with
      (rq := Channel.video_ids_request uploads) (w := w) (w' := cw') (pages := cpages)
      (how := chow) (fuel := fuel) (acc := @nil value) (trace := trace) (dict := dict)
      as (r & tr & Hloop & Hn); try assumption.
    { intros s. reflexivity. }
    eexists _, _. split.
    + unfold Channel.video_ids, cached_property. rewrite Hcc.
      unfold bind at 1. rewrite Hup.
      unfold bind. rewrite ChannelPages.video_ids_loop_shape, Hloop. simpl. reflexivity.
    + simpl. rewrite naps_app, Hn. f_equal.
      clear. induction (length cpages) as [|n IH]; [reflexivity|].
      simpl. f_equal. exact IH.
Qed.

Lemma paginators_nap_witness :
  naps (st_trace (snd (Video.comment_threads (H := Scripted.client) 4 Samples.video
                         Samples.listing_session))) = [1%nat] /\
  naps (st_trace (snd (Channel.video_ids (H := Scripted.client) 4 Samples.channel
                         Samples.broken_uploads_session))) = [1%nat; 1%nat].
Proof.
  edestruct (paginators_nap (H := Scripted.client) 4 Samples.video Samples.channel
               Samples.listing_session Samples.broken_uploads_session)
    with (vpages := Samples.thread_pages) (cpages := take 1 Samples.upload_pages)
    as ((threads & st' & Hv & tr & Ht & Hn) & (vids & ct' & Hc & Hcn)).
  - reflexivity.
  - served.
  - reflexivity.
  - vm_compute. lia.
  - reflexivity.
  - vm_compute; reflexivity.
  - served.
  - reflexivity.
  - vm_compute. lia.
  - rewrite Hv, Hc. cbn [snd]. rewrite Ht, Hcn. split.
    + rewrite !naps_app, Hn. reflexivity.
    + reflexivity.
Defined.

(** ** The table of a fetch *)

Lemma has_rows_append (n m : nat) (df df2 : DataFrame) :
  has_rows n df -> has_rows m df2 -> has_rows (n + m) (append_columns df df2).
Proof.
  unfold has_rows, append_columns. intros Hdf. revert df2.
  induction Hdf as [|c df Hc _ IH]; intros df2 Hdf2; [constructor|].
  destruct Hdf2 as [|c2 df2 Hc2 Hdf2]; [constructor|].
  simpl. constructor.
  - simpl. rewrite length_app, Hc, Hc2. reflexivity.
  - apply IH. exact Hdf2.
Qed.

Section Rectangular.
Context `{Runtime}.

(** Tables with the same columns, each of one height, make such a table
    when [pl.concat] puts one below the other. *)
Lemma pl_concat_rectangular (names : list string) (df df2 df' : DataFrame) :
  (column_names df = names /\ exists n, has_rows n df) ->
  (column_names df2 = names /\ exists n, has_rows n df2) ->
  pl_concat df df2 = Ok df' ->
  column_names df' = names /\ exists n, has_rows n df'.
Proof.
  intros [Hn [n Hr]] [Hn2 [m Hr2]] Hcat.
  apply pl_concat_inv in Hcat as [Heq ->]. split.
  - rewrite append_columns_names by exact Heq. exact Hn.
  - exists (n + m)%nat. apply has_rows_append; assumption.
Qed.

End Rectangular.

(** X12. Whatever the service answers, a table that [fetch_comments] or
    [fetch_videos] returns has exactly the declared columns, in the
    declared order, and is rectangular: all its columns have the same
    number of cells. *)
Theorem fetched_table_is_rectangular `{Runtime} (fuel : nat)
    (video : Video.obj) (channel : Channel.obj) (st ct st' ct' : state)
    (df cdf : DataFrame) :
  Video.fetch_comments fuel video st = (Returns df, st') ->
  Channel.fetch_videos fuel channel ct = (Returns cdf, ct') ->
  (column_names df = map fst Video.schema /\ exists n, has_rows n df) /\
  (column_names cdf = map fst Channel.schema /\ exists n, has_rows n cdf).
Proof.
  intros Hv Hc. split.
  - unfold Video.fetch_comments in Hv.
    apply bind_inv in Hv as (threads & s1 & _ & Hv).
    apply bind_inv in Hv as (n & s2 & _ & Hv).
    rewrite VideoFacts.fetch_comments_loop_shape in Hv.
    eapply (batch_loop_invariant _ _
              (fun df => column_names df = map fst Video.schema /\ exists n, has_rows n df)
              (fun df => column_names df = map fst Video.schema /\ exists n, has_rows n df))
      in Hv; [exact Hv| | |].
    + intros b s df2 s' Hb.
      split; [eapply VideoFacts._fetch_comment_batch_names; eauto|].
      apply comment_batch_table in Hb
        as (ids & response & items & rows & _ & _ & _ & _ & Hdict & _).
      exists (length rows). apply (to_dict_has_rows _ _ _ Hdict).
      repeat constructor; simpl; rewrite !length_map; reflexivity.
    + apply pl_concat_rectangular.
    + split; [reflexivity|]. exists 0%nat. repeat constructor.
  - unfold Channel.fetch_videos in Hc.
    apply bind_inv in Hc as (vids & s1 & _ & Hc).
    apply bind_inv in Hc as (n & s2 & _ & Hc).
    rewrite ChannelFacts.fetch_videos_loop_shape in Hc.
    eapply (batch_loop_invariant _ _
              (fun df => column_names df = map fst Channel.schema /\ exists n, has_rows n df)
              (fun df => column_names df = map fst Channel.schema /\ exists n, has_rows n df))
      in Hc; [exact Hc| | |].
    + intros b s df2 s' Hb.
      split; [eapply ChannelFacts._fetch_video_batch_names; eauto|].
      apply video_batch_table in Hb
        as (ids & response & items & rows & _ & _ & _ & _ & Hdict & _).
      exists (length rows). apply (to_dict_has_rows _ _ _ Hdict).
      repeat constructor; simpl; rewrite !length_map; reflexivity.
    + apply pl_concat_rectangular.
    + split; [reflexivity|]. exists 0%nat. repeat constructor.
Qed.

Lemma fetched_table_is_rectangular_witness :
  exists df cdf,
    fst (Video.fetch_comments (H := Scripted.client) 1 Samples.video Samples.video_session)
    = Returns df /\
    fst (Channel.fetch_videos (H := Scripted.client) 1 Samples.channel
           Samples.channel_session) = Returns cdf /\
    has_rows 3 df /\ has_rows 3 cdf.
Proof.
  eexists _, _.
  edestruct (fetched_table_is_rectangular (H := Scripted.client) 1
               Samples.video Samples.channel Samples.video_session Samples.channel_session)
    as ((Hn & n & Hr) & (Hcn & m & Hcr)).
  - vm_compute; reflexivity.
  - vm_compute; reflexivity.
  - split; [vm_compute; reflexivity|]. split; [vm_compute; reflexivity|].
    inversion Hr as [|c df Hlen _]. simpl in Hlen. subst n.
    inversion Hcr as [|c' df' Hlen' _]. simpl in Hlen'. subst m.
    split; assumption.
Defined.

(** X13. The comment flattener compares [totalReplyCount] with zero, so
    a count that came as text, the way the service gives the counts of a
    video, cannot be read: the batch raises [TypeError] right after its
    request, whatever the items after the thread are, and returns no
    table. *)
Theorem textual_reply_count_aborts_batch `{Runtime}
    (video : Video.obj) (batch : value) (ids : string) (st : state)
    (response : value) (w' : world) (pre post : list value) (item : value)
    (comment comment_dt user_name like_cnt : value) (count : string) :
  py_join "," batch = Ok ids ->
  execute (Video.batch_request ids) (st_world st) = (Ok response, w') ->
  subscript response "items" = Ok (VList (pre ++ item :: post)) ->
  forallb (fun x => is_ok (CommentRecord.of_item x)) pre = true ->
  get_path item (CommentRecord.top ++ ["textDisplay"]) = Ok comment ->
  get_path item (CommentRecord.top ++ ["publishedAt"]) = Ok comment_dt ->
  get_path item (CommentRecord.top ++ ["authorDisplayName"]) = Ok user_name ->
  get_path item (CommentRecord.top ++ ["likeCount"]) = Ok like_cnt ->
  get_path item ["snippet"; "totalReplyCount"] = Ok (VStr count) ->
  Video._fetch_comment_batch video batch st
  = (Raises TypeError,
     State w' (st_trace st ++ [Executed (Video.batch_request ids)]) (st_dict st)).
Proof.
  intros Hj Hx Hi Hpre Hcomment Hdt Hname Hlike Hcount.
  rewrite (_fetch_comment_batch_answered video batch ids st response w' _ Hj Hx)
    by (rewrite Hi; reflexivity).
  rewrite CommentFacts.comment_items_records.
  rewrite (map_result_first_error _ pre post item TypeError Hpre); [reflexivity|].
  unfold CommentRecord.of_item.
  rewrite Hcomment, Hdt, Hname, Hlike, Hcount. reflexivity.
Qed.

Lemma textual_reply_count_aborts_batch_witness :
  fst (Video._fetch_comment_batch (H := Scripted.client) Samples.video
         (VList [VStr "t1"; VStr "t2"])
         (Scripted.start
            [Ok (Samples.page
                   [Samples.comment_thread "first" 3 0 None;
                    Samples.dict
                      [("snippet",
                        Samples.dict
                          [("topLevelComment", Samples.top_level_comment "second" 1);
                           ("totalReplyCount", VStr "2")])]] None)]))
  = Raises TypeError.
Proof.
  erewrite (textual_reply_count_aborts_batch (H := Scripted.client) Samples.video
              (VList [VStr "t1"; VStr "t2"]) "t1,t2" _ _ _
              [Samples.comment_thread "first" 3 0 None] []).
  - reflexivity.
  - reflexivity.
  - vm_compute; reflexivity.
  - reflexivity.
  - reflexivity.
  - reflexivity.
  - reflexivity.
  - reflexivity.
  - reflexivity.
  - reflexivity.
Defined.

(** ** A table that polars refuses *)

Section BatchRefusal.
Context `{Runtime}.

Lemma pl_concat_refused (schema : list (string * dtype)) (df df2 : DataFrame) :
  frame_schema df = schema ->
  column_names df2 = map fst schema ->
  fits schema df2 = false ->
  pl_concat df df2 = Err SchemaError.
Proof.
  intros Hs Hn Hfits. unfold fits in Hfits.
  rewrite (pl_concat_schema df (pl_DataFrame_schema schema) df2)
    by (rewrite frame_schema_declared; exact Hs).
  assert (column_names (pl_DataFrame_schema schema) = column_names df2) as Hnames.
  { rewrite Hn. unfold column_names. rewrite frame_schema_declared. reflexivity. }
  unfold pl_concat in *. rewrite decide_True in * by exact Hnames.
  destruct (forallb _ _); [discriminate Hfits|reflexivity].
Qed.

Variable ids_property : M value.
Variable fetch_batch : value -> M DataFrame.
Variable ids : list value.
Variable schema : list (string * dtype).

Hypothesis fetch_batch_dict :
  forall b st r st1, fetch_batch b st = (r, st1) -> st_dict st1 = st_dict st.
Hypothesis fetch_batch_names :
  forall b st df2 st1,
    fetch_batch b st = (Returns df2, st1) -> column_names df2 = map fst schema.
Hypothesis ids_property_cached :
  forall st st0, ids_property st0 = (Returns (VList ids), st) ->
    forall st1, st_dict st1 = st_dict st -> ids_property st1 = (Returns (VList ids), st1).

Lemma batch_loop_refused (indices : list nat) (i : nat) (rest : list nat) :
  forall (dfs : list DataFrame) (df df2 : DataFrame) (st0 st1 st st2 st3 : state),
    ids_property st0 = (Returns (VList ids), st1) ->
    st_dict st = st_dict st1 ->
    frame_schema df = schema ->
    runs fetch_batch (map (fun i => take 50 (drop i ids)) indices) st dfs st2 ->
    forallb (fits schema) dfs = true ->
    fetch_batch (VList (take 50 (drop i ids))) st2 = (Returns df2, st3) ->
    fits schema df2 = false ->
    batch_loop ids_property fetch_batch (indices ++ i :: rest) df st
    = (Raises SchemaError, slept st3).
Proof.
  induction indices as [|j indices IH];
    intros dfs df df2 st0 st1 st st2 st3 Hp Hd Hn Hruns Hfits Hf2 Hrefused.
  - inversion Hruns as [st_ Est Edfs Est'|]; clear Hruns. subst st_ st2.
    cbn [app batch_loop].
    rewrite (bind_returns _ _ _ _ _ (ids_property_cached _ _ Hp _ Hd)).
    unfold py_slice. rewrite lift_ok_bind.
    replace (i + 50 - i)%nat with 50%nat by lia.
    rewrite (bind_returns _ _ _ _ _ Hf2).
    rewrite (bind_returns _ _ _ _ _ (sleep_slept _)).
    rewrite (pl_concat_refused schema) by eauto.
    reflexivity.
  - simpl in Hruns.
    inversion Hruns as [|b bs st_ df3 st4 dfs' st5 Hf Hrest Eb Est Edfs Est']; clear Hruns.
    subst b bs st_ dfs st5. simpl in Hfits. apply andb_prop in Hfits as [Hfit Hfits].
    cbn [app batch_loop].
    rewrite (bind_returns _ _ _ _ _ (ids_property_cached _ _ Hp _ Hd)).
    unfold py_slice. rewrite lift_ok_bind.
    replace (j + 50 - j)%nat with 50%nat by lia.
    rewrite (bind_returns _ _ _ _ _ Hf).
    rewrite (bind_returns _ _ _ _ _ (sleep_slept _)).
    rewrite (pl_concat_fits schema) by assumption.
    rewrite lift_ok_bind.
    apply (IH dfs' _ df2 st0 st1 _ st2).
    + exact Hp.
    + simpl. rewrite (fetch_batch_dict _ _ _ _ Hf). exact Hd.
    + rewrite append_columns_schema; [exact Hn|].
      unfold column_names at 1. rewrite Hn. symmetry. apply fits_names. exact Hfit.
    + exact Hrest.
    + exact Hfits.
    + exact Hf2.
    + exact Hrefused.
Qed.

Lemma batch_loop_refused_at (n : nat) (done rest : list (list value)) (b : list value)
    (dfs : list DataFrame) (df df2 : DataFrame) (st0 st1 st2 st3 : state) :
  ids_property st0 = (Returns (VList ids), st1) ->
  frame_schema df = schema ->
  map (fun i => take 50 (drop i ids)) (py_range 0 n 50) = done ++ b :: rest ->
  runs fetch_batch done st1 dfs st2 ->
  forallb (fits schema) dfs = true ->
  fetch_batch (VList b) st2 = (Returns df2, st3) ->
  fits schema df2 = false ->
  batch_loop ids_property fetch_batch (py_range 0 n 50) df st1
  = (Raises SchemaError, slept st3).
Proof.
  intros Hp Hn Hsplit Hruns Hfits Hf2 Hrefused.
  apply map_eq_app in Hsplit as (indices & tl & -> & <- & Htl).
  apply map_eq_cons in Htl as (i & rest' & -> & <- & _).
  eapply batch_loop_refused; eauto.
Qed.

End BatchRefusal.

(** X14. A batch table that polars does not accept below the declared
    columns, one with a column of numbers where text is declared say,
    ends the fetch: [fetch_comments] and [fetch_videos] raise
    [SchemaError] from their [pl.concat], right after the nap that follows
    the batch; the tables of the batches before are lost and the batches
    after are not asked for. *)
Theorem refused_table_aborts_fetch `{Runtime} (fuel : nat)
    (video : Video.obj) (channel : Channel.obj) (st ct : state)
    (threads vids : list value) (done rest cdone crest : list (list value))
    (b cb : list value) (st0 st1 st2 ct0 ct1 ct2 : state)
    (dfs cdfs : list DataFrame) (df2 cdf2 : DataFrame) :
  Video.comment_threads fuel video st = (Returns (VList threads), st0) ->
  batches threads = done ++ b :: rest ->
  runs (Video._fetch_comment_batch video) done st0 dfs st1 ->
  forallb (fits Video.schema) dfs = true ->
  Video._fetch_comment_batch video (VList b) st1 = (Returns df2, st2) ->
  fits Video.schema df2 = false ->
  Channel.video_ids fuel channel ct = (Returns (VList vids), ct0) ->
  batches vids = cdone ++ cb :: crest ->
  runs (Channel._fetch_video_batch channel) cdone ct0 cdfs ct1 ->
  forallb (fits Channel.schema) cdfs = true ->
  Channel._fetch_video_batch channel (VList cb) ct1 = (Returns cdf2, ct2) ->
  fits Channel.schema cdf2 = false ->
  Video.fetch_comments fuel video st = (Raises SchemaError, slept st2) /\
  Channel.fetch_videos fuel channel ct = (Raises SchemaError, slept ct2).
Proof.
  intros Hp Hsplit Hruns Hfits Hf2 Hrefused Hcp Hcsplit Hcruns Hcfits Hcf2 Hcrefused.
  split.
  - unfold Video.fetch_comments.
    rewrite (bind_returns _ _ _ _ _ Hp). cbn [py_len]. rewrite lift_ok_bind.
    rewrite VideoFacts.fetch_comments_loop_shape.
    eapply (batch_loop_refused_at _ _ threads Video.schema); eauto.
    + intros b' s r s'; apply VideoFacts._fetch_comment_batch_dict.
    + intros; eapply VideoFacts._fetch_comment_batch_names; eauto.
    + intros; eapply cached_property_again; eauto.
  - unfold Channel.fetch_videos.
    rewrite (bind_returns _ _ _ _ _ Hcp). cbn [py_len]. rewrite lift_ok_bind.
    rewrite ChannelFacts.fetch_videos_loop_shape.
    eapply (batch_loop_refused_at _ _ vids Channel.schema); eauto.
    + intros b' s r s'; apply ChannelFacts._fetch_video_batch_dict.
    + intros; eapply ChannelFacts._fetch_video_batch_names; eauto.
    + intros; eapply cached_property_again; eauto.
Qed.

Lemma refused_table_aborts_fetch_witness :
  fst (Video.fetch_comments (H := Scripted.client) 1 Samples.video
         Samples.numeric_text_session) = Raises SchemaError /\
  fst (Channel.fetch_videos (H := Scripted.client) 1 Samples.channel
         Samples.numeric_views_session) = Raises SchemaError.
Proof.
  edestruct (refused_table_aborts_fetch (H := Scripted.client) 1
               Samples.video Samples.channel
               Samples.numeric_text_session Samples.numeric_views_session
               [VStr "t1"] [VStr "v0"])
    with (done := @nil (list value)) (cdone := @nil (list value))
    as (Hv & Hc).
  - vm_compute; reflexivity.
  - vm_compute; reflexivity.
  - apply runs_nil.
  - reflexivity.
  - vm_compute; reflexivity.
  - vm_compute; reflexivity.
  - vm_compute; reflexivity.
  - vm_compute; reflexivity.
  - apply runs_nil.
  - reflexivity.
  - vm_compute; reflexivity.
  - vm_compute; reflexivity.
  - rewrite Hv, Hc. split; reflexivity.
Defined.
